(** * Political-risk tracker: score model, weekly update and monthly archive

    A shallow embedding of [scripts/weekly-update.js] and
    [scripts/monthly-archive.js].

    Conventions of the embedding.
    - A JavaScript number is an exact rational ([Q]).  From integer
      category scores the two scripts compute integers, or integers
      divided by 3, 4, 10 or 100, and from overall scores with one decimal
      a difference with one decimal: there the rational reading is the
      decimal reading of the double.  On other numbers read from a file
      (an overall score such as 5.75) the double arithmetic of the code
      can round another way than the rationals do, and the theorems that
      depend on it say which numbers they are about.
      [Math.round] is [floor (x + 1/2)] (ties go up).
    - A JavaScript string is a [string] of 8-bit code units; code units
      above 255 are outside the model.
    - A plain object used as a record keyed by strings is an association
      list in insertion order ([JSObject]); [Object.entries] walks it in
      that order.
    - A directory is a finite map from file names to documents; a JSON file
      is represented by the document it holds. *)

From Stdlib Require Import ZArith QArith Qround Qabs Lqa String Ascii List Lia Bool.
From stdpp Require Import gmap strings pretty.
Import ListNotations.

Local Open Scope string_scope.

(** ** JavaScript strings *)

Module JSString.

Definition code (c : ascii) : N := N_of_ascii c.

(** [StrWhiteSpaceChar] restricted to 8-bit code units:
    TAB, LF, VT, FF, CR, SP and NBSP. *)
Definition isWhiteSpace (c : ascii) : bool :=
  let n := code c in
  ((9 <=? n) && (n <=? 13) || (n =? 32) || (n =? 160))%N.

(** [String.prototype.toLowerCase] on one 8-bit code unit: A-Z and the
    Latin-1 capitals (all of 192..222 but the multiplication sign). *)
Definition lowerChar (c : ascii) : ascii :=
  let n := code c in
  if ((65 <=? n) && (n <=? 90)
      || (192 <=? n) && (n <=? 222) && negb (n =? 215))%N
  then ascii_of_N (n + 32) else c.

Fixpoint toLowerCase (s : string) : string :=
  match s with
  | EmptyString => EmptyString
  | String c r => String (lowerChar c) (toLowerCase r)
  end.

Fixpoint trimStart (s : string) : string :=
  match s with
  | EmptyString => EmptyString
  | String c r => if isWhiteSpace c then trimStart r else s
  end.

(** [trimEnd] drops the trailing white space: a character survives when
    it is not white space or when something after it survives. *)
Fixpoint trimEnd (s : string) : string :=
  match s with
  | EmptyString => EmptyString
  | String c r =>
      match trimEnd r with
      | EmptyString => if isWhiteSpace c then EmptyString else String c EmptyString
      | r' => String c r'
      end
  end.

Definition trim (s : string) : string := trimEnd (trimStart s).

(** Truthiness of a string: the empty string is the only falsy one. *)
Definition truthy (s : string) : bool :=
  match s with EmptyString => false | _ => true end.

(** [s[0]]: the first code unit, [undefined] on the empty string. *)
Definition first (s : string) : option string :=
  match s with
  | EmptyString => None
  | String c _ => Some (String c EmptyString)
  end.

(** Value of a code unit as a digit of the given radix (10 or 16). *)
Definition digitValue (radix : Z) (c : ascii) : option Z :=
  let n := Z.of_N (code c) in
  let v :=
    (if (48 <=? n) && (n <=? 57) then Some (n - 48)
     else if (97 <=? n) && (n <=? 102) then Some (n - 87)
     else if (65 <=? n) && (n <=? 70) then Some (n - 55)
     else None)%Z in
  match v with
  | Some d => if (d <? radix)%Z then Some d else None
  | None => None
  end.

(** The longest prefix of radix digits, read left to right; [seen] says
    whether at least one digit has been consumed. *)
Fixpoint readDigits (radix : Z) (seen : bool) (acc : Z) (s : string)
  : option Z :=
  match s with
  | EmptyString => if seen then Some acc else None
  | String c r =>
      match digitValue radix c with
      | Some d => readDigits radix true (acc * radix + d)%Z r
      | None => if seen then Some acc else None
      end
  end.

(** The sign of [parseInt]: one leading [-] or [+] is consumed. *)
Definition readSign (s : string) : Z * string :=
  match s with
  | String c r =>
      if Ascii.eqb c "-" then ((-1)%Z, r)
      else if Ascii.eqb c "+" then (1%Z, r)
      else (1%Z, s)
  | EmptyString => (1%Z, s)
  end.

(** The radix of [parseInt] when none is given: 16 after a [0x] or [0X]
    prefix, which is consumed, and 10 otherwise. *)
Definition readRadix (s : string) : Z * string :=
  match s with
  | String c0 (String c1 r) =>
      if Ascii.eqb c0 "0" && (Ascii.eqb c1 "x" || Ascii.eqb c1 "X")
      then (16%Z, r)
      else (10%Z, s)
  | _ => (10%Z, s)
  end.

(** [parseInt(s)] with no radix argument (ECMA-262, 19.2.5): leading white
    space is skipped, one sign is read, a [0x]/[0X] prefix selects radix
    16, and the longest digit prefix is the result; [None] is [NaN].
    The sign of zero is not kept, and the value is exact where an engine
    may round beyond 2^53: the callers only compare the result with 0, 1
    and 10. *)
Definition parseInt (s : string) : option Z :=
  let '(sign, s2) := readSign (trimStart s) in
  let '(radix, s3) := readRadix s2 in
  match readDigits radix false 0 s3 with
  | Some n => Some (sign * n)%Z
  | None => None
  end.

End JSString.

(** ** JavaScript numbers and objects *)

Module JS.

(** [Math.round]: the nearest integer, a tie going towards +infinity. *)
Definition Math_round (x : Q) : Z := Qfloor (x + (1 # 2)).

Definition Math_max (a b : Z) : Z := Z.max a b.
Definition Math_min (a b : Z) : Z := Z.min a b.

(** [a < b] on numbers. *)
Definition lt (a b : Q) : bool :=
  (Qnum a * Zpos (Qden b) <? Qnum b * Zpos (Qden a))%Z.

(** [a === b] on numbers. *)
Definition strictEq (a b : Q) : bool := Qeq_bool a b.

(** A plain object with string keys, in insertion order. *)
Definition JSObject (V : Type) : Type := list (string * V).

Section Object.
Context {V : Type}.

(** [o[k]]; [None] is [undefined]. *)
Fixpoint get (o : JSObject V) (k : string) : option V :=
  match o with
  | [] => None
  | (k', v) :: r => if String.eqb k' k then Some v else get r k
  end.

(** [o[k] = v]: an existing key keeps its place, a new one goes last. *)
Fixpoint set (o : JSObject V) (k : string) (v : V) : JSObject V :=
  match o with
  | [] => [(k, v)]
  | (k', v') :: r =>
      if String.eqb k' k then (k', v) :: r else (k', v') :: set r k v
  end.

Definition keys (o : JSObject V) : list string := map fst o.
End Object.

End JS.

(** ** Data model ([lib/types.ts]) *)

Inductive RiskLevel : Type := Low | Moderate | Elevated | High | Severe.

(** The value of a category's [trend] field.  The weekly script looks the
    operator's answer up in an object literal, so besides the three trends
    it can store a property inherited from [Object.prototype]
    ([TrendInherited], under the name that was looked up). *)
Inductive Trend : Type :=
| increasing | stable | decreasing
| TrendInherited (key : string).

Record CategoryScore : Type := mkCategoryScore {
  score : Q;
  trend : Trend;
  keyFindings : list string;
  sources : option (list string);
  lastUpdated : string
}.

Record CurrentAssessment : Type := mkCurrentAssessment {
  assessmentDate : string;
  assessmentPeriod : string;
  scores : JS.JSObject CategoryScore;
  domainScores : JS.JSObject Q;
  overallScore : Q;
  riskLevel : RiskLevel
}.

(** ** Score model ([scripts/weekly-update.js]) *)

Definition CATEGORIES : list string :=
  [ "elections"; "rule-of-law"; "national-security"; "regulatory-stability";
    "trade-policy"; "government-contracts"; "fiscal-policy"; "media-freedom";
    "civil-discourse"; "institutional-integrity" ].

Definition DOMAINS : JS.JSObject (list string) :=
  [ ("rule-of-law", ["elections"; "rule-of-law"; "national-security"]);
    ("operating-economic",
      ["regulatory-stability"; "trade-policy"; "government-contracts";
       "fiscal-policy"]);
    ("societal-institutional",
      ["media-freedom"; "civil-discourse"; "institutional-integrity"]) ].

(** [cats.reduce((acc, cat) => acc + scores[cat].score, 0)]; reading
    [.score] of a missing category throws a TypeError ([None]). *)
Definition sumScores (scores : JS.JSObject CategoryScore) (cats : list string)
  : option Q :=
  fold_left
    (fun acc cat =>
       match acc, JS.get scores cat with
       | Some a, Some c => Some (a + score c)%Q
       | _, _ => None
       end)
    cats (Some 0%Q).

Definition lengthQ {A : Type} (l : list A) : Q := inject_Z (Z.of_nat (length l)).

Fixpoint domainScoresLoop (scores : JS.JSObject CategoryScore)
  (entries : JS.JSObject (list string)) (acc : JS.JSObject Q)
  : option (JS.JSObject Q) :=
  match entries with
  | [] => Some acc
  | (domain, categories) :: rest =>
      match sumScores scores categories with
      | Some sum =>
          domainScoresLoop scores rest
            (JS.set acc domain
               (inject_Z (JS.Math_round ((sum / lengthQ categories) * 100)) / 100)%Q)
      | None => None
      end
  end.

Definition calculateDomainScores (scores : JS.JSObject CategoryScore)
  : option (JS.JSObject Q) :=
  domainScoresLoop scores DOMAINS [].

Definition calculateOverallScore (scores : JS.JSObject CategoryScore)
  : option Q :=
  match sumScores scores CATEGORIES with
  | Some sum =>
      Some (inject_Z (JS.Math_round ((sum / lengthQ CATEGORIES) * 10)) / 10)%Q
  | None => None
  end.

Definition getRiskLevel (score : Q) : RiskLevel :=
  if JS.lt score 3 then Low
  else if JS.lt score 5 then Moderate
  else if JS.lt score 7 then Elevated
  else if JS.lt score 9 then High
  else Severe.

(** ** Interactive update procedure ([scripts/weekly-update.js]) *)

Module Weekly.

(** What an [async] function does at the end of a call: it returns, it
    waits forever on a prompt nobody answers, or it throws. *)
Inductive result (A : Type) : Type :=
| Ret (a : A)
| Stall
| Throw.
Arguments Ret {A} a.
Arguments Stall {A}.
Arguments Throw {A}.

(** The state a session threads: the operator's answers still to come,
    the object [current] held in memory (the categories in it are
    mutated in place), and the file [data/current.json]. *)
Record Session : Type := mkSession {
  answers : list string;
  current : CurrentAssessment;
  current_json : option CurrentAssessment
}.

Definition IO (A : Type) : Type := Session -> result A * Session.

Definition ret {A : Type} (a : A) : IO A := fun s => (Ret a, s).

Definition bind {A B : Type} (m : IO A) (f : A -> IO B) : IO B :=
  fun s =>
    match m s with
    | (Ret a, s') => f a s'
    | (Stall, s') => (Stall, s')
    | (Throw, s') => (Throw, s')
    end.

Declare Scope io_scope.
Delimit Scope io_scope with io.
Notation "x <- m ;; k" := (bind m (fun x => k))
  (at level 100, m at next level, right associativity) : io_scope.
Notation "m ;;; k" := (bind m (fun _ => k))
  (at level 100, right associativity) : io_scope.
Local Open Scope io_scope.

Definition throw {A : Type} : IO A := fun s => (Throw, s).

(** [await question(rl, prompt)]: the next answer of the operator. *)
Definition question : IO string :=
  fun s =>
    match answers s with
    | [] => (Stall, s)
    | a :: rest => (Ret a, mkSession rest (current s) (current_json s))
    end.

(** A loop that only reads answers, run inside a session. *)
Definition reading {A : Type}
  (loop : list string -> result A * list string) : IO A :=
  fun s =>
    let '(r, rest) := loop (answers s) in
    (r, mkSession rest (current s) (current_json s)).

Definition getCurrent : IO CurrentAssessment := fun s => (Ret (current s), s).

Definition setCurrent (c : CurrentAssessment) : IO unit :=
  fun s => (Ret tt, mkSession (answers s) c (current_json s)).

(** [fs.writeFileSync(CURRENT_PATH, JSON.stringify(current, null, 2))].
    (A [TrendInherited] trend does not survive [JSON.stringify] as it is;
    nothing below reads a trend back.) *)
Definition writeCurrent : IO unit :=
  fun s => (Ret tt, mkSession (answers s) (current s) (Some (current s))).

(** [selected.add(x)] on a [Set], kept in insertion order. *)
Definition setAdd (selected : list string) (x : string) : list string :=
  if existsb (String.eqb x) selected then selected else selected ++ [x].

(** The [while (true)] loop of [selectCategories]. *)
Fixpoint selectLoop (selected : list string) (inputs : list string)
  : result (list string) * list string :=
  match inputs with
  | [] => (Stall, [])
  | input :: rest =>
      if String.eqb (JSString.toLowerCase input) "q" then (Ret selected, rest)
      else
        match JSString.parseInt input with
        | Some num =>
            if (num =? 0)%Z then (Ret (fold_left setAdd CATEGORIES selected), rest)
            else if ((1 <=? num) && (num <=? Z.of_nat (length CATEGORIES)))%Z
            then selectLoop
                   (setAdd selected (nth (Z.to_nat (num - 1)) CATEGORIES ""))
                   rest
            else selectLoop selected rest
        | None => selectLoop selected rest
        end
  end.

Definition selectCategories : IO (list string) := reading (selectLoop []).

(** [cat.field = v] for the category object [current.scores[categoryId]],
    which [cat] aliases. *)
Definition modifyCategory (categoryId : string)
  (f : CategoryScore -> CategoryScore) : IO unit :=
  fun s =>
    let c := current s in
    match JS.get (scores c) categoryId with
    | Some cat =>
        (Ret tt,
         mkSession (answers s)
           (mkCurrentAssessment (assessmentDate c) (assessmentPeriod c)
              (JS.set (scores c) categoryId (f cat))
              (domainScores c) (overallScore c) (riskLevel c))
           (current_json s))
    | None => (Throw, s)
    end.

(** [current.scores[categoryId]], whose fields the caller reads at once:
    a missing category throws a TypeError. *)
Definition getCategory (categoryId : string) : IO CategoryScore :=
  fun s =>
    match JS.get (scores (current s)) categoryId with
    | Some cat => (Ret cat, s)
    | None => (Throw, s)
    end.

Definition setScore (v : Q) (cat : CategoryScore) : CategoryScore :=
  mkCategoryScore v (trend cat) (keyFindings cat) (sources cat) (lastUpdated cat).
Definition setTrend (v : Trend) (cat : CategoryScore) : CategoryScore :=
  mkCategoryScore (score cat) v (keyFindings cat) (sources cat) (lastUpdated cat).
Definition setKeyFindings (v : list string) (cat : CategoryScore) : CategoryScore :=
  mkCategoryScore (score cat) (trend cat) v (sources cat) (lastUpdated cat).
Definition setSources (v : list string) (cat : CategoryScore) : CategoryScore :=
  mkCategoryScore (score cat) (trend cat) (keyFindings cat) (Some v) (lastUpdated cat).
Definition setLastUpdated (v : string) (cat : CategoryScore) : CategoryScore :=
  mkCategoryScore (score cat) (trend cat) (keyFindings cat) (sources cat) v.

(** [Math.max(1, Math.min(10, n))]. *)
Definition clampScore (n : Z) : Z := JS.Math_max 1 (JS.Math_min 10 n).

(** The score step of [updateCategory]:
    [if (newScore && !isNaN(parseInt(newScore))) cat.score = clamp]. *)
Definition updateScore (categoryId newScore : string) : IO unit :=
  if JSString.truthy newScore then
    match JSString.parseInt newScore with
    | Some n => modifyCategory categoryId (setScore (inject_Z (clampScore n)))
    | None => ret tt
    end
  else ret tt.

(** [trendMap[key]] for the literal
    [{ 'i': 'increasing', 's': 'stable', 'd': 'decreasing' }]; the two
    lower-case property names of [Object.prototype] are found too, and
    their values are truthy. *)
Definition trendMap (key : string) : option Trend :=
  if String.eqb key "i" then Some increasing
  else if String.eqb key "s" then Some stable
  else if String.eqb key "d" then Some decreasing
  else if String.eqb key "constructor" || String.eqb key "__proto__"
  then Some (TrendInherited key)
  else None.

Definition updateTrend (categoryId trendInput : string) : IO unit :=
  if JSString.truthy trendInput then
    let lower := JSString.toLowerCase trendInput in
    let found :=
      match trendMap lower with
      | Some t => Some t
      | None =>
          match JSString.first lower with
          | Some c => trendMap c
          | None => None
          end
      end in
    match found with
    | Some t => modifyCategory categoryId (setTrend t)
    | None => ret tt
    end
  else ret tt.

(** The [while (true)] loops that collect findings and sources: trimmed
    lines up to the first blank one. *)
Fixpoint readLines (acc : list string) (inputs : list string)
  : result (list string) * list string :=
  match inputs with
  | [] => (Stall, [])
  | line :: rest =>
      if JSString.truthy (JSString.trim line)
      then readLines (acc ++ [JSString.trim line]) rest
      else (Ret acc, rest)
  end.

Definition nonEmpty {A : Type} (l : list A) : bool :=
  match l with [] => false | _ => true end.

Definition updateCategory (today : string) (categoryId : string) : IO unit :=
  _ <- getCategory categoryId ;;
  newScore <- question ;;
  updateScore categoryId newScore ;;;
  trendInput <- question ;;
  updateTrend categoryId trendInput ;;;
  updateFindings <- question ;;
  (if String.eqb (JSString.toLowerCase updateFindings) "y" then
     newFindings <- reading (readLines []) ;;
     if nonEmpty newFindings
     then modifyCategory categoryId (setKeyFindings newFindings)
     else ret tt
   else ret tt) ;;;
  cat <- getCategory categoryId ;;
  match sources cat with
  | None => throw
  | Some _ =>
      updateSources <- question ;;
      (if String.eqb (JSString.toLowerCase updateSources) "y" then
         newSources <- reading (readLines []) ;;
         if nonEmpty newSources
         then modifyCategory categoryId (setSources newSources)
         else ret tt
       else ret tt) ;;;
      modifyCategory categoryId (setLastUpdated today)
  end.

(** [for (const categoryId of selectedCategories) await updateCategory] *)
Fixpoint updateAll (today : string) (selected : list string) : IO unit :=
  match selected with
  | [] => ret tt
  | categoryId :: rest =>
      updateCategory today categoryId ;;; updateAll today rest
  end.

(** The recalculation block of [main]; the four fields are assigned one
    after the other, and a TypeError in between leaves the earlier ones
    assigned. *)
Definition recalculate (today : string) : IO unit :=
  c <- getCurrent ;;
  match calculateDomainScores (scores c) with
  | None => throw
  | Some ds =>
      let c1 := mkCurrentAssessment (assessmentDate c) (assessmentPeriod c)
                  (scores c) ds (overallScore c) (riskLevel c) in
      setCurrent c1 ;;;
      match calculateOverallScore (scores c1) with
      | None => throw
      | Some o =>
          setCurrent
            (mkCurrentAssessment today (assessmentPeriod c1) (scores c1)
               (domainScores c1) o (getRiskLevel o))
      end
  end.

(** How a run of the script ends. *)
Inductive Outcome : Type :=
| Saved | Discarded | NoSelection | Waiting | Failed.

(** [main] once [current] has been read from the file. *)
Definition session (today : string) : IO Outcome :=
  selectedCategories <- selectCategories ;;
  if nonEmpty selectedCategories then
    updateAll today selectedCategories ;;;
    recalculate today ;;;
    confirm <- question ;;
    if negb (String.eqb (JSString.toLowerCase confirm) "n")
    then writeCurrent ;;; ret Saved
    else ret Discarded
  else ret NoSelection.

(** [main().catch(console.error)], given the date of the day, the answers
    the operator will type and the content of [data/current.json]; it
    returns how the run ended and the content of the file afterwards. *)
Definition main (today : string) (inputs : list string)
  (file : option CurrentAssessment) : Outcome * option CurrentAssessment :=
  match file with
  | None => (Failed, file)
  | Some c =>
      match session today (mkSession inputs c file) with
      | (Ret o, s) => (o, current_json s)
      | (Stall, s) => (Waiting, current_json s)
      | (Throw, s) => (Failed, current_json s)
      end
  end.

End Weekly.

(** ** Monthly archive ([scripts/monthly-archive.js]) *)

(** [HistoricalSnapshot] of [lib/types.ts]. *)
Module Snapshot.
Record t : Type := mk {
  date : string;
  scores : JS.JSObject Q;
  domainScores : JS.JSObject Q;
  overallScore : Q;
  riskLevel : RiskLevel
}.
End Snapshot.

(** An entry of [data/historical-changes.json], and the template the
    archive script prints for the next one. *)
Module Change.
(** [from] is [undefined] ([None]) when the snapshot has no score for
    the category. *)
Record category : Type := mkCategory {
  category_id : string;
  from : option Q;
  to : Q;
  rationale : string
}.

(** [overallChange] is a number or [null] ([None]); the history page
    tests it against [null]. *)
Record t : Type := mk {
  period : string;
  date : string;
  overallScore : Q;
  overallChange : option Q;
  summary : string;
  keyDevelopments : list string;
  categoryChanges : list category
}.
End Change.

Module Archive.

(** *** Text helpers *)

Definition LF : string := String (ascii_of_nat 10) EmptyString.

(** The double-quote character. *)
Definition DQ : string := String (ascii_of_nat 34) EmptyString.

(** [s.split('-')]-style splitting on one character. *)
Fixpoint split (sep : ascii) (s : string) : list string :=
  match s with
  | EmptyString => [EmptyString]
  | String c r =>
      if Ascii.eqb c sep then EmptyString :: split sep r
      else
        match split sep r with
        | h :: t => String c h :: t
        | [] => [String c EmptyString]
        end
  end.

(** [String(x).padStart(2, '0')]. *)
Definition padStart2 (s : string) : string :=
  match String.length s with
  | O => "00"
  | S O => "0" ++ s
  | _ => s
  end.

(** [content.includes(sub)]. *)
Definition includes (content sub : string) : bool :=
  match String.index 0 sub content with Some _ => true | None => false end.

(** The rest of [s] after the literal [p], when [s] starts with it. *)
Fixpoint stripPrefix (p s : string) : option string :=
  match p, s with
  | EmptyString, _ => Some s
  | String a p', String b s' =>
      if Ascii.eqb a b then stripPrefix p' s' else None
  | String _ _, EmptyString => None
  end.

Fixpoint dropWhile (cls : ascii -> bool) (s : string) : string :=
  match s with
  | EmptyString => EmptyString
  | String c r => if cls c then dropWhile cls r else s
  end.

(** A greedy [cls+]: at least one character of the class. *)
Definition many1 (cls : ascii -> bool) (s : string) : option string :=
  match s with
  | String c r => if cls c then Some (dropWhile cls r) else None
  | EmptyString => None
  end.

Definition isDigit (c : ascii) : bool :=
  let n := JSString.code c in ((48 <=? n) && (n <=? 57))%N.

Definition isDigitOrDash (c : ascii) : bool :=
  isDigit c || Ascii.eqb c "-".

(** [content.slice(0, pos) + text + content.slice(pos)]. *)
Definition insertAt (pos : nat) (text content : string) : string :=
  substring 0 pos content ++ text
  ++ substring pos (String.length content - pos) content.

(** Number to string, as a template literal does it: the decimal
    expansion, at most 17 fractional digits.  It is the text JavaScript
    prints for the decimal numbers of a JSON file from 1e-6 up to 1e21 in
    magnitude, beyond which JavaScript turns to exponent notation. *)
Fixpoint fractionDigits (fuel : nat) (num den : Z) : string :=
  match fuel with
  | O => EmptyString
  | S fuel' =>
      if (num =? 0)%Z then EmptyString
      else pretty (num * 10 / den)%Z
           ++ fractionDigits fuel' ((num * 10) mod den)%Z den
  end.

Definition numberToString (x : Q) : string :=
  let n := Qnum x in
  let d := Zpos (Qden x) in
  let a := Z.abs n in
  (if (n <? 0)%Z then "-" else "")
  ++ pretty (a / d)%Z
  ++ (if (a mod d =? 0)%Z then ""
      else "." ++ fractionDigits 17 (a mod d)%Z d).

Definition valueToString (x : option Q) : string :=
  match x with Some q => numberToString q | None => "undefined" end.

(** *** The clock *)

(** What the script reads of [new Date()]. *)
Record Clock : Type := mkClock {
  getFullYear : Z;
  getMonth : nat
}.

Definition months : list string :=
  [ "January"; "February"; "March"; "April"; "May"; "June";
    "July"; "August"; "September"; "October"; "November"; "December" ].

Definition getDateString (now : Clock) : string :=
  pretty (getFullYear now) ++ "-"
  ++ padStart2 (pretty (getMonth now + 1)%nat) ++ "-" ++ "20".

Definition getMonthYear (now : Clock) : string :=
  nth (getMonth now) months "undefined" ++ " " ++ pretty (getFullYear now).

Definition getImportName (dateStr : string) : string :=
  match split "-" dateStr with
  | year :: month :: _ => "history" ++ year ++ month
  | year :: [] => "history" ++ year ++ "undefined"
  | [] => "historyundefinedundefined"
  end.

(** *** Files and console *)

(** The four places the script reads or writes: [data/current.json],
    the directory [data/history] (file name to snapshot),
    [app/history/page.tsx] and [data/historical-changes.json].  A file
    that is [None] does not exist. *)
Record Files : Type := mkFiles {
  current_json : option CurrentAssessment;
  history : gmap string Snapshot.t;
  history_page : option string;
  changes_json : option (list Change.t)
}.

Inductive Output : Type :=
| Log (line : string)
| LogTemplate (template : Change.t).

Record World : Type := mkWorld {
  files : Files;
  console : list Output
}.

(** A step of the script: a value, or [None] for an exception that
    nothing catches, and the world afterwards. *)
Definition Script (A : Type) : Type := World -> option A * World.

Definition ret {A : Type} (a : A) : Script A := fun w => (Some a, w).

Definition bind {A B : Type} (m : Script A) (f : A -> Script B) : Script B :=
  fun w =>
    match m w with
    | (Some a, w') => f a w'
    | (None, w') => (None, w')
    end.

Declare Scope script_scope.
Delimit Scope script_scope with script.
Notation "x <- m ;; k" := (bind m (fun x => k))
  (at level 100, m at next level, right associativity) : script_scope.
Notation "m ;;; k" := (bind m (fun _ => k))
  (at level 100, right associativity) : script_scope.
Local Open Scope script_scope.

Definition throw {A : Type} : Script A := fun w => (None, w).

Definition console_log (line : string) : Script unit :=
  fun w => (Some tt, mkWorld (files w) (console w ++ [Log line])).

Definition console_log_template (t : Change.t) : Script unit :=
  fun w => (Some tt, mkWorld (files w) (console w ++ [LogTemplate t])).

Definition getFiles : Script Files := fun w => (Some (files w), w).

Definition setFiles (f : Files) : Script unit :=
  fun w => (Some tt, mkWorld f (console w)).

(** [JSON.parse(fs.readFileSync(path))] of a file that may be missing. *)
Definition readFile {A : Type} (file : Files -> option A) : Script A :=
  f <- getFiles ;;
  match file f with
  | Some a => ret a
  | None => throw
  end.

(** *** The functions of the script *)

Definition createHistorySnapshot (current : CurrentAssessment)
  (dateStr : string) : Snapshot.t :=
  Snapshot.mk dateStr
    (fold_left (fun acc entry => JS.set acc (fst entry) (score (snd entry)))
       (scores current) [])
    (domainScores current) (overallScore current) (riskLevel current).

(** The global [importRegex.exec] loop: the end of the last match of
    [import history\d+ from '@/data/history/[\d-]+\.json';\n]. *)
Definition matchImport (s : string) : option string :=
  match stripPrefix "import history" s with
  | Some s1 =>
      match many1 isDigit s1 with
      | Some s2 =>
          match stripPrefix " from '@/data/history/" s2 with
          | Some s3 =>
              match many1 isDigitOrDash s3 with
              | Some s4 => stripPrefix (".json';" ++ LF) s4
              | None => None
              end
          | None => None
          end
      | None => None
      end
  | None => None
  end.

(** [skip] counts the characters of the match just found that the next
    search still has to step over. *)
Fixpoint lastImportEnd (s : string) (skip pos : nat) (last : option nat)
  : option nat :=
  match s with
  | EmptyString => last
  | String _ r =>
      match skip with
      | S k => lastImportEnd r k (S pos) last
      | O =>
          match matchImport s with
          | Some rest =>
              let len := (String.length s - String.length rest)%nat in
              lastImportEnd r (len - 1) (S pos) (Some (pos + len)%nat)
          | None => lastImportEnd r 0 (S pos) last
          end
      end
  end.

Definition arrayOpening : string :=
  "const historicalSnapshots: HistoricalSnapshot[] = [".

(** The place of the first [  ];] after the first [arrayOpening]: where
    the lazy [arrayRegex] ends its first group. *)
Definition arrayClosing (content : string) : option nat :=
  match String.index 0 arrayOpening content with
  | Some i => String.index (i + String.length arrayOpening) "  ];" content
  | None => None
  end.

(** The array entry goes in through [content.replace(arrayRegex, ...)] with
    the import name inside the replacement pattern; it is put here as it
    is, which is what [replace] does for an import name without [$], the
    only ones a date made by [getDateString] gives. *)
Definition updateHistoryPage (dateStr : string) : Script bool :=
  let importName := getImportName dateStr in
  content <- readFile history_page ;;
  if includes content importName then
    console_log ("  Import " ++ importName
                 ++ " already exists in history/page.tsx") ;;;
    ret false
  else
    let content1 :=
      match lastImportEnd content 0 0 None with
      | Some insertPos =>
          insertAt insertPos
            ("import " ++ importName ++ " from '@/data/history/"
             ++ dateStr ++ ".json';" ++ LF)
            content
      | None => content
      end in
    let content2 :=
      match arrayClosing content1 with
      | Some pos =>
          insertAt pos
            ("    " ++ importName ++ " as HistoricalSnapshot," ++ LF)
            content1
      | None => content1
      end in
    f <- getFiles ;;
    setFiles (mkFiles (current_json f) (history f) (Some content2)
                (changes_json f)) ;;;
    ret true.

(** [null] is the inner [None]. *)
Definition getPreviousMonthData : Script (option Change.t) :=
  changes <- readFile changes_json ;;
  ret (last changes).

(** [fs.readdirSync(HISTORY_DIR).sort()]: the file names in code-unit
    order. *)
Fixpoint insertSorted (x : string) (l : list string) : list string :=
  match l with
  | [] => [x]
  | y :: r => if String.leb x y then x :: l else y :: insertSorted x r
  end.

Definition sort (l : list string) : list string :=
  fold_right insertSorted [] l.

Definition readdirSync (dir : gmap string Snapshot.t) : list string :=
  fst <$> map_to_list dir.

(** The loop over [Object.entries(current.scores)]. *)
Fixpoint detectChanges (lastSnapshot : Snapshot.t)
  (entries : JS.JSObject CategoryScore) : list Change.category :=
  match entries with
  | [] => []
  | (categoryId, categoryData) :: rest =>
      let oldScore := JS.get (Snapshot.scores lastSnapshot) categoryId in
      let newScore := score categoryData in
      let differs :=
        match oldScore with
        | Some o => negb (JS.strictEq o newScore)
        | None => true
        end in
      if differs then
        Change.mkCategory categoryId oldScore newScore
          ("UPDATE: Explain why " ++ categoryId ++ " changed from "
           ++ valueToString oldScore ++ " to " ++ numberToString newScore)
        :: detectChanges lastSnapshot rest
      else detectChanges lastSnapshot rest
  end.

(** [overallChange] is computed on the rationals: it is the number the code
    prints when the two overall scores have one decimal, as the scores
    [calculateOverallScore] makes have; the category diff compares scores
    and does no arithmetic. *)
Definition generateChangesTemplate (current : CurrentAssessment)
  (dateStr monthYear : string) : Script Change.t :=
  prevMonth <- getPreviousMonthData ;;
  let prevScore :=
    match prevMonth with
    | Some p => Change.overallScore p
    | None => overallScore current
    end in
  let overallChange :=
    (inject_Z (JS.Math_round ((overallScore current - prevScore) * 10)) / 10)%Q in
  let template (changes : list Change.category) :=
    Change.mk monthYear dateStr (overallScore current) (Some overallChange)
      "UPDATE: Brief summary of the month's key developments"
      [ "UPDATE: Key development 1"; "UPDATE: Key development 2";
        "UPDATE: Key development 3" ]
      changes in
  match prevMonth with
  | Some _ =>
      f <- getFiles ;;
      let historyFiles := sort (readdirSync (history f)) in
      match last historyFiles with
      | Some lastHistoryFile =>
          match history f !! lastHistoryFile with
          | Some lastSnapshot =>
              ret (template (detectChanges lastSnapshot (scores current)))
          | None => throw
          end
      | None => throw
      end
  | None => ret (template [])
  end.

Section Main.

(** [path.resolve(__dirname, '..')], the root of the repository. *)
Variable ROOT : string.

Definition HISTORY_DIR : string := ROOT ++ "/data/history".

(** Step 1 of [main]: write the snapshot of the period unless its file
    is there already. *)
Definition archiveSnapshot (current : CurrentAssessment)
  (dateStr : string) : Script unit :=
  let name := dateStr ++ ".json" in
  let snapshotPath := HISTORY_DIR ++ "/" ++ name in
  f <- getFiles ;;
  match history f !! name with
  | Some _ =>
      console_log ("[SKIP] History snapshot already exists: " ++ snapshotPath)
  | None =>
      let snapshot := createHistorySnapshot current dateStr in
      setFiles (mkFiles (current_json f) (<[name := snapshot]> (history f))
                  (history_page f) (changes_json f)) ;;;
      console_log ("[OK] Created history snapshot: data/history/"
                   ++ dateStr ++ ".json")
  end.

Definition main (now : Clock) : Script Change.t :=
  console_log (LF ++ "=== Monthly Archive Script ===" ++ LF) ;;;
  current <- readFile current_json ;;
  let dateStr := getDateString now in
  let monthYear := getMonthYear now in
  console_log ("Creating archive for: " ++ monthYear ++ " (" ++ dateStr
               ++ ")" ++ LF) ;;;
  archiveSnapshot current dateStr ;;;
  updated <- updateHistoryPage dateStr ;;
  console_log
    (if updated : bool
     then "[OK] Updated app/history/page.tsx with new import"
     else "[SKIP] app/history/page.tsx already up to date") ;;;
  template <- generateChangesTemplate current dateStr monthYear ;;
  console_log (LF ++ "--- historical-changes.json Entry Template ---") ;;;
  console_log ("Add this to the " ++ DQ ++ "changes" ++ DQ
               ++ " array in data/historical-changes.json:" ++ LF) ;;;
  console_log_template template ;;;
  console_log (LF ++ "(Replace all " ++ DQ ++ "UPDATE:" ++ DQ
               ++ " placeholders with actual content)" ++ LF) ;;;
  console_log "=== Next Steps ===" ;;;
  console_log "1. Edit data/historical-changes.json with the template above" ;;;
  console_log "2. Run: npm run build" ;;;
  console_log "3. Test locally: npm run dev" ;;;
  console_log "" ;;;
  ret template.

End Main.

End Archive.

(** ** Specification-side definitions *)

(** These follow the words of the specification and are what the functions
    above are compared with. *)
Module Spec.

Definition sum (l : list Q) : Q := fold_right Qplus 0%Q l.

(** The arithmetic mean of a list of numbers. *)
Definition mean (l : list Q) : Q := (sum l / lengthQ l)%Q.

Definition pow10 (d : nat) : Q := inject_Z (10 ^ Z.of_nat d).

(** [x] rounded to [d] decimal places, a tie going up. *)
Definition roundTo (d : nat) (x : Q) : Q :=
  (inject_Z (Qfloor (x * pow10 d + (1 # 2))) / pow10 d)%Q.

(** [r] is a rounding of [x] to [d] decimal places, whatever the tie
    rule: it has [d] decimals and no number with [d] decimals is
    closer to [x]. *)
Definition isRounding (d : nat) (x r : Q) : Prop :=
  (exists k : Z, r == inject_Z k / pow10 d)%Q
  /\ (Qabs (r - x) <= 1 / (2 * pow10 d))%Q.

(** The score a scores mapping gives a category (0 when it has none). *)
Definition scoreOf (scores : JS.JSObject CategoryScore) (cat : string) : Q :=
  match JS.get scores cat with
  | Some c => score c
  | None => 0%Q
  end.

Definition values (scores : JS.JSObject CategoryScore) (cats : list string)
  : list Q :=
  map (scoreOf scores) cats.

(** A valid scores mapping: each of the ten categories is present with an
    integer score from 1 to 10. *)
Definition validScores (scores : JS.JSObject CategoryScore) : Prop :=
  Forall
    (fun cat =>
       exists c z, JS.get scores cat = Some c
                   /\ (score c == inject_Z z)%Q /\ (1 <= z <= 10)%Z)
    CATEGORIES.

(** The scores mapping has an entry for the category. *)
Definition present (scores : JS.JSObject CategoryScore) (cat : string)
  : Prop :=
  exists c, JS.get scores cat = Some c.

(** The fixed bins of the risk levels. *)
Definition bin (s : Q) (level : RiskLevel) : Prop :=
  match level with
  | Low => (1 <= s < 3)%Q
  | Moderate => (3 <= s < 5)%Q
  | Elevated => (5 <= s < 7)%Q
  | High => (7 <= s < 9)%Q
  | Severe => (9 <= s <= 10)%Q
  end.

(** A response that is an integer written in decimal digits, with an
    optional minus sign, and the integer it denotes. *)
Definition decimalDigit (c : ascii) : option Z :=
  let n := Z.of_N (JSString.code c) in
  if ((48 <=? n) && (n <=? 57))%Z then Some (n - 48)%Z else None.

Fixpoint digitsValue (acc : Z) (s : string) : option Z :=
  match s with
  | EmptyString => Some acc
  | String c r =>
      match decimalDigit c with
      | Some d => digitsValue (acc * 10 + d)%Z r
      | None => None
      end
  end.

Definition integerLiteral (s : string) : option Z :=
  match s with
  | EmptyString => None
  | String c r =>
      if Ascii.eqb c "-" then
        match r with
        | EmptyString => None
        | _ => option_map Z.opp (digitsValue 0 r)
        end
      else digitsValue 0 s
  end.

(** A score brought back to the range 1 to 10: the nearest bound when it
    is outside, itself when it is inside. *)
Definition nearestBound (z : Z) : Z :=
  if (z <? 1)%Z then 1%Z else if (10 <? z)%Z then 10%Z else z.

(** The score stored for a category in an assessment. *)
Definition storedScore (c : CurrentAssessment) (categoryId : string)
  : option Q :=
  option_map score (JS.get (scores c) categoryId).

(** An overall score as [calculateOverallScore] makes them: a number with
    one decimal from 1 to 10. *)
Definition oneDecimalScore (q : Q) : Prop :=
  exists k : Z, (q == inject_Z k / 10)%Q /\ (10 <= k <= 100)%Z.

(** The decimal digits at the head of a string: their value, how many
    they are, and what follows them. *)
Fixpoint leadingDigits (acc : Z) (count : nat) (s : string)
  : Z * nat * string :=
  match s with
  | EmptyString => (acc, count, s)
  | String c r =>
      match decimalDigit c with
      | Some d => leadingDigits (acc * 10 + d)%Z (S count) r
      | None => (acc, count, s)
      end
  end.

Definition leadingSign (s : string) : Z * string :=
  match s with
  | String c r =>
      if Ascii.eqb c "-" then ((-1)%Z, r)
      else if Ascii.eqb c "+" then (1%Z, r)
      else (1%Z, s)
  | EmptyString => (1%Z, s)
  end.

(** The number a response denotes when it is a decimal numeral, the way
    [Number(response)] reads one: an optional sign, digits with an optional
    fraction (at least one digit in all), an optional exponent; [None] when
    the response is not such a numeral. *)
Definition numericValue (s : string) : option Q :=
  let '(sign, s1) := leadingSign s in
  let '(whole, n1, s2) := leadingDigits 0 0 s1 in
  let '(frac, n2, s3) :=
    match s2 with
    | String c r => if Ascii.eqb c "." then leadingDigits 0 0 r else (0%Z, O, s2)
    | EmptyString => (0%Z, O, s2)
    end in
  if (n1 + n2 =? 0)%nat then None
  else
    let mantissa :=
      (inject_Z whole + inject_Z frac / inject_Z (10 ^ Z.of_nat n2))%Q in
    match s3 with
    | EmptyString => Some (inject_Z sign * mantissa)%Q
    | String c r =>
        if Ascii.eqb c "e" || Ascii.eqb c "E" then
          let '(esign, r1) := leadingSign r in
          let '(e, n3, r2) := leadingDigits 0 0 r1 in
          match n3, r2 with
          | S _, EmptyString =>
              Some (inject_Z sign * mantissa * Qpower 10 (esign * e))%Q
          | _, _ => None
          end
        else None
    end.

End Spec.

(** ** Sample data *)

Module Sample.

Definition category (s : Z) : CategoryScore :=
  mkCategoryScore (inject_Z s) stable ["Finding of the month"]
    (Some ["https://example.org/report"]) "2026-01-15".

Definition scoresWith (elections : Z) : JS.JSObject CategoryScore :=
  [ ("elections", category elections);
    ("rule-of-law", category 6);
    ("national-security", category 5);
    ("regulatory-stability", category 6);
    ("trade-policy", category 7);
    ("government-contracts", category 5);
    ("fiscal-policy", category 6);
    ("media-freedom", category 6);
    ("civil-discourse", category 7);
    ("institutional-integrity", category 6) ].

(** The assessment with [elections = 5]: overall 5.9. *)
Definition january : CurrentAssessment :=
  mkCurrentAssessment "2026-01-18" "January 2026" (scoresWith 5)
    [ ("rule-of-law", (533 # 100)%Q); ("operating-economic", 6%Q);
      ("societal-institutional", (633 # 100)%Q) ]
    (59 # 10)%Q Elevated.

(** The assessment with [elections = 7]: overall 6.1. *)
Definition february : CurrentAssessment :=
  mkCurrentAssessment "2026-02-18" "February 2026" (scoresWith 7)
    [ ("rule-of-law", 6%Q); ("operating-economic", 6%Q);
      ("societal-institutional", (633 # 100)%Q) ]
    (61 # 10)%Q Elevated.

Definition januarySnapshot : Snapshot.t :=
  Archive.createHistorySnapshot january "2026-01-20".

Definition decemberSnapshot : Snapshot.t :=
  Snapshot.mk "2025-12-20" (Snapshot.scores januarySnapshot)
    (Snapshot.domainScores januarySnapshot) (49 # 10)%Q Moderate.

Definition changeEntry (period date : string) (overall : Q)
  (change : option Q) : Change.t :=
  Change.mk period date overall change "Summary of the month"
    ["Development of the month"] [].

Definition page : string :=
  "import history202601 from '@/data/history/2026-01-20.json';" ++ Archive.LF
  ++ "  const historicalSnapshots: HistoricalSnapshot[] = [" ++ Archive.LF
  ++ "    history202601 as HistoricalSnapshot," ++ Archive.LF
  ++ "  ];" ++ Archive.LF.

Definition ROOT : string := "/srv/political-risk-tracker".

Definition february2026 : Archive.Clock := Archive.mkClock 2026 1.

(** The repository on 20 February 2026: January is archived and logged,
    and the elections score has gone from 5 to 7 since. *)
Definition februaryWorld : Archive.World :=
  Archive.mkWorld
    (Archive.mkFiles (Some february)
       (<["2026-01-20.json" := januarySnapshot]> ∅)
       (Some page)
       (Some [changeEntry "January 2026" "2026-01-20" (59 # 10)%Q None]))
    [].

(** The same day when the change log stops at December (overall 4.9)
    although January (overall 5.9) is archived. *)
Definition laggingWorld : Archive.World :=
  Archive.mkWorld
    (Archive.mkFiles (Some february)
       (<["2026-01-20.json" := januarySnapshot]>
          (<["2025-12-20.json" := decemberSnapshot]> ∅))
       (Some page)
       (Some [changeEntry "December 2025" "2025-12-20" (49 # 10)%Q None]))
    [].

(** A repository that has never been archived. *)
Definition firstWorld : Archive.World :=
  Archive.mkWorld
    (Archive.mkFiles (Some february) ∅ (Some page) (Some []))
    [].

End Sample.

(** ** Frame conditions *)

Module Frame.

(** A step of the weekly session that leaves the score stored for a
    category as it is. *)
Definition keepsScore (categoryId : string) {A : Type} (m : Weekly.IO A)
  : Prop :=
  forall s,
    Spec.storedScore (Weekly.current (snd (m s))) categoryId
    = Spec.storedScore (Weekly.current s) categoryId.

(** A step of the weekly session that does not write the file. *)
Definition keepsFile {A : Type} (m : Weekly.IO A) : Prop :=
  forall s, Weekly.current_json (snd (m s)) = Weekly.current_json s.

(** A run of the weekly session that writes the file only when it ends
    with [Saved]. *)
Definition writesOnlyOnSave (m : Weekly.IO Weekly.Outcome) : Prop :=
  forall s,
    fst (m s) <> Weekly.Ret Weekly.Saved ->
    Weekly.current_json (snd (m s)) = Weekly.current_json s.

(** A step of the archive script that writes neither the history
    directory nor [data/current.json]. *)
Definition keepsArchive {A : Type} (m : Archive.Script A) : Prop :=
  forall w,
    Archive.history (Archive.files (snd (m w)))
    = Archive.history (Archive.files w)
    /\ Archive.current_json (Archive.files (snd (m w)))
       = Archive.current_json (Archive.files w).

End Frame.

(** ** The comparison table of the history page ([app/history/page.tsx]) *)

Module HistoryPage.

(** [Rubric] and [Category] of [lib/types.ts]: the static metadata of
    [data/categories.json]. *)
Record Rubric : Type := mkRubric {
  tier_1_2 : string;
  tier_3_4 : string;
  tier_5_6 : string;
  tier_7_8 : string;
  tier_9_10 : string
}.

Record Category : Type := mkCategory {
  id : string;
  name : string;
  domain : string;
  domainName : string;
  description : string;
  rubric : Rubric
}.

(** A row of [tableData]. *)
Record Row : Type := mkRow {
  row_id : string;
  row_name : string;
  row_domain : string;
  oldestScore : Q;
  currentScore : Q;
  change : Q;
  row_trend : Trend
}.

(** [x || 0] on a number that may be [undefined]: the falsy values,
    [undefined] and zero, give 0. *)
Definition orZero (x : option Q) : Q :=
  match x with
  | Some q => if JS.strictEq q 0 then 0%Q else q
  | None => 0%Q
  end.

(** [selectedDomain === 'all' ? categories
     : categories.filter((c) => c.domain === selectedDomain)]. *)
Definition filteredCategories (categories : list Category)
  (selectedDomain : string) : list Category :=
  if String.eqb selectedDomain "all" then categories
  else List.filter (fun c => String.eqb (domain c) selectedDomain) categories.

(** [historicalSnapshots[0]?.scores[cat.id] || 0]. *)
Definition oldestScoreOf (historicalSnapshots : list Snapshot.t)
  (categoryId : string) : Q :=
  orZero
    (match historicalSnapshots with
     | oldest :: _ => JS.get (Snapshot.scores oldest) categoryId
     | [] => None
     end).

(** [current.scores[cat.id]?.score || 0]. *)
Definition currentScoreOf (current : CurrentAssessment) (categoryId : string)
  : Q :=
  orZero (option_map score (JS.get (scores current) categoryId)).

Definition tableData (categories : list Category) (selectedDomain : string)
  (historicalSnapshots : list Snapshot.t) (current : CurrentAssessment)
  : list Row :=
  map
    (fun cat =>
       let oldestScore := oldestScoreOf historicalSnapshots (id cat) in
       let currentScore := currentScoreOf current (id cat) in
       mkRow (id cat) (name cat) (domain cat) oldestScore currentScore
         (currentScore - oldestScore)%Q
         (match JS.get (scores current) (id cat) with
          | Some c => trend c
          | None => stable
          end))
    (filteredCategories categories selectedDomain).

End HistoryPage.

(** ** Further invariants and measures *)

Module Inv.

(** A step of the weekly session that keeps a property of the assessment
    held in memory. *)
Definition preserves (P : CurrentAssessment -> Prop) {A : Type}
  (m : Weekly.IO A) : Prop :=
  forall s, P (Weekly.current s) -> P (Weekly.current (snd (m s))).

(** A step of the weekly session after which, when it returns, the session
    satisfies [Q]. *)
Definition ensures (Q : Weekly.Session -> Prop) {A : Type} (m : Weekly.IO A)
  : Prop :=
  forall s a s', m s = (Weekly.Ret a, s') -> Q s'.

(** Two assessments that differ at most in the entry of one category. *)
Definition sameExcept (categoryId : string) (c0 c : CurrentAssessment)
  : Prop :=
  (forall other, other <> categoryId ->
                 JS.get (scores c) other = JS.get (scores c0) other)
  /\ JS.keys (scores c) = JS.keys (scores c0)
  /\ assessmentDate c = assessmentDate c0
  /\ assessmentPeriod c = assessmentPeriod c0
  /\ domainScores c = domainScores c0
  /\ overallScore c = overallScore c0
  /\ riskLevel c = riskLevel c0.

(** A step of the archive script that writes neither [data/current.json]
    nor [data/historical-changes.json]. *)
Definition keepsData {A : Type} (m : Archive.Script A) : Prop :=
  forall w,
    Archive.current_json (Archive.files (snd (m w)))
    = Archive.current_json (Archive.files w)
    /\ Archive.changes_json (Archive.files (snd (m w)))
       = Archive.changes_json (Archive.files w).

(** A step of the archive script that keeps every snapshot the directory
    holds. *)
Definition keepsSnapshots {A : Type} (m : Archive.Script A) : Prop :=
  forall w k snapshot,
    Archive.history (Archive.files w) !! k = Some snapshot ->
    Archive.history (Archive.files (snd (m w))) !! k = Some snapshot.

(** The risk levels in their order. *)
Definition rank (level : RiskLevel) : nat :=
  match level with
  | Low => 0
  | Moderate => 1
  | Elevated => 2
  | High => 3
  | Severe => 4
  end.

(** Whether the loop of [generateChangesTemplate] reports an entry of
    [current.scores]: its score is not the one of the snapshot. *)
Definition reported (lastSnapshot : Snapshot.t)
  (entry : string * CategoryScore) : bool :=
  match JS.get (Snapshot.scores lastSnapshot) (fst entry) with
  | Some o => negb (JS.strictEq o (score (snd entry)))
  | None => true
  end.

(** The aggregates of an assessment are the ones the score model computes
    from its scores. *)
Definition consistent (c : CurrentAssessment) : Prop :=
  calculateDomainScores (scores c) = Some (domainScores c)
  /\ calculateOverallScore (scores c) = Some (overallScore c)
  /\ riskLevel c = getRiskLevel (overallScore c).

(** A string without the character [-]. *)
Fixpoint dashFree (s : string) : bool :=
  match s with
  | EmptyString => true
  | String c r => negb (Ascii.eqb c "-") && dashFree r
  end.

(** A string without the character [$]. *)
Fixpoint dollarFree (s : string) : bool :=
  match s with
  | EmptyString => true
  | String c r => negb (Ascii.eqb c "$") && dollarFree r
  end.

End Inv.

(** ** Rounding *)

Section Rounding.

Local Open Scope Q_scope.

Lemma pow10_pos (d : nat) : 0 < Spec.pow10 d.
Proof.
  unfold Spec.pow10.
  change 0 with (inject_Z 0). rewrite <- Zlt_Qlt.
  apply Z.pow_pos_nonneg; lia.
Qed.

(** [Math.round] is within one half of its argument. *)
Lemma Math_round_close (x : Q) :
  - (1 # 2) <= inject_Z (JS.Math_round x) - x <= 1 # 2.
Proof.
  unfold JS.Math_round.
  pose proof (Qfloor_le (x + (1 # 2))) as Hle.
  pose proof (Qlt_floor (x + (1 # 2))) as Hlt.
  rewrite inject_Z_plus in Hlt.
  change (inject_Z 1) with 1 in Hlt.
  split; lra.
Qed.

Lemma Math_round_mono (x y : Q) :
  x <= y -> (JS.Math_round x <= JS.Math_round y)%Z.
Proof.
  intros H. unfold JS.Math_round. apply Qfloor_resp_le. lra.
Qed.

Lemma Math_round_integer (z : Z) : JS.Math_round (inject_Z z) = z.
Proof.
  unfold JS.Math_round.
  pose proof (Qfloor_le (inject_Z z + (1 # 2))) as Hle.
  pose proof (Qlt_floor (inject_Z z + (1 # 2))) as Hlt.
  rewrite inject_Z_plus in Hlt. change (inject_Z 1) with 1 in Hlt.
  assert (H1 : inject_Z (Qfloor (inject_Z z + (1 # 2))) < inject_Z (z + 1)).
  { rewrite inject_Z_plus. change (inject_Z 1) with 1. lra. }
  assert (H2 : inject_Z (z - 1) < inject_Z (Qfloor (inject_Z z + (1 # 2)))).
  { unfold Z.sub. rewrite inject_Z_plus, inject_Z_opp.
    change (inject_Z 1) with 1. lra. }
  rewrite <- Zlt_Qlt in H1, H2. lia.
Qed.

(** The rounding of the specification is a rounding. *)
Lemma roundTo_isRounding (d : nat) (x : Q) :
  Spec.isRounding d x (Spec.roundTo d x).
Proof.
  pose proof (pow10_pos d) as Hp.
  split.
  - exists (Qfloor (x * Spec.pow10 d + (1 # 2))). reflexivity.
  - unfold Spec.roundTo.
    pose proof (Math_round_close (x * Spec.pow10 d)) as [Hlo Hhi].
    unfold JS.Math_round in Hlo, Hhi.
    set (k := inject_Z (Qfloor (x * Spec.pow10 d + (1 # 2)))) in *.
    set (p := Spec.pow10 d) in *.
    apply Qabs_Qle_condition.
    assert (Hk : k / p - x == (k - x * p) / p) by (field; lra).
    assert (Hh : 1 / (2 * p) == (1 # 2) / p) by (field; lra).
    rewrite Hk, Hh.
    split.
    + assert (Hn : - ((1 # 2) / p) == (- (1 # 2)) / p) by (field; lra).
      rewrite Hn.
      apply Qmult_le_compat_r; [exact Hlo |].
      apply Qlt_le_weak, Qinv_lt_0_compat, Hp.
    + apply Qmult_le_compat_r; [exact Hhi |].
      apply Qlt_le_weak, Qinv_lt_0_compat, Hp.
Qed.

Global Instance roundTo_proper (d : nat) : Proper (Qeq ==> Qeq) (Spec.roundTo d).
Proof.
  intros x y Hxy. unfold Spec.roundTo. now rewrite Hxy.
Qed.

End Rounding.

(** ** The score model *)

Section ScoreModel.

Local Open Scope Q_scope.

Global Instance Math_round_proper : Proper (Qeq ==> eq) JS.Math_round.
Proof.
  intros x y Hxy. unfold JS.Math_round. now rewrite Hxy.
Qed.

Lemma isRounding_proper (d : nat) (x x' r r' : Q) :
  x == x' -> r == r' -> Spec.isRounding d x r -> Spec.isRounding d x' r'.
Proof.
  intros Hx Hr [[k Hk] Hclose]. split.
  - exists k. now rewrite <- Hr.
  - now rewrite <- Hr, <- Hx.
Qed.

Lemma lt_spec (a b : Q) : JS.lt a b = true <-> a < b.
Proof. unfold JS.lt, Qlt. apply Z.ltb_lt. Qed.

Lemma lt_false (a b : Q) : JS.lt a b = false <-> b <= a.
Proof. unfold JS.lt, Qle. apply Z.ltb_ge. Qed.

Variable scores : JS.JSObject CategoryScore.

Let present : string -> Prop := Spec.present scores.

(** The [reduce] of the two calculations adds up the scores of the
    categories it is given, when all of them are there. *)
Lemma sumScores_from (cats : list string) (a : Q) :
  Forall present cats ->
  exists s,
    fold_left
      (fun acc cat =>
         match acc, JS.get scores cat with
         | Some a, Some c => Some (a + score c)
         | _, _ => None
         end)
      cats (Some a) = Some s
    /\ s == a + Spec.sum (Spec.values scores cats).
Proof.
  intros Hall. revert a.
  induction Hall as [| cat cats [c Hc] _ IH]; intros a.
  - exists a. split; [reflexivity | simpl; ring].
  - simpl fold_left. rewrite Hc.
    destruct (IH (a + score c)) as [s [Hs Heq]].
    exists s. split; [exact Hs |].
    rewrite Heq. simpl. unfold Spec.scoreOf at 1. rewrite Hc. ring.
Qed.

Lemma sumScores_spec (cats : list string) :
  Forall present cats ->
  exists s, sumScores scores cats = Some s
            /\ s == Spec.sum (Spec.values scores cats).
Proof.
  intros Hall.
  destruct (sumScores_from cats 0 Hall) as [s [Hs Heq]].
  exists s. split; [exact Hs | rewrite Heq; ring].
Qed.

Lemma lengthQ_cons {A : Type} (x : A) (l : list A) :
  lengthQ (x :: l) == lengthQ l + 1.
Proof.
  unfold lengthQ. simpl length.
  rewrite Nat2Z.inj_succ, <- Z.add_1_r, inject_Z_plus. reflexivity.
Qed.

Lemma sum_bounds (l : list Q) :
  Forall (fun v => 1 <= v <= 10) l ->
  lengthQ l <= Spec.sum l <= 10 * lengthQ l.
Proof.
  induction 1 as [| v l [Hlo Hhi] _ [IHlo IHhi]].
  - split; unfold Qle; simpl; lia.
  - rewrite lengthQ_cons.
    change (Spec.sum (v :: l)) with (v + Spec.sum l). lra.
Qed.

Hypothesis valid : Spec.validScores scores.

Lemma valid_present (cats : list string) :
  incl cats CATEGORIES -> Forall present cats.
Proof.
  intros Hincl. apply List.Forall_forall. intros cat Hin.
  unfold Spec.validScores in valid. rewrite List.Forall_forall in valid.
  destruct (valid cat (Hincl cat Hin)) as [c [z [Hc _]]].
  now exists c.
Qed.

Lemma valid_bounds (cats : list string) :
  incl cats CATEGORIES ->
  Forall (fun v => 1 <= v <= 10) (Spec.values scores cats).
Proof.
  intros Hincl. unfold Spec.values. apply List.Forall_map, List.Forall_forall.
  intros cat Hin.
  unfold Spec.validScores in valid. rewrite List.Forall_forall in valid.
  destruct (valid cat (Hincl cat Hin)) as [c [z [Hc [Hz Hrange]]]].
  unfold Spec.scoreOf. rewrite Hc, Hz.
  change 1 with (inject_Z 1). change 10 with (inject_Z 10).
  rewrite <- !Zle_Qle. exact Hrange.
Qed.

End ScoreModel.

(** The overall score of a valid scores mapping has one decimal and lies
    from 1 to 10. *)
Lemma calculateOverallScore_oneDecimal (scores : JS.JSObject CategoryScore)
  (r : Q) :
  Spec.validScores scores ->
  calculateOverallScore scores = Some r ->
  Spec.oneDecimalScore r.
Proof.
  intros valid Hr.
  destruct (sumScores_spec scores CATEGORIES
              (valid_present scores valid CATEGORIES (incl_refl _)))
    as [s [Hs Heq]].
  pose proof (sum_bounds _ (valid_bounds scores valid CATEGORIES (incl_refl _)))
    as [Hlo Hhi].
  unfold calculateOverallScore in Hr. rewrite Hs in Hr.
  injection Hr as <-.
  exists (JS.Math_round (s / lengthQ CATEGORIES * 10)).
  split; [reflexivity |].
  rewrite <- Heq in Hlo, Hhi.
  unfold Spec.values, lengthQ in Hlo, Hhi. rewrite length_map in Hlo, Hhi.
  change (lengthQ CATEGORIES) with 10%Q.
  change (inject_Z (Z.of_nat (length CATEGORIES))) with 10%Q in Hlo, Hhi.
  assert (Hs10 : (s / 10 * 10 == s)%Q) by field.
  rewrite (Math_round_proper _ _ Hs10).
  assert (H10 : (JS.Math_round (inject_Z 10) <= JS.Math_round s)%Z).
  { apply Math_round_mono. change (inject_Z 10) with 10%Q. lra. }
  assert (H100 : (JS.Math_round s <= JS.Math_round (inject_Z 100))%Z).
  { apply Math_round_mono. change (inject_Z 100) with 100%Q. lra. }
  rewrite Math_round_integer in H10, H100. lia.
Qed.

Lemma sample_valid (elections : Z) :
  (1 <= elections <= 10)%Z -> Spec.validScores (Sample.scoresWith elections).
Proof.
  intros Hrange. unfold Spec.validScores, CATEGORIES.
  repeat (apply List.Forall_cons;
          [eexists; eexists;
           (split; [reflexivity | split; [reflexivity | lia]]) |]).
  apply List.Forall_nil.
Qed.

(** C4: for every valid scores mapping, [calculateOverallScore] returns the
    arithmetic mean of the ten category scores rounded to one decimal
    place, and the result lies between 1 and 10. *)
Theorem overall_score_rounded_mean (scores : JS.JSObject CategoryScore) :
  Spec.validScores scores ->
  exists r,
    calculateOverallScore scores = Some r
    /\ (r == Spec.roundTo 1 (Spec.mean (Spec.values scores CATEGORIES)))%Q
    /\ Spec.isRounding 1 (Spec.mean (Spec.values scores CATEGORIES)) r
    /\ (1 <= r <= 10)%Q.
Proof.
  intros valid.
  destruct (sumScores_spec scores CATEGORIES
              (valid_present scores valid CATEGORIES (incl_refl _)))
    as [s [Hs Heq]].
  pose proof (sum_bounds _ (valid_bounds scores valid CATEGORIES (incl_refl _)))
    as [Hlo Hhi].
  unfold calculateOverallScore. rewrite Hs.
  eexists. split; [reflexivity |].
  assert (Hround :
    (inject_Z (JS.Math_round (s / lengthQ CATEGORIES * 10)) / 10
     == Spec.roundTo 1 (Spec.mean (Spec.values scores CATEGORIES)))%Q).
  { unfold Spec.roundTo, Spec.mean, JS.Math_round.
    rewrite Heq. unfold Spec.values, lengthQ. rewrite length_map.
    reflexivity. }
  split; [exact Hround |].
  split.
  - eapply isRounding_proper;
      [reflexivity | symmetry; exact Hround | apply roundTo_isRounding].
  - rewrite <- Heq in Hlo, Hhi.
    unfold Spec.values, lengthQ in Hlo, Hhi. rewrite length_map in Hlo, Hhi.
    change (lengthQ CATEGORIES) with 10%Q.
    change (inject_Z (Z.of_nat (length CATEGORIES))) with 10%Q in Hlo, Hhi.
    assert (Hs10 : (s / 10 * 10 == s)%Q) by field.
    rewrite Hs10.
    assert (H10 : (JS.Math_round (inject_Z 10) <= JS.Math_round s)%Z).
    { apply Math_round_mono. change (inject_Z 10) with 10%Q. lra. }
    assert (H100 : (JS.Math_round s <= JS.Math_round (inject_Z 100))%Z).
    { apply Math_round_mono. change (inject_Z 100) with 100%Q. lra. }
    rewrite Math_round_integer in H10, H100.
    rewrite Zle_Qle in H10, H100.
    change (inject_Z 10) with 10%Q in H10.
    change (inject_Z 100) with 100%Q in H100.
    split.
    + apply Qle_shift_div_l; [reflexivity | lra].
    + apply Qle_shift_div_r; [reflexivity | lra].
Qed.

Lemma overall_score_rounded_mean_witness :
  exists r,
    calculateOverallScore (Sample.scoresWith 7) = Some r
    /\ (r == Spec.roundTo 1
              (Spec.mean (Spec.values (Sample.scoresWith 7) CATEGORIES)))%Q
    /\ Spec.isRounding 1
         (Spec.mean (Spec.values (Sample.scoresWith 7) CATEGORIES)) r
    /\ (1 <= r <= 10)%Q.
Proof.
  apply (overall_score_rounded_mean (Sample.scoresWith 7)).
  apply sample_valid. lia.
Defined.

(** The ten category ids are distinct, so the three domains, whose lists
    make up [CATEGORIES], do not overlap. *)
Lemma categories_distinct : NoDup CATEGORIES.
Proof. apply (bool_decide_unpack _). vm_compute. exact I. Qed.

(** One pass of the loop of [calculateDomainScores] stores the rounded mean
    of the domain's categories. *)
Lemma domain_mean_rounded (scores : JS.JSObject CategoryScore)
  (cats : list string) (s : Q) :
  (s == Spec.sum (Spec.values scores cats))%Q ->
  (inject_Z (JS.Math_round (s / lengthQ cats * 100)) / 100
   == Spec.roundTo 2 (Spec.mean (Spec.values scores cats)))%Q.
Proof.
  intros Heq.
  unfold Spec.roundTo, Spec.mean, JS.Math_round.
  rewrite Heq. unfold Spec.values, lengthQ. rewrite length_map.
  reflexivity.
Qed.

(** C5: for every valid scores mapping, [calculateDomainScores] returns one
    score per domain of the fixed partition of the ten categories, and each
    is the arithmetic mean of the domain's category scores rounded to two
    decimal places. *)
Theorem domain_scores_rounded_means (scores : JS.JSObject CategoryScore) :
  Spec.validScores scores ->
  exists ds,
    calculateDomainScores scores = Some ds
    /\ JS.keys ds = JS.keys DOMAINS
    /\ concat (map snd DOMAINS) = CATEGORIES
    /\ NoDup CATEGORIES
    /\ forall domain cats,
         In (domain, cats) DOMAINS ->
         exists r,
           JS.get ds domain = Some r
           /\ (r == Spec.roundTo 2 (Spec.mean (Spec.values scores cats)))%Q
           /\ Spec.isRounding 2 (Spec.mean (Spec.values scores cats)) r.
Proof.
  intros valid.
  assert (Hsum : forall domain cats, In (domain, cats) DOMAINS ->
            exists s, sumScores scores cats = Some s
                      /\ (s == Spec.sum (Spec.values scores cats))%Q).
  { intros domain cats Hin.
    apply sumScores_spec, (valid_present scores valid).
    intros cat Hcat.
    assert (Hc : In cat (concat (map snd DOMAINS))).
    { apply in_concat. exists cats. split; [| exact Hcat].
      apply (in_map snd) in Hin. exact Hin. }
    exact Hc. }
  unfold DOMAINS in Hsum.
  destruct (Hsum _ _ (or_introl eq_refl)) as [s1 [Hs1 He1]].
  destruct (Hsum _ _ (or_intror (or_introl eq_refl))) as [s2 [Hs2 He2]].
  destruct (Hsum _ _ (or_intror (or_intror (or_introl eq_refl))))
    as [s3 [Hs3 He3]].
  unfold calculateDomainScores, DOMAINS.
  cbn [domainScoresLoop]. rewrite Hs1, Hs2, Hs3.
  eexists. split; [reflexivity |].
  split; [reflexivity |].
  split; [reflexivity |].
  split; [apply categories_distinct |].
  intros domain cats [Hin | [Hin | [Hin | []]]];
    injection Hin as <- <-; eexists;
    (split; [reflexivity |]);
    (split;
     [ apply domain_mean_rounded; assumption
     | eapply isRounding_proper;
       [ reflexivity
       | symmetry; apply domain_mean_rounded; eassumption
       | apply roundTo_isRounding ] ]).
Qed.

Lemma domain_scores_rounded_means_witness :
  exists ds,
    calculateDomainScores (Sample.scoresWith 7) = Some ds
    /\ JS.keys ds = JS.keys DOMAINS
    /\ concat (map snd DOMAINS) = CATEGORIES
    /\ NoDup CATEGORIES
    /\ forall domain cats,
         In (domain, cats) DOMAINS ->
         exists r,
           JS.get ds domain = Some r
           /\ (r == Spec.roundTo 2
                     (Spec.mean (Spec.values (Sample.scoresWith 7) cats)))%Q
           /\ Spec.isRounding 2
                (Spec.mean (Spec.values (Sample.scoresWith 7) cats)) r.
Proof.
  apply (domain_scores_rounded_means (Sample.scoresWith 7)).
  apply sample_valid. lia.
Defined.

(** C6: for every score from 1 to 10, [getRiskLevel] returns the level in
    whose bin the score lies, the bins being [1,3) Low, [3,5) Moderate,
    [5,7) Elevated, [7,9) High and [9,10] Severe; so 2.9 is Low, 3.0
    Moderate, 8.9 High, 9.0 Severe and 10 Severe. *)
Theorem risk_level_bins (s : Q) :
  (1 <= s <= 10)%Q ->
  (forall level, getRiskLevel s = level <-> Spec.bin s level)
  /\ getRiskLevel (29 # 10) = Low
  /\ getRiskLevel 3 = Moderate
  /\ getRiskLevel (89 # 10) = High
  /\ getRiskLevel 9 = Severe
  /\ getRiskLevel 10 = Severe.
Proof.
  intros [Hlo Hhi].
  split; [| repeat split; reflexivity].
  intros level. unfold getRiskLevel.
  destruct (JS.lt s 3) eqn:H3;
    [apply lt_spec in H3 | apply lt_false in H3;
     destruct (JS.lt s 5) eqn:H5;
     [apply lt_spec in H5 | apply lt_false in H5;
      destruct (JS.lt s 7) eqn:H7;
      [apply lt_spec in H7 | apply lt_false in H7;
       destruct (JS.lt s 9) eqn:H9;
       [apply lt_spec in H9 | apply lt_false in H9]]]];
    destruct level; simpl; split;
      solve [ intros; exfalso; lra
            | intros; repeat split; lra
            | intros; reflexivity
            | intros; discriminate ].
Qed.

Lemma risk_level_bins_witness :
  (forall level, getRiskLevel (29 # 10) = level <-> Spec.bin (29 # 10) level)
  /\ getRiskLevel (29 # 10) = Low
  /\ getRiskLevel 3 = Moderate
  /\ getRiskLevel (89 # 10) = High
  /\ getRiskLevel 9 = Severe
  /\ getRiskLevel 10 = Severe.
Proof.
  apply (risk_level_bins (29 # 10)).
  split; unfold Qle; simpl; lia.
Defined.

(** ** [parseInt] on integer literals *)

Section ParseInt.

Local Open Scope Z_scope.

Lemma decimalDigit_digitValue (c : ascii) (d : Z) :
  Spec.decimalDigit c = Some d -> JSString.digitValue 10 c = Some d.
Proof.
  unfold Spec.decimalDigit, JSString.digitValue.
  destruct ((48 <=? Z.of_N (JSString.code c))
            && (Z.of_N (JSString.code c) <=? 57)) eqn:Hrange;
    [| discriminate].
  intros [= <-].
  apply andb_true_iff in Hrange as [Hlo Hhi].
  apply Z.leb_le in Hlo, Hhi.
  destruct (Z.ltb_spec (Z.of_N (JSString.code c) - 48) 10); [reflexivity | lia].
Qed.

Lemma decimalDigit_not_space (c : ascii) (d : Z) :
  Spec.decimalDigit c = Some d -> JSString.isWhiteSpace c = false.
Proof.
  unfold Spec.decimalDigit, JSString.isWhiteSpace.
  destruct ((48 <=? Z.of_N (JSString.code c))
            && (Z.of_N (JSString.code c) <=? 57)) eqn:Hrange;
    [| discriminate].
  intros _.
  apply andb_true_iff in Hrange as [Hlo Hhi].
  apply Z.leb_le in Hlo, Hhi.
  destruct (N.leb_spec 9 (JSString.code c));
    destruct (N.leb_spec (JSString.code c) 13);
    destruct (N.eqb_spec (JSString.code c) 32);
    destruct (N.eqb_spec (JSString.code c) 160);
    simpl; try reflexivity; lia.
Qed.

Lemma decimalDigit_differs (c other : ascii) (d : Z) :
  Spec.decimalDigit c = Some d ->
  Spec.decimalDigit other = None ->
  Ascii.eqb c other = false.
Proof.
  intros Hc Hother.
  destruct (Ascii.eqb_spec c other) as [-> |]; [congruence | reflexivity].
Qed.

Lemma readDigits_literal (s : string) :
  forall (seen : bool) (acc z : Z),
    Spec.digitsValue acc s = Some z ->
    seen = true \/ s <> EmptyString ->
    JSString.readDigits 10 seen acc s = Some z.
Proof.
  induction s as [| c r IH]; intros seen acc z Hval Hseen.
  - simpl in *. destruct Hseen as [-> | Hne]; [congruence | now elim Hne].
  - simpl in Hval. simpl.
    destruct (Spec.decimalDigit c) as [d |] eqn:Hd; [| discriminate].
    rewrite (decimalDigit_digitValue _ _ Hd).
    apply IH; [exact Hval | now left].
Qed.

(** A string of decimal digits has no [0x] prefix. *)
Lemma literal_radix (s : string) (acc z : Z) :
  Spec.digitsValue acc s = Some z -> JSString.readRadix s = (10, s).
Proof.
  destruct s as [| c0 [| c1 r]]; try reflexivity.
  simpl. intros Hval.
  destruct (Spec.decimalDigit c0) as [d0 |]; [| discriminate].
  destruct (Spec.decimalDigit c1) as [d1 |] eqn:Hd1; [| discriminate].
  rewrite (decimalDigit_differs c1 "x" d1 Hd1 eq_refl).
  rewrite (decimalDigit_differs c1 "X" d1 Hd1 eq_refl).
  now rewrite andb_false_r.
Qed.

Lemma literal_first_digit (c : ascii) (r : string) (acc z : Z) :
  Spec.digitsValue acc (String c r) = Some z ->
  exists d, Spec.decimalDigit c = Some d.
Proof.
  simpl. destruct (Spec.decimalDigit c) as [d |]; [eauto | discriminate].
Qed.

Lemma parseInt_digits (s : string) (z : Z) :
  s <> EmptyString ->
  Spec.digitsValue 0 s = Some z ->
  JSString.parseInt s = Some z.
Proof.
  intros Hne Hval. unfold JSString.parseInt.
  destruct s as [| c r]; [now elim Hne |].
  destruct (literal_first_digit _ _ _ _ Hval) as [d Hd].
  cbn [JSString.trimStart]. rewrite (decimalDigit_not_space _ _ Hd).
  unfold JSString.readSign.
  rewrite (decimalDigit_differs c "-" d Hd eq_refl).
  rewrite (decimalDigit_differs c "+" d Hd eq_refl).
  rewrite (literal_radix _ _ _ Hval).
  rewrite (readDigits_literal _ false 0 z Hval) by now right.
  f_equal. lia.
Qed.

(** On an integer literal, [parseInt] returns the integer it denotes. *)
Lemma parseInt_literal (s : string) (z : Z) :
  Spec.integerLiteral s = Some z -> JSString.parseInt s = Some z.
Proof.
  destruct s as [| c r]; [discriminate |].
  unfold Spec.integerLiteral.
  destruct (Ascii.eqb_spec c "-") as [-> | Hminus].
  - destruct r as [| c1 r1]; [discriminate |].
    destruct (Spec.digitsValue 0 (String c1 r1)) as [v |] eqn:Hval;
      [| discriminate].
    intros [= <-].
    unfold JSString.parseInt.
    change (JSString.readSign (JSString.trimStart (String "-" (String c1 r1))))
      with ((-1)%Z, String c1 r1).
    cbv iota beta.
    rewrite (literal_radix _ _ _ Hval).
    rewrite (readDigits_literal _ false 0 v Hval) by now right.
    f_equal; lia.
  - intros Hval. apply parseInt_digits; [discriminate | exact Hval].
Qed.

Lemma clampScore_nearestBound (n : Z) :
  Weekly.clampScore n = Spec.nearestBound n /\ 1 <= Weekly.clampScore n <= 10.
Proof.
  unfold Weekly.clampScore, JS.Math_max, JS.Math_min, Spec.nearestBound.
  destruct (Z.ltb_spec n 1), (Z.ltb_spec 10 n); lia.
Qed.

Lemma parseInt_truthy (s : string) (n : Z) :
  JSString.parseInt s = Some n -> JSString.truthy s = true.
Proof. destruct s; [discriminate | reflexivity]. Qed.

End ParseInt.

(** ** The category edit *)

Section CategoryEdit.

Import Weekly.

Lemma get_set_same {V : Type} (o : JS.JSObject V) (k : string) (v : V) :
  JS.get (JS.set o k v) k = Some v.
Proof.
  induction o as [| [k' v'] r IH]; simpl.
  - now rewrite String.eqb_refl.
  - destruct (String.eqb k' k) eqn:Hk; simpl; rewrite Hk; [reflexivity | exact IH].
Qed.

Lemma keeps_ret (id : string) {A : Type} (a : A) : Frame.keepsScore id (ret a).
Proof. intros s. reflexivity. Qed.

Lemma keeps_throw (id : string) {A : Type} : Frame.keepsScore id (@throw A).
Proof. intros s. reflexivity. Qed.

Lemma keeps_question (id : string) : Frame.keepsScore id question.
Proof. intros s. unfold question. destruct (answers s); reflexivity. Qed.

Lemma keeps_reading (id : string) {A : Type}
  (loop : list string -> result A * list string) :
  Frame.keepsScore id (reading loop).
Proof. intros s. unfold reading. destruct (loop (answers s)). reflexivity. Qed.

Lemma keeps_getCategory (id categoryId : string) :
  Frame.keepsScore id (getCategory categoryId).
Proof.
  intros s. unfold getCategory.
  destruct (JS.get (scores (current s)) categoryId); reflexivity.
Qed.

Lemma keeps_bind (id : string) {A B : Type} (m : IO A) (f : A -> IO B) :
  Frame.keepsScore id m ->
  (forall a, Frame.keepsScore id (f a)) ->
  Frame.keepsScore id (bind m f).
Proof.
  intros Hm Hf s. unfold bind.
  specialize (Hm s).
  destruct (m s) as [[a | |] s']; simpl in Hm; simpl; try exact Hm.
  rewrite <- Hm. apply Hf.
Qed.

(** Writing a field other than [score] of the category keeps its score. *)
Lemma keeps_modify (id : string) (f : CategoryScore -> CategoryScore) :
  (forall cat, score (f cat) = score cat) ->
  Frame.keepsScore id (modifyCategory id f).
Proof.
  intros Hf s. unfold modifyCategory.
  destruct (JS.get (scores (current s)) id) as [cat |] eqn:Hget;
    [| reflexivity].
  unfold Spec.storedScore. simpl.
  rewrite get_set_same, Hget. simpl. now rewrite Hf.
Qed.

Lemma keeps_updateTrend (id trendInput : string) :
  Frame.keepsScore id (updateTrend id trendInput).
Proof.
  unfold updateTrend.
  destruct (JSString.truthy trendInput); [| apply keeps_ret].
  match goal with
  | |- Frame.keepsScore _ (match ?found with _ => _ end) => destruct found
  end; [apply keeps_modify; reflexivity | apply keeps_ret].
Qed.

Ltac keeps :=
  repeat first
    [ apply keeps_ret | apply keeps_throw | apply keeps_question
    | apply keeps_reading | apply keeps_getCategory | apply keeps_updateTrend
    | apply keeps_modify; intros; reflexivity
    | apply keeps_bind; [| intros]
    | match goal with
      | |- Frame.keepsScore _ (if ?b then _ else _) => destruct b
      | |- Frame.keepsScore _ (match ?x with _ => _ end) => destruct x
      end ].

(** The score step of a category edit never throws when the category is
    there, and it decides the score the whole edit leaves. *)
Lemma updateScore_returns (categoryId newScore : string) (s : Session)
  (cat : CategoryScore) :
  JS.get (scores (current s)) categoryId = Some cat ->
  fst (updateScore categoryId newScore s) = Ret tt.
Proof.
  intros Hget. unfold updateScore.
  destruct (JSString.truthy newScore); [| reflexivity].
  destruct (JSString.parseInt newScore); [| reflexivity].
  unfold modifyCategory. now rewrite Hget.
Qed.

Lemma updateCategory_stored (today categoryId newScore : string)
  (rest : list string) (cur : CurrentAssessment)
  (file : option CurrentAssessment) (cat : CategoryScore) :
  JS.get (scores cur) categoryId = Some cat ->
  Spec.storedScore
    (current (snd (updateCategory today categoryId
                     (mkSession (newScore :: rest) cur file)))) categoryId
  = Spec.storedScore
      (current (snd (updateScore categoryId newScore
                       (mkSession rest cur file)))) categoryId.
Proof.
  intros Hget. unfold updateCategory.
  unfold bind at 1. unfold getCategory at 1. cbn [current]. rewrite Hget.
  unfold bind at 1. unfold question at 1. cbn [answers current current_json].
  unfold bind at 1.
  destruct (updateScore categoryId newScore (mkSession rest cur file))
    as [[[] | |] s2]; try reflexivity.
  match goal with
  | |- Spec.storedScore (current (snd (?m s2))) _ = _ =>
      assert (Hkeeps : Frame.keepsScore categoryId m) by keeps
  end.
  apply Hkeeps.
Qed.

Lemma updateScore_parsed (categoryId newScore : string) (s : Session)
  (cat : CategoryScore) (n : Z) :
  JS.get (scores (current s)) categoryId = Some cat ->
  JSString.parseInt newScore = Some n ->
  Spec.storedScore (current (snd (updateScore categoryId newScore s)))
    categoryId
  = Some (inject_Z (clampScore n)).
Proof.
  intros Hget Hparse. unfold updateScore.
  rewrite (parseInt_truthy _ _ Hparse), Hparse.
  unfold modifyCategory. rewrite Hget.
  unfold Spec.storedScore. simpl. now rewrite get_set_same.
Qed.

Lemma updateScore_ignored (categoryId newScore : string) (s : Session) :
  newScore = EmptyString \/ JSString.parseInt newScore = None ->
  updateScore categoryId newScore s = (Ret tt, s).
Proof.
  intros [-> | Hnan]; [reflexivity |].
  unfold updateScore. rewrite Hnan.
  destruct (JSString.truthy newScore); reflexivity.
Qed.

End CategoryEdit.

(** C9, as stated, fails: the response 1e3 is numeric and above 10, yet the
    edit stores 1, the clamp of its leading digit, and not 10; the response
    .5 is numeric and below 1, yet it is ignored and the score stays 5. *)
Lemma score_response_read_by_leading_digits :
  (exists q, Spec.numericValue "1e3" = Some q /\ (10 < q)%Q)
  /\ Spec.storedScore
       (Weekly.current
          (snd (Weekly.updateCategory "2026-02-18" "elections"
                  (Weekly.mkSession ["1e3"; "i"; "n"; "n"] Sample.january None))))
       "elections"
     = Some 1%Q
  /\ ~ (1 == 10)%Q
  /\ (exists q, Spec.numericValue ".5" = Some q /\ (q < 1)%Q)
  /\ Spec.storedScore Sample.january "elections" = Some 5%Q
  /\ Spec.storedScore
       (Weekly.current
          (snd (Weekly.updateCategory "2026-02-18" "elections"
                  (Weekly.mkSession [".5"; "i"; "n"; "n"] Sample.january None))))
       "elections"
     = Some 5%Q
  /\ ~ (5 == 1)%Q.
Proof.
  split; [eexists; split; [vm_compute; reflexivity | reflexivity] |].
  split; [vm_compute; reflexivity |].
  split; [discriminate |].
  split; [eexists; split; [vm_compute; reflexivity | reflexivity] |].
  split; [vm_compute; reflexivity |].
  split; [vm_compute; reflexivity | discriminate].
Qed.

(** C9, amended: during a category edit, a score response that [parseInt]
    reads as an integer (white space and a sign before the digits allowed,
    whatever follows the digits ignored; an integer written in decimal
    digits is read as itself) is stored clamped to the nearest bound of 1-10
    (below 1 becomes 1, above 10 becomes 10), not rejected; a response that
    is empty or that [parseInt] does not read leaves the category's score as
    it was; and the score step raises no error whatever the response. *)
Theorem score_response_lenient (today categoryId newScore : string)
  (rest : list string) (cur : CurrentAssessment)
  (file : option CurrentAssessment) (cat : CategoryScore) :
  JS.get (scores cur) categoryId = Some cat ->
  let after :=
    snd (Weekly.updateCategory today categoryId
           (Weekly.mkSession (newScore :: rest) cur file)) in
  (forall n,
      JSString.parseInt newScore = Some n ->
      Spec.storedScore (Weekly.current after) categoryId
      = Some (inject_Z (Spec.nearestBound n))
      /\ (n < 1 -> Spec.nearestBound n = 1)%Z
      /\ (10 < n -> Spec.nearestBound n = 10)%Z
      /\ (1 <= n <= 10 -> Spec.nearestBound n = n)%Z)
  /\ (forall z,
        Spec.integerLiteral newScore = Some z ->
        JSString.parseInt newScore = Some z
        /\ Spec.storedScore (Weekly.current after) categoryId
           = Some (inject_Z (Spec.nearestBound z)))
  /\ (newScore = EmptyString \/ JSString.parseInt newScore = None ->
      Spec.storedScore (Weekly.current after) categoryId = Some (score cat))
  /\ fst (Weekly.updateScore categoryId newScore
            (Weekly.mkSession rest cur file)) = Weekly.Ret tt.
Proof.
  intros Hget after. subst after.
  rewrite (updateCategory_stored _ _ _ _ _ _ _ Hget).
  assert (Hparsed : forall n,
             JSString.parseInt newScore = Some n ->
             Spec.storedScore
               (Weekly.current
                  (snd (Weekly.updateScore categoryId newScore
                          (Weekly.mkSession rest cur file)))) categoryId
             = Some (inject_Z (Spec.nearestBound n))).
  { intros n Hparse.
    rewrite (updateScore_parsed categoryId newScore
               (Weekly.mkSession rest cur file) cat n Hget Hparse).
    now destruct (clampScore_nearestBound n) as [-> _]. }
  split; [| split; [| split]].
  - intros n Hparse. split; [now apply Hparsed |].
    unfold Spec.nearestBound.
    destruct (Z.ltb_spec n 1), (Z.ltb_spec 10 n); repeat split; intros; lia.
  - intros z Hlit. pose proof (parseInt_literal _ _ Hlit) as Hparse.
    split; [exact Hparse | now apply Hparsed].
  - intros Hignored.
    rewrite (updateScore_ignored _ _ _ Hignored).
    unfold Spec.storedScore. simpl. now rewrite Hget.
  - now apply (updateScore_returns categoryId newScore
                 (Weekly.mkSession rest cur file) cat).
Qed.

Lemma score_response_lenient_witness :
  Spec.storedScore
    (Weekly.current
       (snd (Weekly.updateCategory "2026-02-18" "elections"
               (Weekly.mkSession [" +15.5"; "i"; "n"; "n"] Sample.january None))))
    "elections"
  = Some (inject_Z 10).
Proof.
  pose proof (score_response_lenient "2026-02-18" "elections" " +15.5"
                ["i"; "n"; "n"] Sample.january None (Sample.category 5)
                eq_refl) as H.
  cbv zeta in H. destruct H as [Hnumeric _].
  exact (proj1 (Hnumeric 15%Z eq_refl)).
Defined.

(** C10: during a category edit, a score response on which [parseInt]
    succeeds is stored as the clamp to 1-10 of the integer prefix it parsed:
    7.9 is stored as 7 (truncated, not rounded to 8) and 5abc as 5. *)
Theorem score_response_truncated (today categoryId newScore : string)
  (rest : list string) (cur : CurrentAssessment)
  (file : option CurrentAssessment) (cat : CategoryScore) (n : Z) :
  JS.get (scores cur) categoryId = Some cat ->
  JSString.parseInt newScore = Some n ->
  Spec.storedScore
    (Weekly.current
       (snd (Weekly.updateCategory today categoryId
               (Weekly.mkSession (newScore :: rest) cur file)))) categoryId
  = Some (inject_Z (Weekly.clampScore n))
  /\ Weekly.clampScore n = Spec.nearestBound n
  /\ JSString.parseInt "7.9" = Some 7%Z
  /\ JSString.parseInt "5abc" = Some 5%Z.
Proof.
  intros Hget Hparse.
  rewrite (updateCategory_stored _ _ _ _ _ _ _ Hget).
  rewrite (updateScore_parsed categoryId newScore
             (Weekly.mkSession rest cur file) cat n Hget Hparse).
  split; [reflexivity |].
  split; [apply clampScore_nearestBound |].
  split; reflexivity.
Qed.

Lemma score_response_truncated_witness :
  Spec.storedScore
    (Weekly.current
       (snd (Weekly.updateCategory "2026-02-18" "elections"
               (Weekly.mkSession ["7.9"; "i"; "n"; "n"] Sample.january None))))
    "elections"
  = Some (inject_Z (Weekly.clampScore 7))
  /\ Weekly.clampScore 7 = Spec.nearestBound 7
  /\ JSString.parseInt "7.9" = Some 7%Z
  /\ JSString.parseInt "5abc" = Some 5%Z.
Proof.
  apply (score_response_truncated "2026-02-18" "elections" "7.9"
           ["i"; "n"; "n"] Sample.january None (Sample.category 5) 7).
  - reflexivity.
  - reflexivity.
Defined.

(** ** The discard path *)

Section Discard.

Import Weekly.

Lemma file_ret {A : Type} (a : A) : Frame.keepsFile (ret a).
Proof. intros s. reflexivity. Qed.

Lemma file_throw {A : Type} : Frame.keepsFile (@throw A).
Proof. intros s. reflexivity. Qed.

Lemma file_question : Frame.keepsFile question.
Proof. intros s. unfold question. destruct (answers s); reflexivity. Qed.

Lemma file_reading {A : Type} (loop : list string -> result A * list string) :
  Frame.keepsFile (reading loop).
Proof. intros s. unfold reading. destruct (loop (answers s)). reflexivity. Qed.

Lemma file_getCategory (categoryId : string) :
  Frame.keepsFile (getCategory categoryId).
Proof.
  intros s. unfold getCategory.
  destruct (JS.get (scores (current s)) categoryId); reflexivity.
Qed.

Lemma file_getCurrent : Frame.keepsFile getCurrent.
Proof. intros s. reflexivity. Qed.

Lemma file_setCurrent (c : CurrentAssessment) : Frame.keepsFile (setCurrent c).
Proof. intros s. reflexivity. Qed.

Lemma file_modify (categoryId : string) (f : CategoryScore -> CategoryScore) :
  Frame.keepsFile (modifyCategory categoryId f).
Proof.
  intros s. unfold modifyCategory.
  destruct (JS.get (scores (current s)) categoryId); reflexivity.
Qed.

Lemma file_bind {A B : Type} (m : IO A) (f : A -> IO B) :
  Frame.keepsFile m ->
  (forall a, Frame.keepsFile (f a)) ->
  Frame.keepsFile (bind m f).
Proof.
  intros Hm Hf s. unfold bind.
  specialize (Hm s).
  destruct (m s) as [[a | |] s']; simpl in Hm; simpl; try exact Hm.
  rewrite <- Hm. apply Hf.
Qed.

Ltac keepsFile :=
  repeat first
    [ apply file_ret | apply file_throw | apply file_question
    | apply file_reading | apply file_getCategory | apply file_getCurrent
    | apply file_setCurrent | apply file_modify
    | apply file_bind; [| intros]
    | match goal with
      | |- Frame.keepsFile (if ?b then _ else _) => destruct b
      | |- Frame.keepsFile (match ?x with _ => _ end) => destruct x
      end ].

Lemma file_updateCategory (today categoryId : string) :
  Frame.keepsFile (updateCategory today categoryId).
Proof. unfold updateCategory, updateScore, updateTrend. keepsFile. Qed.

Lemma file_updateAll (today : string) (selected : list string) :
  Frame.keepsFile (updateAll today selected).
Proof.
  induction selected as [| categoryId rest IH]; simpl.
  - apply file_ret.
  - apply file_bind; [apply file_updateCategory | intros _; exact IH].
Qed.

Lemma file_recalculate (today : string) : Frame.keepsFile (recalculate today).
Proof. unfold recalculate. keepsFile. Qed.

Lemma file_selectCategories : Frame.keepsFile selectCategories.
Proof. apply file_reading. Qed.

Lemma save_bind {A : Type} (m : IO A) (f : A -> IO Outcome) :
  Frame.keepsFile m ->
  (forall a, Frame.writesOnlyOnSave (f a)) ->
  Frame.writesOnlyOnSave (bind m f).
Proof.
  intros Hm Hf s. unfold bind.
  specialize (Hm s).
  destruct (m s) as [[a | |] s']; simpl in Hm; simpl; intros Hout;
    try exact Hm.
  rewrite <- Hm. now apply Hf.
Qed.

Lemma save_ret (o : Outcome) :
  o <> Saved -> Frame.writesOnlyOnSave (ret o).
Proof. intros _ s _. reflexivity. Qed.

(** The session writes [data/current.json] on one path only, the one that
    ends with [Saved]. *)
Lemma session_writes_on_save (today : string) :
  Frame.writesOnlyOnSave (session today).
Proof.
  unfold session.
  apply save_bind; [apply file_selectCategories | intros selected].
  destruct (nonEmpty selected); [| now apply save_ret].
  apply save_bind; [apply file_updateAll | intros _].
  apply save_bind; [apply file_recalculate | intros _].
  apply save_bind; [apply file_question | intros confirm].
  destruct (negb (String.eqb (JSString.toLowerCase confirm) "n")).
  - intros s Hout. now elim Hout.
  - now apply save_ret.
Qed.

(** X12: a run that does not end with [Saved] leaves the file alone,
    however it ends: stalled on a prompt, failed on an exception or left
    without a selection. *)
Lemma unsaved_run_writes_nothing (today : string) (inputs : list string)
  (file : option CurrentAssessment) :
  fst (main today inputs file) <> Saved ->
  snd (main today inputs file) = file.
Proof.
  unfold main. destruct file as [c |]; [| reflexivity].
  pose proof (session_writes_on_save today (mkSession inputs c (Some c)))
    as Hsession.
  destruct (session today (mkSession inputs c (Some c))) as [[o | |] s];
    simpl in *; intros Hout; apply Hsession; congruence.
Qed.

(** The save prompt takes every answer but [n] and [N] for a yes. *)
Example answer_no_saves :
  fst (main "2026-02-18" ["1"; "q"; "9.7"; "inc"; "n"; "n"; "no"]
         (Some Sample.january)) = Saved
  /\ option_map (fun c => Spec.storedScore c "elections")
       (snd (main "2026-02-18" ["1"; "q"; "9.7"; "inc"; "n"; "n"; "no"]
               (Some Sample.january)))
     = Some (Some 9%Q).
Proof. split; vm_compute; reflexivity. Qed.

End Discard.

(** C8: a run of the weekly update that ends with the operator declining
    to save (outcome [Discarded], reached only after the selected
    categories were edited in memory and the aggregates recomputed) leaves
    [data/current.json] as it was before the session. *)
Theorem declined_save_writes_nothing (today : string) (inputs : list string)
  (file : option CurrentAssessment) :
  fst (Weekly.main today inputs file) = Weekly.Discarded ->
  snd (Weekly.main today inputs file) = file.
Proof.
  unfold Weekly.main. destruct file as [c |]; [| reflexivity].
  pose proof (session_writes_on_save today
                (Weekly.mkSession inputs c (Some c))) as Hsession.
  destruct (Weekly.session today (Weekly.mkSession inputs c (Some c)))
    as [[o | |] s]; simpl in *; intros Hout; try discriminate.
  apply Hsession. rewrite Hout. discriminate.
Qed.

Lemma declined_save_writes_nothing_witness :
  snd (Weekly.main "2026-02-18" ["1"; "q"; "9.7"; "inc"; "n"; "n"; "N"]
         (Some Sample.january))
  = Some Sample.january.
Proof.
  apply (declined_save_writes_nothing "2026-02-18"
           ["1"; "q"; "9.7"; "inc"; "n"; "n"; "N"] (Some Sample.january)).
  vm_compute. reflexivity.
Defined.

(** ** The archive step *)

Section ArchiveStep.

Import Archive.

Variable ROOT : string.

Lemma bind_some {A B : Type} (m : Script A) (f : A -> Script B)
  (w w' : World) (a : A) :
  m w = (Some a, w') -> bind m f w = f a w'.
Proof. intros H. unfold bind. now rewrite H. Qed.

Lemma occurs_once (x : string) (l : list string) :
  NoDup l -> In x l -> length (List.filter (String.eqb x) l) = 1%nat.
Proof.
  induction 1 as [| y l Hnotin Hnodup IH]; intros Hin; [now elim Hin |].
  simpl. destruct (String.eqb_spec x y) as [<- | Hne].
  - simpl. f_equal.
    assert (Hnone : forall l', ~ x ∈ l' -> List.filter (String.eqb x) l' = []).
    { induction l' as [| z l' IHl']; intros Hz; [reflexivity |].
      simpl. destruct (String.eqb_spec x z) as [<- | _].
      - elim Hz. left.
      - apply IHl'. intros Hx. apply Hz. now right. }
    now rewrite (Hnone l Hnotin).
  - destruct Hin as [-> | Hin]; [now elim Hne | now apply IH].
Qed.

Lemma readdirSync_lookup (dir : gmap string Snapshot.t) (name : string) :
  In name (readdirSync dir) <-> is_Some (dir !! name).
Proof.
  unfold readdirSync. rewrite <- list_elem_of_In, list_elem_of_fmap. split.
  - intros [[k v] [-> Hkv]]. apply elem_of_map_to_list in Hkv. now exists v.
  - intros [v Hv]. exists (name, v). split; [reflexivity |].
    now apply elem_of_map_to_list.
Qed.

Lemma readdirSync_NoDup (dir : gmap string Snapshot.t) :
  NoDup (readdirSync dir).
Proof. apply NoDup_fst_map_to_list. Qed.

(** What step 1 does: the directory gains the snapshot of the period when
    it had none, and nothing else in the files changes. *)
Lemma archiveSnapshot_run (current : CurrentAssessment) (dateStr : string)
  (w : World) :
  exists dir out,
    archiveSnapshot ROOT current dateStr w
    = (Some tt,
       mkWorld
         (mkFiles (current_json (files w)) dir (history_page (files w))
            (changes_json (files w)))
         out)
    /\ is_Some (dir !! (dateStr ++ ".json"))
    /\ (forall snapshot,
          history (files w) !! (dateStr ++ ".json") = Some snapshot ->
          dir = history (files w))
    /\ (history (files w) !! (dateStr ++ ".json") = None ->
        dir = <[dateStr ++ ".json" := createHistorySnapshot current dateStr]>
                (history (files w))).
Proof.
  unfold archiveSnapshot, bind, getFiles, setFiles, console_log. simpl.
  destruct (history (files w) !! (dateStr ++ ".json")) as [existing |] eqn:Hlook;
    simpl.
  - exists (history (files w)). eexists. split; [| split; [| split]].
    + destruct w as [[cj dir page ch] out]. reflexivity.
    + now rewrite Hlook.
    + reflexivity.
    + discriminate.
  - eexists. eexists. split; [reflexivity | split; [| split]].
    + rewrite lookup_insert_eq. eauto.
    + intros snapshot Hsome. discriminate.
    + reflexivity.
Qed.

End ArchiveStep.

(** C7: archiving twice for the same date leaves the directory with exactly
    one snapshot file for that date and with the content the first call
    left, whatever the current assessment has become in between; the second
    call writes no file, raises nothing and logs a skip. *)
Theorem archive_idempotent (ROOT dateStr : string)
  (first second : CurrentAssessment) (w : Archive.World) :
  let name := dateStr ++ ".json" in
  let w1 := snd (Archive.archiveSnapshot ROOT first dateStr w) in
  let again := Archive.archiveSnapshot ROOT second dateStr w1 in
  fst again = Some tt
  /\ Archive.files (snd again) = Archive.files w1
  /\ Archive.history (Archive.files (snd again)) !! name
     = Archive.history (Archive.files w1) !! name
  /\ is_Some (Archive.history (Archive.files (snd again)) !! name)
  /\ length (List.filter (String.eqb name)
               (Archive.readdirSync
                  (Archive.history (Archive.files (snd again))))) = 1%nat
  /\ Archive.console (snd again)
     = (Archive.console w1
        ++ [Archive.Log ("[SKIP] History snapshot already exists: "
                         ++ Archive.HISTORY_DIR ROOT ++ "/" ++ name)])%list.
Proof.
  intros name w1 again.
  destruct (archiveSnapshot_run ROOT first dateStr w)
    as (dir & out & Hrun & [snapshot Hsome] & _ & _).
  assert (Hw1 : w1 = Archive.mkWorld
                       (Archive.mkFiles (Archive.current_json (Archive.files w))
                          dir (Archive.history_page (Archive.files w))
                          (Archive.changes_json (Archive.files w))) out).
  { subst w1. now rewrite Hrun. }
  assert (Hagain : again
                   = (Some tt,
                      Archive.mkWorld (Archive.files w1)
                        (Archive.console w1
                         ++ [Archive.Log
                               ("[SKIP] History snapshot already exists: "
                                ++ Archive.HISTORY_DIR ROOT ++ "/" ++ name)])%list)).
  { subst again. rewrite Hw1.
    unfold Archive.archiveSnapshot, Archive.bind, Archive.getFiles. simpl.
    rewrite Hsome. reflexivity. }
  rewrite Hagain. simpl.
  assert (Hdir : Archive.history (Archive.files w1) !! name = Some snapshot)
    by (rewrite Hw1; exact Hsome).
  repeat split.
  - rewrite Hdir. eauto.
  - apply occurs_once; [apply readdirSync_NoDup |].
    apply readdirSync_lookup. rewrite Hdir. eauto.
Qed.

(** ** A run of the archive script *)

Section ArchiveRun.

Import Archive.

Lemma insertSorted_In (x y : string) (l : list string) :
  In y (insertSorted x l) <-> y = x \/ In y l.
Proof.
  induction l as [| z l IH]; simpl.
  - intuition.
  - destruct (String.leb x z); simpl; [intuition |].
    rewrite IH. intuition.
Qed.

Lemma sort_In (y : string) (l : list string) : In y (sort l) <-> In y l.
Proof.
  induction l as [| x l IH]; simpl; [reflexivity |].
  rewrite insertSorted_In, IH. intuition.
Qed.

(** The last name of a directory that is not empty is one of its files. *)
Lemma last_history_file (dir : gmap string Snapshot.t) (name : string) :
  is_Some (dir !! name) ->
  exists lastHistoryFile lastSnapshot,
    last (sort (readdirSync dir)) = Some lastHistoryFile
    /\ dir !! lastHistoryFile = Some lastSnapshot.
Proof.
  intros Hname.
  destruct (last (sort (readdirSync dir))) as [k |] eqn:Hlast.
  - apply last_Some_elem_of, list_elem_of_In, sort_In, readdirSync_lookup
      in Hlast as [s Hs].
    now exists k, s.
  - apply last_None in Hlast.
    apply readdirSync_lookup, sort_In in Hname.
    rewrite Hlast in Hname. now elim Hname.
Qed.

(** The baseline of [overallChange]: the overall score of the last entry
    of the change log, or the current one when the log is empty. *)
Lemma generate_run (current : CurrentAssessment) (dateStr monthYear : string)
  (w : World) (changes : list Change.t) (name : string) :
  changes_json (files w) = Some changes ->
  is_Some (history (files w) !! name) ->
  exists t,
    generateChangesTemplate current dateStr monthYear w = (Some t, w)
    /\ Change.overallChange t
       = Some (inject_Z
                 (JS.Math_round
                    ((overallScore current
                      - match last changes with
                        | Some p => Change.overallScore p
                        | None => overallScore current
                        end) * 10)) / 10)%Q
    /\ (changes = [] -> Change.categoryChanges t = [])
    /\ (changes <> [] ->
        exists lastHistoryFile lastSnapshot,
          last (sort (readdirSync (history (files w)))) = Some lastHistoryFile
          /\ history (files w) !! lastHistoryFile = Some lastSnapshot
          /\ Change.categoryChanges t
             = detectChanges lastSnapshot (scores current)).
Proof.
  intros Hchanges Hname.
  unfold generateChangesTemplate, getPreviousMonthData.
  unfold bind at 1. unfold bind at 1. unfold readFile, bind, getFiles, ret.
  rewrite Hchanges.
  destruct (last changes) as [p |] eqn:Hlast.
  - destruct (last_history_file _ _ Hname) as (k & s & Hk & Hs).
    rewrite Hk, Hs.
    eexists. split; [reflexivity |]. split; [reflexivity |].
    split; [intros ->; discriminate |].
    intros _. exists k, s. repeat split; assumption.
  - apply last_None in Hlast. subst changes.
    eexists. split; [reflexivity |]. split; [reflexivity |].
    split; [reflexivity |]. intros Hne. now elim Hne.
Qed.

Lemma updateHistoryPage_run (dateStr : string) (w : World) (page : string) :
  history_page (files w) = Some page ->
  exists updated page' out,
    updateHistoryPage dateStr w
    = (Some updated,
       mkWorld
         (mkFiles (current_json (files w)) (history (files w)) (Some page')
            (changes_json (files w)))
         out).
Proof.
  intros Hpage. destruct w as [[cj dir pg ch] out]. simpl in Hpage. subst pg.
  unfold updateHistoryPage, bind, readFile, getFiles, setFiles, ret,
    console_log. simpl.
  destruct (includes page (getImportName dateStr)); simpl;
    repeat eexists.
Qed.

Variable ROOT : string.

(** A run of [main] with its three files in place goes through to the
    template, which is the one [generateChangesTemplate] makes once the
    snapshot of the period is in the directory. *)
Lemma main_run (now : Clock) (w : World) (current : CurrentAssessment)
  (page : string) (changes : list Change.t) :
  current_json (files w) = Some current ->
  history_page (files w) = Some page ->
  changes_json (files w) = Some changes ->
  exists t w',
    main ROOT now w = (Some t, w')
    /\ Change.overallChange t
       = Some (inject_Z
                 (JS.Math_round
                    ((overallScore current
                      - match last changes with
                        | Some p => Change.overallScore p
                        | None => overallScore current
                        end) * 10)) / 10)%Q
    /\ (changes = [] -> Change.categoryChanges t = [])
    /\ exists dir,
         (forall snapshot,
            history (files w) !! (getDateString now ++ ".json") = Some snapshot ->
            dir = history (files w))
         /\ (history (files w) !! (getDateString now ++ ".json") = None ->
             dir = <[getDateString now ++ ".json"
                     := createHistorySnapshot current (getDateString now)]>
                     (history (files w)))
         /\ (changes <> [] ->
             exists lastHistoryFile lastSnapshot,
               last (sort (readdirSync dir)) = Some lastHistoryFile
               /\ dir !! lastHistoryFile = Some lastSnapshot
               /\ Change.categoryChanges t
                  = detectChanges lastSnapshot (scores current)).
Proof.
  intros Hcurrent Hpage Hchanges.
  set (dateStr := getDateString now).
  set (monthYear := getMonthYear now).
  set (w0 := mkWorld (files w)
               ((console w ++ [Log (LF ++ "=== Monthly Archive Script ===" ++ LF)])
                ++ [Log ("Creating archive for: " ++ monthYear ++ " (" ++ dateStr
                         ++ ")" ++ LF)])%list).
  destruct (archiveSnapshot_run ROOT current dateStr w0)
    as (dir & out1 & Hrun1 & Hdir & Hsame & Hfresh).
  simpl in Hrun1, Hsame, Hfresh.
  set (w1 := mkWorld (mkFiles (current_json (files w)) dir
                        (history_page (files w)) (changes_json (files w)))
               out1) in *.
  destruct (updateHistoryPage_run dateStr w1 page Hpage)
    as (updated & page' & out2 & Hrun2).
  simpl in Hrun2.
  set (w2 := mkWorld
               (mkFiles (current_json (files w)) dir (Some page')
                  (changes_json (files w)))
               (out2 ++ [Log (if updated : bool
                              then "[OK] Updated app/history/page.tsx with new import"
                              else "[SKIP] app/history/page.tsx already up to date")])%list).
  destruct (generate_run current dateStr monthYear w2 changes
              (dateStr ++ ".json") Hchanges Hdir)
    as (t & Hgen & Hchange & Hempty & Hdiff).
  exists t. eexists.
  split; [| split; [exact Hchange | split; [exact Hempty |]]].
  2: { exists dir. split; [exact Hsame |]. split; [exact Hfresh | exact Hdiff]. }
  unfold main.
  erewrite bind_some by reflexivity.
  erewrite bind_some
    by (unfold readFile, bind, getFiles; simpl; rewrite Hcurrent; reflexivity).
  erewrite bind_some by reflexivity.
  fold dateStr monthYear. simpl console.
  erewrite bind_some by exact Hrun1.
  erewrite bind_some by exact Hrun2.
  erewrite bind_some by reflexivity.
  erewrite bind_some by exact Hgen.
  reflexivity.
Qed.

End ArchiveRun.

(** ** Two runs of the archive script for the same period *)

Section ArchiveTwice.

Import Archive.

Lemma arch_ret {A : Type} (a : A) : Frame.keepsArchive (ret a).
Proof. intros w. split; reflexivity. Qed.

Lemma arch_throw {A : Type} : Frame.keepsArchive (@throw A).
Proof. intros w. split; reflexivity. Qed.

Lemma arch_console_log (line : string) : Frame.keepsArchive (console_log line).
Proof. intros w. split; reflexivity. Qed.

Lemma arch_console_log_template (t : Change.t) :
  Frame.keepsArchive (console_log_template t).
Proof. intros w. split; reflexivity. Qed.

Lemma arch_bind {A B : Type} (m : Script A) (f : A -> Script B) :
  Frame.keepsArchive m ->
  (forall a, Frame.keepsArchive (f a)) ->
  Frame.keepsArchive (bind m f).
Proof.
  intros Hm Hf w. unfold bind.
  specialize (Hm w).
  destruct (m w) as [[a |] w']; simpl in Hm; simpl; [| exact Hm].
  destruct Hm as [<- <-]. apply Hf.
Qed.

Lemma arch_updateHistoryPage (dateStr : string) :
  Frame.keepsArchive (updateHistoryPage dateStr).
Proof.
  intros [[cj dir page ch] out].
  unfold updateHistoryPage, bind, readFile, getFiles, setFiles, ret, throw,
    console_log. simpl.
  destruct page as [content |]; simpl; [| split; reflexivity].
  destruct (includes content (getImportName dateStr)); split; reflexivity.
Qed.

Lemma arch_generateChangesTemplate (current : CurrentAssessment)
  (dateStr monthYear : string) :
  Frame.keepsArchive (generateChangesTemplate current dateStr monthYear).
Proof.
  intros [[cj dir page ch] out].
  unfold generateChangesTemplate, getPreviousMonthData, bind, readFile,
    getFiles, ret, throw. simpl.
  destruct ch as [changes |]; simpl; [| split; reflexivity].
  destruct (last changes); simpl; [| split; reflexivity].
  destruct (last (sort (readdirSync dir))) as [k |]; [| split; reflexivity].
  destruct (dir !! k); split; reflexivity.
Qed.

Ltac keepsArchive :=
  repeat first
    [ apply arch_ret | apply arch_throw | apply arch_console_log
    | apply arch_console_log_template | apply arch_updateHistoryPage
    | apply arch_generateChangesTemplate
    | apply arch_bind; [| intros] ].

Variable ROOT : string.

(** The only file of the directory a run of [main] can add is the snapshot
    of the period, and it adds it only when that file is missing. *)
Lemma main_history (now : Clock) (w : World) (current : CurrentAssessment) :
  current_json (files w) = Some current ->
  current_json (files (snd (main ROOT now w))) = Some current
  /\ is_Some (history (files (snd (main ROOT now w)))
              !! (getDateString now ++ ".json"))
  /\ (forall snapshot,
        history (files w) !! (getDateString now ++ ".json") = Some snapshot ->
        history (files (snd (main ROOT now w))) = history (files w)).
Proof.
  intros Hcurrent.
  unfold main.
  erewrite bind_some by reflexivity.
  erewrite bind_some
    by (unfold readFile, bind, getFiles; simpl; rewrite Hcurrent; reflexivity).
  erewrite bind_some by reflexivity.
  match goal with
  | |- context [bind (archiveSnapshot ROOT current ?d) _ ?w0] =>
      destruct (archiveSnapshot_run ROOT current d w0)
        as (dir & out & Hrun & Hdir & Hsame & _)
  end.
  erewrite bind_some by exact Hrun.
  match goal with
  | |- context [snd (?m ?w1)] =>
      assert (Hkeeps : Frame.keepsArchive m) by keepsArchive;
      destruct (Hkeeps w1) as [Hhistory Hcj]
  end.
  rewrite Hhistory, Hcj. simpl. simpl in Hsame.
  split; [exact Hcurrent |]. split; [exact Hdir | exact Hsame].
Qed.

(** X23: running [main] again for the same period leaves the history
    directory as the first run left it, whether the runs complete or throw. *)
Lemma main_twice (now : Clock) (w : World) :
  history (files (snd (main ROOT now (snd (main ROOT now w)))))
  = history (files (snd (main ROOT now w))).
Proof.
  destruct (current_json (files w)) as [current |] eqn:Hcurrent.
  - destruct (main_history now w current Hcurrent) as (Hcj & [snapshot Hsome] & _).
    destruct (main_history now (snd (main ROOT now w)) current Hcj)
      as (_ & _ & Hsame).
    exact (Hsame snapshot Hsome).
  - destruct w as [[cj dir page ch] out]. simpl in Hcurrent. subst cj.
    reflexivity.
Qed.

End ArchiveTwice.

(** ** A snapshot against the assessment it was taken from *)

Section FreshSnapshot.

Import Archive.

Lemma get_set_other {V : Type} (o : JS.JSObject V) (k k' : string) (v : V) :
  k <> k' -> JS.get (JS.set o k v) k' = JS.get o k'.
Proof.
  intros Hne. induction o as [| [k0 v0] r IH]; simpl.
  - destruct (String.eqb_spec k k'); [contradiction | reflexivity].
  - destruct (String.eqb_spec k0 k) as [-> | Hk0]; simpl.
    + destruct (String.eqb_spec k k'); [contradiction | reflexivity].
    + destruct (String.eqb_spec k0 k'); [reflexivity | exact IH].
Qed.

Lemma get_absent {V : Type} (o : JS.JSObject V) (k : string) :
  ~ In k (JS.keys o) -> JS.get o k = None.
Proof.
  induction o as [| [k0 v0] r IH]; simpl; [reflexivity |].
  intros Hnotin. destruct (String.eqb_spec k0 k) as [-> | Hne].
  - elim Hnotin. now left.
  - apply IH. intros Hin. apply Hnotin. now right.
Qed.

Lemma get_entry {V : Type} (o : JS.JSObject V) (k : string) (v : V) :
  NoDup (JS.keys o) -> In (k, v) o -> JS.get o k = Some v.
Proof.
  induction o as [| [k0 v0] r IH]; simpl; [intros _ [] |].
  intros Hnodup [[= -> ->] | Hin].
  - now rewrite String.eqb_refl.
  - apply NoDup_cons in Hnodup as [Hnotin Hnodup].
    destruct (String.eqb_spec k0 k) as [-> | Hne].
    + elim Hnotin. apply list_elem_of_In.
      change k with (fst (k, v)). now apply in_map.
    + now apply IH.
Qed.

(** The snapshot records, for every category of the assessment, the score
    the assessment has for it. *)
Lemma snapshot_scores (entries : JS.JSObject CategoryScore) :
  NoDup (JS.keys entries) ->
  forall (acc : JS.JSObject Q) (k : string),
    JS.get
      (fold_left (fun acc entry => JS.set acc (fst entry) (score (snd entry)))
         entries acc) k
    = match JS.get entries k with
      | Some c => Some (score c)
      | None => JS.get acc k
      end.
Proof.
  induction entries as [| [k0 c0] r IH]; intros Hnodup acc k; [reflexivity |].
  simpl in Hnodup. apply NoDup_cons in Hnodup as [Hnotin Hnodup].
  simpl. rewrite (IH Hnodup).
  destruct (String.eqb_spec k0 k) as [-> | Hne].
  - rewrite get_absent by (now rewrite <- list_elem_of_In).
    apply get_set_same.
  - destruct (JS.get r k); [reflexivity |].
    now apply get_set_other.
Qed.

Lemma detectChanges_same (lastSnapshot : Snapshot.t)
  (entries : JS.JSObject CategoryScore) :
  (forall k c, In (k, c) entries ->
               JS.get (Snapshot.scores lastSnapshot) k = Some (score c)) ->
  detectChanges lastSnapshot entries = [].
Proof.
  induction entries as [| [k c] r IH]; intros Hsame; [reflexivity |].
  simpl. rewrite (Hsame k c) by now left.
  unfold JS.strictEq. rewrite (proj2 (Qeq_bool_iff _ _) (Qeq_refl _)). simpl.
  apply IH. intros k' c' Hin. apply Hsame. now right.
Qed.

(** Diffing an assessment against the snapshot just taken from it finds no
    change: what [main] does whenever the snapshot it has written is the
    last file of the directory. *)
Lemma fresh_snapshot_has_no_changes (current : CurrentAssessment)
  (dateStr : string) :
  NoDup (JS.keys (scores current)) ->
  detectChanges (createHistorySnapshot current dateStr) (scores current) = [].
Proof.
  intros Hnodup. apply detectChanges_same. intros k c Hin.
  unfold createHistorySnapshot. simpl.
  rewrite (snapshot_scores _ Hnodup).
  now rewrite (get_entry _ _ _ Hnodup Hin).
Qed.

End FreshSnapshot.

(** ** The baseline of the category diff *)

Section DiffBaseline.

Import Archive.

Lemma last_insertSorted (x : string) (l : list string) :
  last (insertSorted x l)
  = if existsb (String.leb x) l then last l else Some x.
Proof.
  induction l as [| y r IH]; [reflexivity |].
  simpl. destruct (String.leb x y) eqn:Hxy; simpl.
  - reflexivity.
  - rewrite last_cons, IH.
    destruct (existsb (String.leb x) r) eqn:Hex; [| reflexivity].
    rewrite (last_cons y r).
    reflexivity.
Qed.

(** The name the sorted listing ends with is the one no other name of the
    directory follows. *)
Lemma last_sort_greatest (x : string) (l : list string) :
  NoDup l ->
  In x l ->
  (forall y, In y l -> y <> x -> String.leb x y = false) ->
  last (sort l) = Some x.
Proof.
  induction 1 as [| a r Hnotin Hnodup IH]; intros Hin Hgreatest;
    [now elim Hin |].
  simpl. rewrite last_insertSorted.
  destruct (String.eqb_spec a x) as [-> | Hne].
  - assert (Hnone : existsb (String.leb x) (sort r) = false).
    { apply not_true_is_false. intros Hex.
      apply existsb_exists in Hex as [y [Hy Hle]].
      apply (proj1 (sort_In _ _)) in Hy.
      rewrite Hgreatest in Hle; [discriminate | now right |].
      intros ->. apply Hnotin. now apply list_elem_of_In. }
    now rewrite Hnone.
  - destruct Hin as [-> | Hin]; [now elim Hne |].
    assert (Hlast : last (sort r) = Some x).
    { apply IH; [exact Hin |].
      intros y Hy Hyx. apply Hgreatest; [now right | exact Hyx]. }
    assert (Hsome : existsb (String.leb a) (sort r) = true).
    { apply existsb_exists. exists x. split; [now apply sort_In |].
      destruct (String.leb_total a x) as [Hax | Hxa]; [exact Hax |].
      rewrite Hgreatest in Hxa; [discriminate | now left | exact Hne]. }
    now rewrite Hsome.
Qed.

Variable ROOT : string.

(** X24: whenever a run of [main] writes the snapshot of the period and
    that file is the last of the directory, as it is every month, the
    category diff is taken against the new snapshot and finds nothing,
    whatever the earlier snapshots hold. *)
Lemma main_diffs_against_new_snapshot (now : Clock) (w : World)
  (current : CurrentAssessment) (page : string) (changes : list Change.t) :
  current_json (files w) = Some current ->
  history_page (files w) = Some page ->
  changes_json (files w) = Some changes ->
  changes <> [] ->
  NoDup (JS.keys (scores current)) ->
  history (files w) !! (getDateString now ++ ".json") = None ->
  (forall k, is_Some (history (files w) !! k) ->
             String.leb (getDateString now ++ ".json") k = false) ->
  exists t w',
    main ROOT now w = (Some t, w') /\ Change.categoryChanges t = [].
Proof.
  intros Hcurrent Hpage Hchanges Hlogged Hkeys Hmissing Hlatest.
  destruct (main_run ROOT now w current page changes Hcurrent Hpage Hchanges)
    as (t & w' & Hmain & _ & _ & dir & _ & Hfresh & Hdiff).
  exists t, w'. split; [exact Hmain |].
  specialize (Hfresh Hmissing).
  destruct (Hdiff Hlogged) as (k & s & Hk & Hs & ->).
  assert (Hname : last (sort (readdirSync dir))
                  = Some (getDateString now ++ ".json")).
  { apply last_sort_greatest.
    - apply readdirSync_NoDup.
    - apply readdirSync_lookup. rewrite Hfresh, lookup_insert_eq. eauto.
    - intros y Hy Hne. apply Hlatest.
      apply (proj1 (readdirSync_lookup _ _)) in Hy.
      rewrite Hfresh, lookup_insert_ne in Hy by congruence. exact Hy. }
  rewrite Hname in Hk. injection Hk as <-.
  rewrite Hfresh, lookup_insert_eq in Hs. injection Hs as <-.
  now apply fresh_snapshot_has_no_changes.
Qed.

End DiffBaseline.

(** ** The change-log template *)

(** C1: on 20 February 2026, with January archived (elections 5) and the
    elections score now at 7, [main] writes the February snapshot and then
    diffs the current scores against that new file, the last of the
    directory: the template reports no category change, where the diff
    against the January snapshot has the entry for elections from 5 to 7. *)
Theorem archive_run_misses_score_change :
  Archive.history (Archive.files Sample.februaryWorld)
  = <["2026-01-20.json" := Sample.januarySnapshot]> ∅
  /\ JS.get (Snapshot.scores Sample.januarySnapshot) "elections" = Some 5%Q
  /\ Spec.storedScore Sample.february "elections" = Some 7%Q
  /\ option_map Change.categoryChanges
       (fst (Archive.main Sample.ROOT Sample.february2026 Sample.februaryWorld))
     = Some []
  /\ Archive.detectChanges Sample.januarySnapshot (scores Sample.february)
     = [ Change.mkCategory "elections" (Some 5%Q) 7%Q
           "UPDATE: Explain why elections changed from 5 to 7" ]
  /\ last (Archive.sort
             (Archive.readdirSync
                (Archive.history
                   (Archive.files
                      (snd (Archive.main Sample.ROOT Sample.february2026
                              Sample.februaryWorld))))))
     = Some "2026-02-20.json".
Proof.
  repeat split; vm_compute; reflexivity.
Qed.

(** C2, as stated, fails: in a repository never archived before (no
    snapshot, empty change log) the template's [overallChange] is the
    number 0, not [null]. *)
Lemma first_archive_overallChange_not_null :
  Archive.history (Archive.files Sample.firstWorld) = ∅
  /\ Archive.changes_json (Archive.files Sample.firstWorld) = Some []
  /\ exists t,
       fst (Archive.main Sample.ROOT Sample.february2026 Sample.firstWorld)
       = Some t
       /\ Change.overallChange t <> None.
Proof.
  split; [reflexivity |]. split; [reflexivity |].
  eexists. split; [vm_compute; reflexivity | discriminate].
Qed.

(** C2, amended: when the change log is empty, as in the first-ever
    archive, a run of [main] with its files in place returns a template
    whose [overallChange] is the number 0 and whose [categoryChanges] is
    empty. *)
Theorem first_archive_template (ROOT : string) (now : Archive.Clock)
  (w : Archive.World) (current : CurrentAssessment) (page : string) :
  Archive.current_json (Archive.files w) = Some current ->
  Archive.history_page (Archive.files w) = Some page ->
  Archive.changes_json (Archive.files w) = Some [] ->
  exists t w' q,
    Archive.main ROOT now w = (Some t, w')
    /\ Change.overallChange t = Some q
    /\ (q == 0)%Q
    /\ Change.categoryChanges t = [].
Proof.
  intros Hcurrent Hpage Hchanges.
  destruct (main_run ROOT now w current page [] Hcurrent Hpage Hchanges)
    as (t & w' & Hmain & Hchange & Hempty & _).
  exists t, w'. eexists.
  split; [exact Hmain |]. split; [exact Hchange |].
  split; [| now apply Hempty].
  simpl.
  assert (Hzero : ((overallScore current - overallScore current) * 10
                   == inject_Z 0)%Q) by (change (inject_Z 0) with 0%Q; ring).
  rewrite Hzero, Math_round_integer. reflexivity.
Qed.

Lemma first_archive_template_witness :
  exists t w' q,
    Archive.main Sample.ROOT Sample.february2026 Sample.firstWorld = (Some t, w')
    /\ Change.overallChange t = Some q
    /\ (q == 0)%Q
    /\ Change.categoryChanges t = [].
Proof.
  apply (first_archive_template Sample.ROOT Sample.february2026
           Sample.firstWorld Sample.february Sample.page);
    reflexivity.
Defined.

(** C3, as stated, fails: with December (overall 4.9) the last entry of the
    change log and January (overall 5.9) the last archived snapshot, the
    current overall 6.1 gives [overallChange] 1.2, the distance to the
    change log's entry, and not 0.2, the distance to the snapshot. *)
Lemma overall_change_ignores_last_snapshot :
  last (Archive.sort
          (Archive.readdirSync
             (Archive.history (Archive.files Sample.laggingWorld))))
  = Some "2026-01-20.json"
  /\ Archive.history (Archive.files Sample.laggingWorld) !! "2026-01-20.json"
     = Some Sample.januarySnapshot
  /\ (Spec.roundTo 1
        (overallScore Sample.february
         - Snapshot.overallScore Sample.januarySnapshot) == 2 # 10)%Q
  /\ exists t q,
       fst (Archive.main Sample.ROOT Sample.february2026 Sample.laggingWorld)
       = Some t
       /\ Change.overallChange t = Some q
       /\ (q == 12 # 10)%Q
       /\ ~ (q == Spec.roundTo 1
                    (overallScore Sample.february
                     - Snapshot.overallScore Sample.januarySnapshot))%Q.
Proof.
  split; [vm_compute; reflexivity |].
  split; [vm_compute; reflexivity |].
  split; [vm_compute; reflexivity |].
  eexists. eexists.
  split; [vm_compute; reflexivity |].
  split; [reflexivity |].
  split; [vm_compute; reflexivity |].
  vm_compute. discriminate.
Qed.

(** C3, amended: when the change log is not empty and the two overall
    scores are numbers with one decimal from 1 to 10, as
    [calculateOverallScore] makes them, a run of [main] with its files in
    place returns a template whose [overallChange] is the current overall
    score minus the overall score of the last entry of the change log,
    rounded to one decimal place: the rounding leaves that difference as it
    is. *)
Theorem overall_change_from_change_log (ROOT : string) (now : Archive.Clock)
  (w : Archive.World) (current : CurrentAssessment) (page : string)
  (changes : list Change.t) (prev : Change.t) :
  Archive.current_json (Archive.files w) = Some current ->
  Archive.history_page (Archive.files w) = Some page ->
  Archive.changes_json (Archive.files w) = Some (changes ++ [prev])%list ->
  Spec.oneDecimalScore (overallScore current) ->
  Spec.oneDecimalScore (Change.overallScore prev) ->
  exists t w' q,
    Archive.main ROOT now w = (Some t, w')
    /\ Change.overallChange t = Some q
    /\ (q == Spec.roundTo 1 (overallScore current - Change.overallScore prev))%Q
    /\ Spec.isRounding 1 (overallScore current - Change.overallScore prev) q
    /\ (q == overallScore current - Change.overallScore prev)%Q.
Proof.
  intros Hcurrent Hpage Hchanges (kc & Hkc & _) (kp & Hkp & _).
  destruct (main_run ROOT now w current page _ Hcurrent Hpage Hchanges)
    as (t & w' & Hmain & Hchange & _ & _).
  rewrite last_snoc in Hchange.
  exists t, w'. eexists.
  split; [exact Hmain |]. split; [exact Hchange |].
  assert (Hround :
    (inject_Z (JS.Math_round
                 ((overallScore current - Change.overallScore prev) * 10)) / 10
     == Spec.roundTo 1 (overallScore current - Change.overallScore prev))%Q)
    by reflexivity.
  split; [exact Hround |].
  split.
  - eapply isRounding_proper;
      [reflexivity | symmetry; exact Hround | apply roundTo_isRounding].
  - assert (Hscaled :
      ((overallScore current - Change.overallScore prev) * 10
       == inject_Z (kc - kp))%Q).
    { rewrite Hkc, Hkp. unfold Z.sub.
      rewrite inject_Z_plus, inject_Z_opp. field. }
    rewrite (Math_round_proper _ _ Hscaled), Math_round_integer.
    rewrite Hkc, Hkp. unfold Z.sub.
    rewrite inject_Z_plus, inject_Z_opp. field.
Qed.

Lemma overall_change_from_change_log_witness :
  exists t w' q,
    Archive.main Sample.ROOT Sample.february2026 Sample.laggingWorld
    = (Some t, w')
    /\ Change.overallChange t = Some q
    /\ (q == Spec.roundTo 1 (overallScore Sample.february - (49 # 10)))%Q
    /\ Spec.isRounding 1 (overallScore Sample.february - (49 # 10)) q
    /\ (q == overallScore Sample.february - (49 # 10))%Q.
Proof.
  apply (overall_change_from_change_log Sample.ROOT Sample.february2026
           Sample.laggingWorld Sample.february Sample.page []
           (Sample.changeEntry "December 2025" "2025-12-20" (49 # 10)%Q None));
    [reflexivity | reflexivity | reflexivity
    | exists 61%Z; split; [reflexivity | lia]
    | exists 49%Z; split; [reflexivity | lia]].
Defined.

(** ** Further properties of the score model *)

Section ScoreModelMore.

Variable scores : JS.JSObject CategoryScore.

Lemma sumScores_fold_None (cats : list string) :
  fold_left
    (fun acc cat =>
       match acc, JS.get scores cat with
       | Some a, Some c => Some (a + score c)%Q
       | _, _ => None
       end)
    cats None = None.
Proof. induction cats as [| cat cats IH]; [reflexivity | exact IH]. Qed.

(** The [reduce] throws exactly when one of its categories has no entry. *)
Lemma sumScores_None (cats : list string) :
  sumScores scores cats = None
  <-> exists cat, In cat cats /\ JS.get scores cat = None.
Proof.
  unfold sumScores. generalize 0%Q as a.
  induction cats as [| cat cats IH]; intros a.
  - simpl. split; [discriminate | intros [cat [[] _]]].
  - simpl. destruct (JS.get scores cat) as [c |] eqn:Hc.
    + rewrite IH. split.
      * intros [cat' [Hin Hnone]]. exists cat'. split; [now right | exact Hnone].
      * intros [cat' [[<- | Hin] Hnone]]; [congruence |].
        exists cat'. now split.
    + rewrite sumScores_fold_None. split; [| reflexivity].
      intros _. exists cat. split; [now left | exact Hc].
Qed.

End ScoreModelMore.

(** X1: the two aggregate calculations throw (a TypeError on the missing
    entry) exactly when one of the ten categories has no entry in the
    scores mapping; entries under other keys are ignored. *)
Theorem aggregates_fail_iff_category_missing
  (scores : JS.JSObject CategoryScore) :
  (calculateOverallScore scores = None
   <-> exists cat, In cat CATEGORIES /\ JS.get scores cat = None)
  /\ (calculateDomainScores scores = None
      <-> exists cat, In cat CATEGORIES /\ JS.get scores cat = None).
Proof.
  split.
  - unfold calculateOverallScore.
    destruct (sumScores scores CATEGORIES) as [s |] eqn:Hs.
    + split; [discriminate |].
      intros Hmissing. apply sumScores_None in Hmissing. congruence.
    + split; [| reflexivity]. intros _. now apply sumScores_None.
  - unfold calculateDomainScores, DOMAINS. cbn [domainScoresLoop].
    set (d1 := ["elections"; "rule-of-law"; "national-security"]).
    set (d2 := ["regulatory-stability"; "trade-policy"; "government-contracts";
                "fiscal-policy"]).
    set (d3 := ["media-freedom"; "civil-discourse"; "institutional-integrity"]).
    assert (Hcats : forall cat,
              In cat CATEGORIES <-> In cat d1 \/ In cat d2 \/ In cat d3).
    { intros cat. change CATEGORIES with (d1 ++ d2 ++ d3)%list.
      rewrite !in_app_iff. reflexivity. }
    pose proof (sumScores_None scores d1) as H1.
    pose proof (sumScores_None scores d2) as H2.
    pose proof (sumScores_None scores d3) as H3.
    destruct (sumScores scores d1) as [s1 |].
    2: { split; [| reflexivity]. intros _.
         destruct (proj1 H1 eq_refl) as [cat [Hin Hnone]].
         exists cat. split; [apply Hcats; now left | exact Hnone]. }
    destruct (sumScores scores d2) as [s2 |].
    2: { split; [| reflexivity]. intros _.
         destruct (proj1 H2 eq_refl) as [cat [Hin Hnone]].
         exists cat. split; [apply Hcats; right; now left | exact Hnone]. }
    destruct (sumScores scores d3) as [s3 |].
    2: { split; [| reflexivity]. intros _.
         destruct (proj1 H3 eq_refl) as [cat [Hin Hnone]].
         exists cat. split; [apply Hcats; right; now right | exact Hnone]. }
    split; [discriminate |].
    intros [cat [Hin Hnone]]. apply Hcats in Hin.
    destruct Hin as [Hin | [Hin | Hin]].
    + assert (Hf : exists cat, In cat d1 /\ JS.get scores cat = None)
        by now exists cat.
      apply H1 in Hf. discriminate.
    + assert (Hf : exists cat, In cat d2 /\ JS.get scores cat = None)
        by now exists cat.
      apply H2 in Hf. discriminate.
    + assert (Hf : exists cat, In cat d3 /\ JS.get scores cat = None)
        by now exists cat.
      apply H3 in Hf. discriminate.
Qed.

(** X2: the risk level never goes down when the score goes up, over all
    numbers: the function checks no range, so a score below 1 is Low and
    one above 10 is Severe. *)
Theorem risk_level_monotone (s s' : Q) :
  (s <= s')%Q ->
  (Inv.rank (getRiskLevel s) <= Inv.rank (getRiskLevel s'))%nat
  /\ ((s < 1)%Q -> getRiskLevel s = Low)
  /\ ((10 < s')%Q -> getRiskLevel s' = Severe).
Proof.
  intros Hle. unfold getRiskLevel.
  destruct (JS.lt s 3) eqn:H3;
    [apply lt_spec in H3 | apply lt_false in H3];
    (destruct (JS.lt s 5) eqn:H5;
     [apply lt_spec in H5 | apply lt_false in H5]);
    (destruct (JS.lt s 7) eqn:H7;
     [apply lt_spec in H7 | apply lt_false in H7]);
    (destruct (JS.lt s 9) eqn:H9;
     [apply lt_spec in H9 | apply lt_false in H9]);
    (destruct (JS.lt s' 3) eqn:H3';
     [apply lt_spec in H3' | apply lt_false in H3']);
    (destruct (JS.lt s' 5) eqn:H5';
     [apply lt_spec in H5' | apply lt_false in H5']);
    (destruct (JS.lt s' 7) eqn:H7';
     [apply lt_spec in H7' | apply lt_false in H7']);
    (destruct (JS.lt s' 9) eqn:H9';
     [apply lt_spec in H9' | apply lt_false in H9']);
    simpl;
    (split; [first [lia | exfalso; lra] |]);
    (split; intros Hout; first [reflexivity | exfalso; lra]).
Qed.

Lemma risk_level_monotone_witness :
  (Inv.rank (getRiskLevel (1 # 2)) <= Inv.rank (getRiskLevel 12))%nat
  /\ (((1 # 2) < 1)%Q -> getRiskLevel (1 # 2) = Low)
  /\ ((10 < 12)%Q -> getRiskLevel 12 = Severe).
Proof.
  apply (risk_level_monotone (1 # 2) 12).
  unfold Qle. simpl. lia.
Defined.

(** ** Category selection *)

Section Selection.

Import Weekly.

Lemma setAdd_In (selected : list string) (x y : string) :
  In y (setAdd selected x) <-> In y selected \/ y = x.
Proof.
  unfold setAdd. destruct (existsb (String.eqb x) selected) eqn:Hex.
  - apply existsb_exists in Hex as [z [Hz Heq]].
    apply String.eqb_eq in Heq. subst z.
    split; [now left | intros [Hin | ->]; assumption].
  - rewrite in_app_iff. simpl. intuition.
Qed.

Lemma setAdd_NoDup (selected : list string) (x : string) :
  NoDup selected -> NoDup (setAdd selected x).
Proof.
  intros Hnodup. unfold setAdd.
  destruct (existsb (String.eqb x) selected) eqn:Hex; [exact Hnodup |].
  apply NoDup_app. split; [exact Hnodup |]. split.
  - intros y Hy Hx. apply list_elem_of_In in Hx as [Heq | []]. subst y.
    apply list_elem_of_In in Hy.
    assert (Htrue : existsb (String.eqb x) selected = true).
    { apply existsb_exists. exists x. split; [exact Hy | apply String.eqb_refl]. }
    congruence.
  - apply NoDup_singleton.
Qed.

Lemma addAll_In (cats selected : list string) (y : string) :
  In y (fold_left setAdd cats selected) <-> In y selected \/ In y cats.
Proof.
  revert selected. induction cats as [| c cats IH]; intros selected; simpl.
  - intuition.
  - rewrite IH, setAdd_In. intuition.
Qed.

Lemma addAll_NoDup (cats selected : list string) :
  NoDup selected -> NoDup (fold_left setAdd cats selected).
Proof.
  revert selected. induction cats as [| c cats IH]; intros selected Hnodup;
    [exact Hnodup |].
  simpl. apply IH, setAdd_NoDup, Hnodup.
Qed.

Lemma selectLoop_selection (inputs : list string) :
  forall selected sel rest,
    NoDup selected ->
    incl selected CATEGORIES ->
    selectLoop selected inputs = (Ret sel, rest) ->
    NoDup sel /\ incl sel CATEGORIES /\ incl selected sel.
Proof.
  induction inputs as [| input inputs IH]; intros selected sel rest Hnodup Hincl;
    [discriminate |].
  cbn [selectLoop].
  destruct (String.eqb (JSString.toLowerCase input) "q").
  { intros [= <- <-]. split; [exact Hnodup |]. split; [exact Hincl |].
    apply incl_refl. }
  destruct (JSString.parseInt input) as [num |]; [| now apply IH].
  destruct (num =? 0)%Z.
  { intros [= <- <-]. split; [exact (addAll_NoDup CATEGORIES selected Hnodup) |].
    split.
    - intros y Hy.
      apply (proj1 (addAll_In CATEGORIES selected y)) in Hy as [Hy | Hy];
        [now apply Hincl | exact Hy].
    - intros y Hy. apply (proj2 (addAll_In CATEGORIES selected y)). now left. }
  destruct ((1 <=? num)%Z && (num <=? Z.of_nat (length CATEGORIES))%Z) eqn:Hrange;
    [| now apply IH].
  intros Hrun.
  apply andb_true_iff in Hrange as [Hlo Hhi].
  apply Z.leb_le in Hlo, Hhi.
  assert (Hnth : In (nth (Z.to_nat (num - 1)) CATEGORIES "") CATEGORIES).
  { apply nth_In. lia. }
  apply IH in Hrun.
  - destruct Hrun as (Hnd & Hsub & Hsup).
    split; [exact Hnd |]. split; [exact Hsub |].
    intros y Hy. apply Hsup, setAdd_In. now left.
  - now apply setAdd_NoDup.
  - intros y Hy. apply setAdd_In in Hy as [Hy | ->]; [now apply Hincl | exact Hnth].
Qed.

Lemma lower_q_not_numeric (input : string) :
  JSString.toLowerCase input = "q" -> JSString.parseInt input = None.
Proof.
  destruct input as [| c [| c' r]]; try discriminate.
  simpl. intros [= Hc].
  destruct c as [[] [] [] [] [] [] [] []]; try discriminate Hc; reflexivity.
Qed.

End Selection.

(** X3: whatever the operator types, the categories [selectCategories]
    returns are categories of the fixed list, none of them twice, and the
    session's assessment and file are untouched by the selection. *)
Theorem selection_is_a_set_of_categories (s s' : Weekly.Session)
  (sel : list string) :
  Weekly.selectCategories s = (Weekly.Ret sel, s') ->
  NoDup sel
  /\ incl sel CATEGORIES
  /\ Weekly.current s' = Weekly.current s
  /\ Weekly.current_json s' = Weekly.current_json s.
Proof.
  unfold Weekly.selectCategories, Weekly.reading.
  destruct (Weekly.selectLoop [] (Weekly.answers s)) as [r rest] eqn:Hloop.
  intros [= -> <-].
  destruct (selectLoop_selection _ _ _ _ (NoDup_nil_2) (incl_nil_l _) Hloop)
    as (Hnodup & Hincl & _).
  repeat split; assumption.
Qed.

Lemma selection_is_a_set_of_categories_witness :
  NoDup ["national-security"; "elections"]
  /\ incl ["national-security"; "elections"] CATEGORIES
  /\ Weekly.current
       (Weekly.mkSession ["rest"] Sample.january None)
     = Weekly.current
         (Weekly.mkSession ["3"; "1"; "3"; "11"; "x"; "Q"; "rest"]
            Sample.january None)
  /\ Weekly.current_json
       (Weekly.mkSession ["rest"] Sample.january None)
     = Weekly.current_json
         (Weekly.mkSession ["3"; "1"; "3"; "11"; "x"; "Q"; "rest"]
            Sample.january None).
Proof.
  apply (selection_is_a_set_of_categories
           (Weekly.mkSession ["3"; "1"; "3"; "11"; "x"; "Q"; "rest"]
              Sample.january None)
           (Weekly.mkSession ["rest"] Sample.january None)
           ["national-security"; "elections"]).
  reflexivity.
Defined.

(** X4: an answer that parses to 0 ends the selection at once with all ten
    categories selected, each once, whatever was selected before; from an
    empty selection the result is the fixed list in its order. *)
Theorem select_all_selects_every_category (selected : list string)
  (input : string) (rest : list string) :
  JSString.parseInt input = Some 0%Z ->
  NoDup selected ->
  exists sel,
    Weekly.selectLoop selected (input :: rest) = (Weekly.Ret sel, rest)
    /\ NoDup sel
    /\ (forall cat, In cat CATEGORIES -> In cat sel)
    /\ (selected = [] -> sel = CATEGORIES).
Proof.
  intros Hzero Hnodup. cbn [Weekly.selectLoop].
  destruct (String.eqb_spec (JSString.toLowerCase input) "q") as [Hq | _].
  { apply lower_q_not_numeric in Hq. congruence. }
  rewrite Hzero. cbn [Z.eqb]. eexists. split; [reflexivity |].
  split; [exact (addAll_NoDup CATEGORIES selected Hnodup) |]. split.
  - intros cat Hcat. apply (proj2 (addAll_In CATEGORIES selected cat)).
    now right.
  - intros ->. reflexivity.
Qed.

Lemma select_all_selects_every_category_witness :
  exists sel,
    Weekly.selectLoop ["trade-policy"] (" 0 all" :: ["next"])
    = (Weekly.Ret sel, ["next"])
    /\ NoDup sel
    /\ (forall cat, In cat CATEGORIES -> In cat sel)
    /\ (["trade-policy"] = [] -> sel = CATEGORIES).
Proof.
  apply (select_all_selects_every_category ["trade-policy"] " 0 all" ["next"]).
  - reflexivity.
  - apply NoDup_singleton.
Defined.

(** ** What a category edit changes *)

Section EditFrame.

Import Weekly.

Lemma keys_set_present {V : Type} (o : JS.JSObject V) (k : string) (v0 v : V) :
  JS.get o k = Some v0 -> JS.keys (JS.set o k v) = JS.keys o.
Proof.
  induction o as [| [k' v'] r IH]; simpl; [discriminate |].
  destruct (String.eqb k' k); simpl; [reflexivity |].
  intros Hget. f_equal. now apply IH.
Qed.

Variable P : CurrentAssessment -> Prop.

Lemma pres_ret {A : Type} (a : A) : Inv.preserves P (ret a).
Proof. intros s H. exact H. Qed.

Lemma pres_throw {A : Type} : Inv.preserves P (@throw A).
Proof. intros s H. exact H. Qed.

Lemma pres_question : Inv.preserves P question.
Proof. intros s H. unfold question. destruct (answers s); exact H. Qed.

Lemma pres_reading {A : Type} (loop : list string -> result A * list string) :
  Inv.preserves P (reading loop).
Proof. intros s H. unfold reading. destruct (loop (answers s)). exact H. Qed.

Lemma pres_getCategory (categoryId : string) :
  Inv.preserves P (getCategory categoryId).
Proof.
  intros s H. unfold getCategory.
  destruct (JS.get (scores (current s)) categoryId); exact H.
Qed.

Lemma pres_getCurrent : Inv.preserves P getCurrent.
Proof. intros s H. exact H. Qed.

Lemma pres_bind {A B : Type} (m : IO A) (f : A -> IO B) :
  Inv.preserves P m ->
  (forall a, Inv.preserves P (f a)) ->
  Inv.preserves P (bind m f).
Proof.
  intros Hm Hf s H. unfold bind.
  specialize (Hm s H).
  destruct (m s) as [[a | |] s']; simpl in Hm; simpl; try exact Hm.
  now apply Hf.
Qed.

(** The steps of [updateCategory] keep a property as soon as the writes to
    the category do. *)
Lemma pres_updateCategory (today categoryId : string) :
  (forall f, Inv.preserves P (modifyCategory categoryId f)) ->
  Inv.preserves P (updateCategory today categoryId).
Proof.
  intros Hmodify.
  unfold updateCategory, updateScore, updateTrend.
  repeat first
    [ apply pres_ret | apply pres_throw | apply pres_question
    | apply pres_reading | apply pres_getCategory | apply Hmodify
    | apply pres_bind; [| intros]
    | match goal with
      | |- Inv.preserves _ (if ?b then _ else _) => destruct b
      | |- Inv.preserves _ (match ?x with _ => _ end) => destruct x
      end ].
Qed.

End EditFrame.

Section EditFrameMore.

Import Weekly.

Lemma sameExcept_modify (categoryId : string) (c0 : CurrentAssessment)
  (f : CategoryScore -> CategoryScore) :
  Inv.preserves (Inv.sameExcept categoryId c0) (modifyCategory categoryId f).
Proof.
  intros s (Hother & Hkeys & Hdate & Hperiod & Hdomain & Hoverall & Hlevel).
  unfold modifyCategory.
  destruct (JS.get (scores (current s)) categoryId) as [cat |] eqn:Hget; simpl.
  - repeat split; try assumption; cbn [scores].
    + intros other Hne. rewrite get_set_other by congruence. now apply Hother.
    + now rewrite (keys_set_present _ _ cat).
  - repeat split; assumption.
Qed.

Lemma weekly_bind_ret {A B : Type} (m : IO A) (f : A -> IO B)
  (s s' : Session) (a : A) :
  m s = (Ret a, s') -> bind m f s = f a s'.
Proof. intros H. unfold bind. now rewrite H. Qed.

Lemma ens_bind (Q : Session -> Prop) {A B : Type} (m : IO A) (f : A -> IO B) :
  (forall a, Inv.ensures Q (f a)) -> Inv.ensures Q (bind m f).
Proof.
  intros Hf s b s'. unfold bind.
  destruct (m s) as [[a | |] s1]; try discriminate.
  apply Hf.
Qed.

Lemma ens_throw (Q : Session -> Prop) {A : Type} : Inv.ensures Q (@throw A).
Proof. intros s a s'. discriminate. Qed.

Lemma ens_stamp (today categoryId : string) :
  Inv.ensures
    (fun s' => exists cat, JS.get (scores (current s')) categoryId = Some cat
                           /\ lastUpdated cat = today)
    (modifyCategory categoryId (setLastUpdated today)).
Proof.
  intros s a s'. unfold modifyCategory.
  destruct (JS.get (scores (current s)) categoryId) as [cat |]; [| discriminate].
  intros [= _ <-]. simpl. rewrite get_set_same. eauto.
Qed.

End EditFrameMore.

(** X5: an edit of one category, however it ends, leaves every other
    category's entry, the order of the categories and the aggregate fields
    of the assessment in memory as they were. *)
Theorem edit_touches_one_category (today categoryId : string)
  (s : Weekly.Session) :
  Inv.sameExcept categoryId (Weekly.current s)
    (Weekly.current (snd (Weekly.updateCategory today categoryId s))).
Proof.
  apply (pres_updateCategory (Inv.sameExcept categoryId (Weekly.current s))).
  - intros f. apply sameExcept_modify.
  - repeat split.
Qed.

(** X6: an edit that runs to its end stamps the category with the date of
    the day, whether or not any answer changed a field. *)
Theorem completed_edit_stamps_date (today categoryId : string)
  (s s' : Weekly.Session) :
  Weekly.updateCategory today categoryId s = (Weekly.Ret tt, s') ->
  exists cat,
    JS.get (scores (Weekly.current s')) categoryId = Some cat
    /\ lastUpdated cat = today.
Proof.
  assert (Hens : Inv.ensures
            (fun s' => exists cat,
                 JS.get (scores (Weekly.current s')) categoryId = Some cat
                 /\ lastUpdated cat = today)
            (Weekly.updateCategory today categoryId)).
  { unfold Weekly.updateCategory.
    repeat first
      [ apply ens_stamp | apply ens_throw
      | apply ens_bind; intros
      | match goal with
        | |- Inv.ensures _ (match ?x with _ => _ end) => destruct x
        end ]. }
  intros Hrun. exact (Hens s tt s' Hrun).
Qed.

Lemma completed_edit_stamps_date_witness :
  exists cat,
    JS.get
      (scores
         (Weekly.current
            (snd (Weekly.updateCategory "2026-02-18" "elections"
                    (Weekly.mkSession [""; ""; ""; ""] Sample.january None)))))
      "elections" = Some cat
    /\ lastUpdated cat = "2026-02-18".
Proof.
  apply (completed_edit_stamps_date "2026-02-18" "elections"
           (Weekly.mkSession [""; ""; ""; ""] Sample.january None)).
  reflexivity.
Defined.

(** X7: when the operator keeps every default of an edit (empty score and
    trend, anything but y to the two update prompts), the category keeps its
    score, trend, findings and sources; only [lastUpdated] changes, and
    exactly four answers are consumed. *)
Theorem default_answers_keep_category (today categoryId : string)
  (findingsAnswer sourcesAnswer : string) (rest : list string)
  (cur : CurrentAssessment) (file : option CurrentAssessment)
  (cat : CategoryScore) (links : list string) :
  JS.get (scores cur) categoryId = Some cat ->
  sources cat = Some links ->
  JSString.toLowerCase findingsAnswer <> "y" ->
  JSString.toLowerCase sourcesAnswer <> "y" ->
  Weekly.updateCategory today categoryId
    (Weekly.mkSession ("" :: "" :: findingsAnswer :: sourcesAnswer :: rest)
       cur file)
  = (Weekly.Ret tt,
     Weekly.mkSession rest
       (mkCurrentAssessment (assessmentDate cur) (assessmentPeriod cur)
          (JS.set (scores cur) categoryId
             (mkCategoryScore (score cat) (trend cat) (keyFindings cat)
                (sources cat) today))
          (domainScores cur) (overallScore cur) (riskLevel cur))
       file).
Proof.
  intros Hget Hsources Hfindings Hanswer.
  apply String.eqb_neq in Hfindings, Hanswer.
  assert (Hcat : forall inputs,
            Weekly.getCategory categoryId (Weekly.mkSession inputs cur file)
            = (Weekly.Ret cat, Weekly.mkSession inputs cur file)).
  { intros inputs. unfold Weekly.getCategory. cbn [Weekly.current].
    now rewrite Hget. }
  unfold Weekly.updateCategory.
  erewrite weekly_bind_ret by apply Hcat.
  erewrite weekly_bind_ret by reflexivity.
  erewrite weekly_bind_ret by reflexivity.
  erewrite weekly_bind_ret by reflexivity.
  erewrite weekly_bind_ret by reflexivity.
  erewrite weekly_bind_ret by reflexivity.
  rewrite Hfindings.
  erewrite weekly_bind_ret by reflexivity.
  erewrite weekly_bind_ret by apply Hcat.
  rewrite Hsources.
  erewrite weekly_bind_ret by reflexivity.
  rewrite Hanswer.
  erewrite weekly_bind_ret by reflexivity.
  unfold Weekly.modifyCategory, Weekly.setLastUpdated.
  cbn [Weekly.current]. rewrite Hget, Hsources.
  reflexivity.
Qed.

Lemma default_answers_keep_category_witness :
  Weekly.updateCategory "2026-02-18" "elections"
    (Weekly.mkSession ("" :: "" :: "" :: "N" :: ["next"]) Sample.january None)
  = (Weekly.Ret tt,
     Weekly.mkSession ["next"]
       (mkCurrentAssessment (assessmentDate Sample.january)
          (assessmentPeriod Sample.january)
          (JS.set (scores Sample.january) "elections"
             (mkCategoryScore (score (Sample.category 5))
                (trend (Sample.category 5)) (keyFindings (Sample.category 5))
                (sources (Sample.category 5)) "2026-02-18"))
          (domainScores Sample.january) (overallScore Sample.january)
          (riskLevel Sample.january))
       None).
Proof.
  apply (default_answers_keep_category "2026-02-18" "elections" "" "N"
           ["next"] Sample.january None (Sample.category 5)
           ["https://example.org/report"]);
    first [reflexivity | discriminate].
Defined.

(** ** Trend and findings answers *)

(** X8: a trend answer is read by its first letter, whatever its case and
    whatever follows: an answer starting with i, s or d stores increasing,
    stable or decreasing for the category. *)
Theorem trend_first_letter (categoryId trendInput letter : string)
  (t : Trend) (s : Weekly.Session) (cat : CategoryScore) :
  JS.get (scores (Weekly.current s)) categoryId = Some cat ->
  In (letter, t) [("i", increasing); ("s", stable); ("d", decreasing)] ->
  JSString.first (JSString.toLowerCase trendInput) = Some letter ->
  fst (Weekly.updateTrend categoryId trendInput s) = Weekly.Ret tt
  /\ JS.get
       (scores (Weekly.current (snd (Weekly.updateTrend categoryId trendInput s))))
       categoryId
     = Some (Weekly.setTrend t cat).
Proof.
  intros Hget Hletter Hfirst.
  destruct trendInput as [| c r]; [discriminate |].
  cbn [JSString.toLowerCase JSString.first] in Hfirst.
  injection Hfirst as Hfirst.
  unfold Weekly.updateTrend.
  cbn [JSString.truthy JSString.toLowerCase JSString.first].
  assert (Hfound :
    match Weekly.trendMap
            (String (JSString.lowerChar c) (JSString.toLowerCase r)) with
    | Some t' => Some t'
    | None => Weekly.trendMap (String (JSString.lowerChar c) EmptyString)
    end = Some t).
  { rewrite Hfirst.
    destruct Hletter as [[= <- <-] | [[= <- <-] | [[= <- <-] | []]]];
      injection Hfirst as ->;
      destruct (JSString.toLowerCase r); reflexivity. }
  rewrite Hfound.
  unfold Weekly.modifyCategory. rewrite Hget. cbn [fst snd Weekly.current scores].
  split; [reflexivity | apply get_set_same].
Qed.

Lemma trend_first_letter_witness :
  fst (Weekly.updateTrend "elections" "Decreasing sharply"
         (Weekly.mkSession [] Sample.january None)) = Weekly.Ret tt
  /\ JS.get
       (scores
          (Weekly.current
             (snd (Weekly.updateTrend "elections" "Decreasing sharply"
                     (Weekly.mkSession [] Sample.january None)))))
       "elections"
     = Some (Weekly.setTrend decreasing (Sample.category 5)).
Proof.
  apply (trend_first_letter "elections" "Decreasing sharply" "d" decreasing
           (Weekly.mkSession [] Sample.january None) (Sample.category 5)).
  - reflexivity.
  - right. right. left. reflexivity.
  - reflexivity.
Defined.

(** X9: the findings and sources loops return the lines typed before the
    first blank line, each trimmed and in order, and leave the answers after
    the blank line unread; without a blank line they wait for more input. *)
Theorem lines_up_to_first_blank (acc lines : list string) (blank : string)
  (rest : list string) :
  Forall (fun line => JSString.trim line <> EmptyString) lines ->
  JSString.trim blank = EmptyString ->
  Weekly.readLines acc (lines ++ blank :: rest)%list
  = (Weekly.Ret (acc ++ map JSString.trim lines)%list, rest)
  /\ Weekly.readLines acc lines = (Weekly.Stall, []).
Proof.
  intros Hlines Hblank. revert acc.
  induction Hlines as [| line lines Hline _ IH]; intros acc.
  - cbn [app Weekly.readLines map]. rewrite Hblank, app_nil_r. split; reflexivity.
  - cbn [app Weekly.readLines map].
    destruct (JSString.trim line) as [| c t] eqn:Htrim; [now elim Hline |].
    cbn [JSString.truthy].
    destruct (IH (acc ++ [String c t])%list) as [Hdone Hstall].
    rewrite Hdone, Hstall, <- app_assoc. split; reflexivity.
Qed.

Lemma lines_up_to_first_blank_witness :
  Weekly.readLines ["kept"] (["  first finding "; "second"] ++ "   " :: ["n"])%list
  = (Weekly.Ret (["kept"] ++ map JSString.trim ["  first finding "; "second"])%list,
     ["n"])
  /\ Weekly.readLines ["kept"] ["  first finding "; "second"]
     = (Weekly.Stall, []).
Proof.
  apply (lines_up_to_first_blank ["kept"] ["  first finding "; "second"] "   "
           ["n"]).
  - repeat constructor; discriminate.
  - reflexivity.
Defined.

(** ** What a saved run writes *)

Section SavedRun.

Import Weekly.

Lemma weekly_bind_inv {A B : Type} (m : IO A) (f : A -> IO B)
  (s s' : Session) (b : B) :
  bind m f s = (Ret b, s') ->
  exists a s1, m s = (Ret a, s1) /\ f a s1 = (Ret b, s').
Proof.
  unfold bind. destruct (m s) as [[a | |] s1]; try discriminate.
  intros H. now exists a, s1.
Qed.

(** The path of [main] that ends with [Saved]. *)
Lemma session_saved_inv (today : string) (s0 s' : Session) :
  session today s0 = (Ret Saved, s') ->
  exists sel s1 s2 s3,
    selectCategories s0 = (Ret sel, s1)
    /\ updateAll today sel s1 = (Ret tt, s2)
    /\ recalculate today s2 = (Ret tt, s3)
    /\ current s' = current s3
    /\ current_json s' = Some (current s3).
Proof.
  unfold session. intros Hrun.
  apply weekly_bind_inv in Hrun as (sel & s1 & Hsel & Hrun).
  destruct (nonEmpty sel); [| discriminate].
  apply weekly_bind_inv in Hrun as ([] & s2 & Hall & Hrun).
  apply weekly_bind_inv in Hrun as ([] & s3 & Hrecalc & Hrun).
  apply weekly_bind_inv in Hrun as (confirm & s4 & Hconfirm & Hrun).
  exists sel, s1, s2, s3.
  split; [exact Hsel |]. split; [exact Hall |]. split; [exact Hrecalc |].
  unfold question in Hconfirm.
  destruct (answers s3) as [| a rest]; [discriminate |].
  injection Hconfirm as <- <-.
  destruct (negb (String.eqb (JSString.toLowerCase a) "n")); [| discriminate].
  injection Hrun as <-. split; reflexivity.
Qed.

Lemma recalculate_result (today : string) (s s' : Session) :
  recalculate today s = (Ret tt, s') ->
  Inv.consistent (current s')
  /\ assessmentDate (current s') = today
  /\ scores (current s') = scores (current s)
  /\ assessmentPeriod (current s') = assessmentPeriod (current s).
Proof.
  unfold recalculate, bind, getCurrent, setCurrent, throw. simpl.
  destruct (calculateDomainScores (scores (current s))) as [ds |] eqn:Hds;
    [| discriminate].
  simpl.
  destruct (calculateOverallScore (scores (current s))) as [o |] eqn:Ho;
    [| discriminate].
  intros [= <-]. simpl. repeat split; first [assumption | reflexivity].
Qed.

Lemma pres_updateAll (P : CurrentAssessment -> Prop) (today : string)
  (selected : list string) :
  (forall categoryId, Inv.preserves P (updateCategory today categoryId)) ->
  Inv.preserves P (updateAll today selected).
Proof.
  intros Hedit. induction selected as [| categoryId rest IH]; simpl.
  - apply pres_ret.
  - apply pres_bind; [apply Hedit | intros _; exact IH].
Qed.

(** Writing a category keeps the scores valid when the new score is an
    integer from 1 to 10 as soon as the old one was. *)
Lemma valid_modify (categoryId : string) (f : CategoryScore -> CategoryScore) :
  (forall cat,
      (exists z, (score cat == inject_Z z)%Q /\ (1 <= z <= 10)%Z) ->
      exists z, (score (f cat) == inject_Z z)%Q /\ (1 <= z <= 10)%Z) ->
  Inv.preserves (fun c => Spec.validScores (scores c))
    (modifyCategory categoryId f).
Proof.
  intros Hf s Hvalid. unfold modifyCategory.
  destruct (JS.get (scores (current s)) categoryId) as [cat |] eqn:Hget;
    [| exact Hvalid].
  cbn [snd current scores].
  unfold Spec.validScores in *. rewrite List.Forall_forall in *.
  intros other Hin. destruct (Hvalid other Hin) as (c & z & Hc & Hz & Hrange).
  destruct (String.eqb_spec categoryId other) as [<- | Hne].
  - rewrite get_set_same.
    destruct (Hf cat) as (z' & Hz' & Hrange').
    { exists z. split; [congruence | exact Hrange]. }
    now exists (f cat), z'.
  - rewrite get_set_other by exact Hne. now exists c, z.
Qed.

Lemma valid_updateCategory (today categoryId : string) :
  Inv.preserves (fun c => Spec.validScores (scores c))
    (updateCategory today categoryId).
Proof.
  unfold updateCategory, updateScore, updateTrend.
  repeat first
    [ apply pres_ret | apply pres_throw | apply pres_question
    | apply pres_reading | apply pres_getCategory
    | apply valid_modify; intros cat0 Hgood;
      first [ exact Hgood
            | eexists; split;
              [reflexivity | apply clampScore_nearestBound] ]
    | apply pres_bind; [| intros]
    | match goal with
      | |- Inv.preserves _ (if ?b then _ else _) => destruct b
      | |- Inv.preserves _ (match ?x with _ => _ end) => destruct x
      end ].
Qed.

Lemma keys_updateCategory (keys0 : list string) (today categoryId : string) :
  Inv.preserves (fun c => JS.keys (scores c) = keys0)
    (updateCategory today categoryId).
Proof.
  apply pres_updateCategory. intros f s Hkeys. unfold modifyCategory.
  destruct (JS.get (scores (current s)) categoryId) as [cat |] eqn:Hget;
    [| exact Hkeys].
  cbn [snd current scores]. now rewrite (keys_set_present _ _ cat).
Qed.

Lemma period_updateCategory (period0 : string) (today categoryId : string) :
  Inv.preserves (fun c => assessmentPeriod c = period0)
    (updateCategory today categoryId).
Proof.
  apply pres_updateCategory. intros f s Hperiod. unfold modifyCategory.
  destruct (JS.get (scores (current s)) categoryId); exact Hperiod.
Qed.

End SavedRun.

(** X10: the file a saved run writes has its aggregates in step with its
    scores: the domain scores, the overall score and the risk level are the
    ones the score model computes from the saved scores, and the assessment
    date is the date of the day. *)
Theorem saved_file_is_consistent (today : string) (inputs : list string)
  (file file' : option CurrentAssessment) :
  Weekly.main today inputs file = (Weekly.Saved, file') ->
  exists c',
    file' = Some c'
    /\ Inv.consistent c'
    /\ assessmentDate c' = today.
Proof.
  unfold Weekly.main. destruct file as [c |]; [| discriminate].
  destruct (Weekly.session today (Weekly.mkSession inputs c (Some c)))
    as [[o | |] s'] eqn:Hsession; try discriminate.
  intros [= -> <-].
  apply session_saved_inv in Hsession
    as (sel & s1 & s2 & s3 & _ & _ & Hrecalc & _ & Hfile).
  apply recalculate_result in Hrecalc as (Hconsistent & Hdate & _).
  exists (Weekly.current s3).
  split; [exact Hfile | split; [exact Hconsistent | exact Hdate]].
Qed.

Lemma saved_file_is_consistent_witness :
  exists c',
    snd (Weekly.main "2026-02-18" ["1"; "q"; "7"; ""; "n"; "n"; "y"]
           (Some Sample.january)) = Some c'
    /\ Inv.consistent c'
    /\ assessmentDate c' = "2026-02-18".
Proof.
  apply (saved_file_is_consistent "2026-02-18"
           ["1"; "q"; "7"; ""; "n"; "n"; "y"] (Some Sample.january)).
  vm_compute. reflexivity.
Defined.

(** X11: a saved run started from a file with valid scores (the ten
    categories, each an integer from 1 to 10) writes a file with valid
    scores, the same category keys in the same order and the same
    assessment period, whatever the operator typed. *)
Theorem saved_scores_stay_valid (today : string) (inputs : list string)
  (c c' : CurrentAssessment) :
  Spec.validScores (scores c) ->
  Weekly.main today inputs (Some c) = (Weekly.Saved, Some c') ->
  Spec.validScores (scores c')
  /\ JS.keys (scores c') = JS.keys (scores c)
  /\ assessmentPeriod c' = assessmentPeriod c.
Proof.
  intros Hvalid. unfold Weekly.main.
  destruct (Weekly.session today (Weekly.mkSession inputs c (Some c)))
    as [[o | |] s'] eqn:Hsession; try discriminate.
  intros [= -> Hfile].
  apply session_saved_inv in Hsession
    as (sel & s1 & s2 & s3 & Hsel & Hall & Hrecalc & _ & Hwritten).
  rewrite Hwritten in Hfile. injection Hfile as <-.
  apply recalculate_result in Hrecalc as (_ & _ & Hscores & Hperiod).
  rewrite Hscores, Hperiod.
  assert (Hs1 : Weekly.current s1 = c).
  { unfold Weekly.selectCategories, Weekly.reading in Hsel. simpl in Hsel.
    destruct (Weekly.selectLoop [] inputs). now injection Hsel as _ <-. }
  pose proof (pres_updateAll (fun c0 => Spec.validScores (scores c0)) today sel
                (valid_updateCategory today) s1) as Hkeepvalid.
  pose proof (pres_updateAll (fun c0 => JS.keys (scores c0) = JS.keys (scores c))
                today sel (keys_updateCategory _ today) s1) as Hkeepkeys.
  pose proof (pres_updateAll
                (fun c0 => assessmentPeriod c0 = assessmentPeriod c) today sel
                (period_updateCategory _ today) s1) as Hkeepperiod.
  rewrite Hall in Hkeepvalid, Hkeepkeys, Hkeepperiod. rewrite Hs1 in *.
  repeat split; [now apply Hkeepvalid | now apply Hkeepkeys |
                 now apply Hkeepperiod].
Qed.

Lemma saved_scores_stay_valid_witness :
  Spec.validScores
    (JS.set (scores Sample.january) "elections"
       (mkCategoryScore 10 stable ["Finding of the month"]
          (Some ["https://example.org/report"]) "2026-02-18"))
  /\ JS.keys
       (JS.set (scores Sample.january) "elections"
          (mkCategoryScore 10 stable ["Finding of the month"]
             (Some ["https://example.org/report"]) "2026-02-18"))
     = JS.keys (scores Sample.january)
  /\ "January 2026" = assessmentPeriod Sample.january.
Proof.
  apply (saved_scores_stay_valid "2026-02-18"
           ["1"; "q"; "99"; ""; "n"; "n"; "y"] Sample.january
           (mkCurrentAssessment "2026-02-18" "January 2026"
              (JS.set (scores Sample.january) "elections"
                 (mkCategoryScore 10 stable ["Finding of the month"]
                    (Some ["https://example.org/report"]) "2026-02-18"))
              [ ("rule-of-law", (inject_Z 700 / 100)%Q);
                ("operating-economic", (inject_Z 600 / 100)%Q);
                ("societal-institutional", (inject_Z 633 / 100)%Q) ]
              (inject_Z 64 / 10)%Q Elevated)).
  - apply sample_valid. lia.
  - vm_compute. reflexivity.
Defined.

Lemma unsaved_run_writes_nothing_witness :
  snd (Weekly.main "2026-02-18" ["1"; "q"; "9"] (Some Sample.january))
  = Some Sample.january.
Proof.
  apply (unsaved_run_writes_nothing "2026-02-18" ["1"; "q"; "9"]
           (Some Sample.january)).
  vm_compute. discriminate.
Defined.

(** ** Snapshots *)

Section SnapshotContent.

Import Archive.

Lemma set_absent {V : Type} (o : JS.JSObject V) (k : string) (v : V) :
  ~ In k (JS.keys o) -> JS.set o k v = (o ++ [(k, v)])%list.
Proof.
  induction o as [| [k0 v0] r IH]; simpl; [reflexivity |].
  intros Hnotin. destruct (String.eqb_spec k0 k) as [-> | Hne].
  - elim Hnotin. now left.
  - f_equal. apply IH. intros Hin. apply Hnotin. now right.
Qed.

Lemma snapshot_keys (entries : JS.JSObject CategoryScore) :
  forall acc : JS.JSObject Q,
    NoDup (JS.keys acc ++ JS.keys entries) ->
    JS.keys
      (fold_left (fun acc entry => JS.set acc (fst entry) (score (snd entry)))
         entries acc)
    = (JS.keys acc ++ JS.keys entries)%list.
Proof.
  induction entries as [| [k c] r IH]; intros acc Hnodup; simpl.
  - now rewrite app_nil_r.
  - simpl in Hnodup.
    assert (Hnotin : ~ In k (JS.keys acc)).
    { intros Hin. apply NoDup_app in Hnodup as (_ & Hdisjoint & _).
      apply (Hdisjoint k); [now apply list_elem_of_In | left]. }
    rewrite (set_absent _ _ _ Hnotin).
    rewrite IH.
    + unfold JS.keys. rewrite map_app, <- app_assoc. reflexivity.
    + unfold JS.keys. rewrite map_app, <- app_assoc. exact Hnodup.
Qed.

End SnapshotContent.

(** X13: a snapshot holds, for every key of the current scores, the bare
    score of that category, under the same keys in the same order, and it
    copies the date and the three aggregates; findings, sources, trend and
    update date are not in it. *)
Theorem snapshot_holds_the_scores (current : CurrentAssessment)
  (dateStr : string) :
  NoDup (JS.keys (scores current)) ->
  let snapshot := Archive.createHistorySnapshot current dateStr in
  (forall k, JS.get (Snapshot.scores snapshot) k = Spec.storedScore current k)
  /\ JS.keys (Snapshot.scores snapshot) = JS.keys (scores current)
  /\ Snapshot.date snapshot = dateStr
  /\ Snapshot.domainScores snapshot = domainScores current
  /\ Snapshot.overallScore snapshot = overallScore current
  /\ Snapshot.riskLevel snapshot = riskLevel current.
Proof.
  intros Hnodup snapshot. subst snapshot.
  unfold Archive.createHistorySnapshot. cbn [Snapshot.scores Snapshot.date
    Snapshot.domainScores Snapshot.overallScore Snapshot.riskLevel].
  split; [| split; [| repeat split]].
  - intros k. rewrite (snapshot_scores _ Hnodup). unfold Spec.storedScore.
    destruct (JS.get (scores current) k); reflexivity.
  - now rewrite snapshot_keys.
Qed.

Lemma snapshot_holds_the_scores_witness :
  let snapshot := Archive.createHistorySnapshot Sample.february "2026-02-20" in
  (forall k, JS.get (Snapshot.scores snapshot) k
             = Spec.storedScore Sample.february k)
  /\ JS.keys (Snapshot.scores snapshot) = JS.keys (scores Sample.february)
  /\ Snapshot.date snapshot = "2026-02-20"
  /\ Snapshot.domainScores snapshot = domainScores Sample.february
  /\ Snapshot.overallScore snapshot = overallScore Sample.february
  /\ Snapshot.riskLevel snapshot = riskLevel Sample.february.
Proof.
  apply (snapshot_holds_the_scores Sample.february "2026-02-20").
  apply (bool_decide_unpack _). vm_compute. exact I.
Defined.

(** ** What a run of the archive script writes *)

Section ArchiveWrites.

Import Archive.

Lemma data_ret {A : Type} (a : A) : Inv.keepsData (ret a).
Proof. intros w. split; reflexivity. Qed.

Lemma data_console_log (line : string) : Inv.keepsData (console_log line).
Proof. intros w. split; reflexivity. Qed.

Lemma data_console_log_template (t : Change.t) :
  Inv.keepsData (console_log_template t).
Proof. intros w. split; reflexivity. Qed.

Lemma data_readFile {A : Type} (file : Files -> option A) :
  Inv.keepsData (readFile file).
Proof.
  intros w. unfold readFile, bind, getFiles, ret, throw.
  destruct (file (files w)); split; reflexivity.
Qed.

Lemma data_bind {A B : Type} (m : Script A) (f : A -> Script B) :
  Inv.keepsData m ->
  (forall a, Inv.keepsData (f a)) ->
  Inv.keepsData (bind m f).
Proof.
  intros Hm Hf w. unfold bind.
  specialize (Hm w).
  destruct (m w) as [[a |] w']; simpl in Hm; simpl; [| exact Hm].
  destruct Hm as [<- <-]. apply Hf.
Qed.

Lemma data_updateHistoryPage (dateStr : string) :
  Inv.keepsData (updateHistoryPage dateStr).
Proof.
  intros [[cj dir page ch] out].
  unfold updateHistoryPage, bind, readFile, getFiles, setFiles, ret, throw,
    console_log. simpl.
  destruct page as [content |]; simpl; [| split; reflexivity].
  destruct (includes content (getImportName dateStr)); split; reflexivity.
Qed.

Lemma data_generateChangesTemplate (current : CurrentAssessment)
  (dateStr monthYear : string) :
  Inv.keepsData (generateChangesTemplate current dateStr monthYear).
Proof.
  intros w.
  destruct (arch_generateChangesTemplate current dateStr monthYear w)
    as [_ Hcj].
  split; [exact Hcj |].
  destruct w as [[cj dir page ch] out].
  unfold generateChangesTemplate, getPreviousMonthData, bind, readFile,
    getFiles, ret, throw. simpl.
  destruct ch as [changes |]; simpl; [| reflexivity].
  destruct (last changes); simpl; [| reflexivity].
  destruct (last (sort (readdirSync dir))) as [k |]; [| reflexivity].
  destruct (dir !! k); reflexivity.
Qed.

Lemma data_archiveSnapshot (ROOT : string) (current : CurrentAssessment)
  (dateStr : string) :
  Inv.keepsData (archiveSnapshot ROOT current dateStr).
Proof.
  intros w.
  destruct (archiveSnapshot_run ROOT current dateStr w)
    as (dir & out & Hrun & _).
  rewrite Hrun. split; reflexivity.
Qed.

Lemma snapshots_of_archive {A : Type} (m : Script A) :
  Frame.keepsArchive m -> Inv.keepsSnapshots m.
Proof.
  intros Hm w k snapshot Hsome.
  destruct (Hm w) as [-> _]. exact Hsome.
Qed.

Lemma snapshots_bind {A B : Type} (m : Script A) (f : A -> Script B) :
  Inv.keepsSnapshots m ->
  (forall a, Inv.keepsSnapshots (f a)) ->
  Inv.keepsSnapshots (bind m f).
Proof.
  intros Hm Hf w k snapshot Hsome. unfold bind.
  specialize (Hm w k snapshot Hsome).
  destruct (m w) as [[a |] w']; simpl in Hm; simpl; [| exact Hm].
  now apply Hf.
Qed.

Lemma snapshots_readFile {A : Type} (file : Files -> option A) :
  Inv.keepsSnapshots (readFile file).
Proof.
  intros w k snapshot Hsome. unfold readFile, bind, getFiles, ret, throw.
  destruct (file (files w)); exact Hsome.
Qed.

Lemma snapshots_archiveSnapshot (ROOT : string) (current : CurrentAssessment)
  (dateStr : string) :
  Inv.keepsSnapshots (archiveSnapshot ROOT current dateStr).
Proof.
  intros w k snapshot Hsome.
  destruct (archiveSnapshot_run ROOT current dateStr w)
    as (dir & out & Hrun & _ & Hsame & Hfresh).
  rewrite Hrun. simpl.
  destruct (history (files w) !! (dateStr ++ ".json")) as [existing |] eqn:Hname.
  - now rewrite (Hsame existing eq_refl).
  - rewrite (Hfresh eq_refl).
    rewrite lookup_insert_ne; [exact Hsome | congruence].
Qed.

End ArchiveWrites.

(** X14: the history directory is append-only under [main]: every snapshot
    file it holds before a run is there with the same content after the run,
    whether the run completes or throws. *)
Theorem archive_run_keeps_snapshots (ROOT : string) (now : Archive.Clock)
  (w : Archive.World) (k : string) (snapshot : Snapshot.t) :
  Archive.history (Archive.files w) !! k = Some snapshot ->
  Archive.history (Archive.files (snd (Archive.main ROOT now w))) !! k
  = Some snapshot.
Proof.
  revert w k snapshot.
  change (Inv.keepsSnapshots (Archive.main ROOT now)).
  unfold Archive.main.
  repeat first
    [ apply snapshots_archiveSnapshot
    | apply snapshots_readFile
    | apply snapshots_of_archive;
      first [ apply arch_ret | apply arch_console_log
            | apply arch_console_log_template | apply arch_updateHistoryPage
            | apply arch_generateChangesTemplate ]
    | apply snapshots_bind; [| intros] ].
Qed.

Lemma archive_run_keeps_snapshots_witness :
  Archive.history
    (Archive.files
       (snd (Archive.main Sample.ROOT Sample.february2026 Sample.laggingWorld)))
  !! "2025-12-20.json"
  = Some Sample.decemberSnapshot.
Proof.
  apply (archive_run_keeps_snapshots Sample.ROOT Sample.february2026
           Sample.laggingWorld "2025-12-20.json" Sample.decemberSnapshot).
  reflexivity.
Defined.

(** X15: a run of [main] only prints the change-log template: it writes
    neither [data/current.json] nor [data/historical-changes.json], whether
    it completes or throws. *)
Theorem archive_run_keeps_data (ROOT : string) (now : Archive.Clock)
  (w : Archive.World) :
  Archive.current_json (Archive.files (snd (Archive.main ROOT now w)))
  = Archive.current_json (Archive.files w)
  /\ Archive.changes_json (Archive.files (snd (Archive.main ROOT now w)))
     = Archive.changes_json (Archive.files w).
Proof.
  revert w.
  change (Inv.keepsData (Archive.main ROOT now)).
  unfold Archive.main.
  repeat first
    [ apply data_ret | apply data_console_log | apply data_console_log_template
    | apply data_readFile | apply data_archiveSnapshot
    | apply data_updateHistoryPage | apply data_generateChangesTemplate
    | apply data_bind; [| intros] ].
Qed.

(** ** Failures of the archive script *)

Section ArchiveFailures.

Import Archive.

Lemma bind_none {A B : Type} (m : Script A) (f : A -> Script B)
  (w w' : World) :
  m w = (None, w') -> bind m f w = (None, w').
Proof. intros H. unfold bind. now rewrite H. Qed.

Variable ROOT : string.

(** After the archive step nothing touches the directory: what [main]
    leaves there is what step 1 left. *)
Lemma main_history_fresh (now : Clock) (w : World)
  (current : CurrentAssessment) :
  current_json (files w) = Some current ->
  history (files w) !! (getDateString now ++ ".json") = None ->
  history (files (snd (main ROOT now w)))
  = <[getDateString now ++ ".json"
      := createHistorySnapshot current (getDateString now)]>
      (history (files w)).
Proof.
  intros Hcurrent Hmissing.
  unfold main.
  erewrite bind_some by reflexivity.
  erewrite bind_some
    by (unfold readFile, bind, getFiles; simpl; rewrite Hcurrent; reflexivity).
  erewrite bind_some by reflexivity.
  match goal with
  | |- context [bind (archiveSnapshot ROOT current ?d) _ ?w0] =>
      destruct (archiveSnapshot_run ROOT current d w0)
        as (dir & out & Hrun & _ & _ & Hfresh)
  end.
  erewrite bind_some by exact Hrun.
  match goal with
  | |- context [snd (?m ?w1)] =>
      assert (Hkeeps : Frame.keepsArchive m)
        by (repeat first
              [ apply arch_ret | apply arch_console_log
              | apply arch_console_log_template | apply arch_updateHistoryPage
              | apply arch_generateChangesTemplate
              | apply arch_bind; [| intros] ]);
      destruct (Hkeeps w1) as [Hhistory _]
  end.
  rewrite Hhistory. simpl. simpl in Hfresh. now apply Hfresh.
Qed.

Lemma main_fails_without_page (now : Clock) (w : World)
  (current : CurrentAssessment) :
  current_json (files w) = Some current ->
  history_page (files w) = None ->
  fst (main ROOT now w) = None.
Proof.
  intros Hcurrent Hpage.
  unfold main.
  erewrite bind_some by reflexivity.
  erewrite bind_some
    by (unfold readFile, bind, getFiles; simpl; rewrite Hcurrent; reflexivity).
  erewrite bind_some by reflexivity.
  match goal with
  | |- context [bind (archiveSnapshot ROOT current ?d) _ ?w0] =>
      destruct (archiveSnapshot_run ROOT current d w0)
        as (dir & out & Hrun & _)
  end.
  erewrite bind_some by exact Hrun.
  erewrite bind_none; [reflexivity |].
  unfold updateHistoryPage, bind, readFile, getFiles, throw. simpl.
  rewrite Hpage. reflexivity.
Qed.

Lemma main_fails_without_log (now : Clock) (w : World)
  (current : CurrentAssessment) (page : string) :
  current_json (files w) = Some current ->
  history_page (files w) = Some page ->
  changes_json (files w) = None ->
  fst (main ROOT now w) = None.
Proof.
  intros Hcurrent Hpage Hchanges.
  unfold main.
  erewrite bind_some by reflexivity.
  erewrite bind_some
    by (unfold readFile, bind, getFiles; simpl; rewrite Hcurrent; reflexivity).
  erewrite bind_some by reflexivity.
  match goal with
  | |- context [bind (archiveSnapshot ROOT current ?d) _ ?w0] =>
      destruct (archiveSnapshot_run ROOT current d w0)
        as (dir & out & Hrun & _)
  end.
  erewrite bind_some by exact Hrun.
  match goal with
  | |- context [bind (updateHistoryPage ?d) _ ?w1] =>
      destruct (updateHistoryPage_run d w1 page Hpage)
        as (updated & page' & out2 & Hrun2)
  end.
  erewrite bind_some by exact Hrun2.
  erewrite bind_some by reflexivity.
  erewrite bind_none; [reflexivity |].
  unfold generateChangesTemplate, getPreviousMonthData, bind, readFile,
    getFiles, throw. simpl.
  rewrite Hchanges. reflexivity.
Qed.

End ArchiveFailures.

(** X16: a run of [main] throws before it gets to its template when one of
    the three files it reads is missing: [data/current.json],
    [app/history/page.tsx] or [data/historical-changes.json]. *)
Theorem archive_run_needs_its_files (ROOT : string) (now : Archive.Clock)
  (w : Archive.World) :
  Archive.current_json (Archive.files w) = None
  \/ Archive.history_page (Archive.files w) = None
  \/ Archive.changes_json (Archive.files w) = None ->
  fst (Archive.main ROOT now w) = None.
Proof.
  intros Hmissing.
  destruct (Archive.current_json (Archive.files w)) as [current |] eqn:Hcurrent.
  2: { destruct w as [[cj dir page ch] out]. simpl in Hcurrent. subst cj.
       reflexivity. }
  destruct (Archive.history_page (Archive.files w)) as [page |] eqn:Hpage.
  2: { exact (main_fails_without_page ROOT now w current Hcurrent Hpage). }
  destruct (Archive.changes_json (Archive.files w)) as [changes |] eqn:Hchanges.
  2: { exact (main_fails_without_log ROOT now w current page Hcurrent Hpage
                Hchanges). }
  destruct Hmissing as [H | [H | H]]; discriminate H.
Qed.

Lemma archive_run_needs_its_files_witness :
  fst (Archive.main Sample.ROOT Sample.february2026
         (Archive.mkWorld
            (Archive.mkFiles (Some Sample.february) ∅ (Some Sample.page) None)
            []))
  = None.
Proof.
  apply (archive_run_needs_its_files Sample.ROOT Sample.february2026
           (Archive.mkWorld
              (Archive.mkFiles (Some Sample.february) ∅ (Some Sample.page) None)
              [])).
  right. right. reflexivity.
Defined.

(** X17: the snapshot is written before anything but the reading of
    [data/current.json] can fail: when that file is readable and the period
    has no snapshot yet, the directory holds the new snapshot after the run
    even if the run throws on a missing history page or change log. *)
Theorem snapshot_written_before_failures (ROOT : string) (now : Archive.Clock)
  (w : Archive.World) (current : CurrentAssessment) :
  Archive.current_json (Archive.files w) = Some current ->
  Archive.history (Archive.files w) !! (Archive.getDateString now ++ ".json")
  = None ->
  Archive.history (Archive.files (snd (Archive.main ROOT now w)))
  !! (Archive.getDateString now ++ ".json")
  = Some (Archive.createHistorySnapshot current (Archive.getDateString now)).
Proof.
  intros Hcurrent Hmissing.
  rewrite (main_history_fresh ROOT now w current Hcurrent Hmissing).
  apply lookup_insert_eq.
Qed.

Lemma snapshot_written_before_failures_witness :
  fst (Archive.main Sample.ROOT Sample.february2026
         (Archive.mkWorld (Archive.mkFiles (Some Sample.february) ∅ None None) []))
  = None
  /\ Archive.history
       (Archive.files
          (snd (Archive.main Sample.ROOT Sample.february2026
                  (Archive.mkWorld
                     (Archive.mkFiles (Some Sample.february) ∅ None None) []))))
     !! (Archive.getDateString Sample.february2026 ++ ".json")
     = Some (Archive.createHistorySnapshot Sample.february
               (Archive.getDateString Sample.february2026)).
Proof.
  split; [vm_compute; reflexivity |].
  apply (snapshot_written_before_failures Sample.ROOT Sample.february2026
           (Archive.mkWorld (Archive.mkFiles (Some Sample.february) ∅ None None)
              [])
           Sample.february);
    reflexivity.
Defined.

(** X18: with a change log that is not empty, [generateChangesTemplate]
    diffs the current scores against the snapshot of the file whose name
    sorts last in the history directory, and it writes nothing. *)
Theorem template_diffs_against_last_file (current : CurrentAssessment)
  (dateStr monthYear : string) (w : Archive.World) (changes : list Change.t)
  (lastFile : string) (lastSnapshot : Snapshot.t) :
  Archive.changes_json (Archive.files w) = Some changes ->
  changes <> [] ->
  Archive.history (Archive.files w) !! lastFile = Some lastSnapshot ->
  (forall other,
      is_Some (Archive.history (Archive.files w) !! other) ->
      other <> lastFile -> String.leb lastFile other = false) ->
  exists t,
    Archive.generateChangesTemplate current dateStr monthYear w = (Some t, w)
    /\ Change.categoryChanges t
       = Archive.detectChanges lastSnapshot (scores current).
Proof.
  intros Hchanges Hlogged Hlast Hgreatest.
  destruct (generate_run current dateStr monthYear w changes lastFile Hchanges)
    as (t & Hrun & _ & _ & Hdiff); [eauto |].
  exists t. split; [exact Hrun |].
  destruct (Hdiff Hlogged) as (k & s & Hk & Hs & ->).
  assert (Hname : last (Archive.sort
                          (Archive.readdirSync
                             (Archive.history (Archive.files w))))
                  = Some lastFile).
  { apply last_sort_greatest.
    - apply readdirSync_NoDup.
    - apply readdirSync_lookup. eauto.
    - intros y Hy Hne. apply Hgreatest; [| exact Hne].
      now apply (proj1 (readdirSync_lookup _ _)). }
  rewrite Hname in Hk. injection Hk as <-.
  rewrite Hlast in Hs. now injection Hs as <-.
Qed.

Lemma template_diffs_against_last_file_witness :
  exists t,
    Archive.generateChangesTemplate Sample.february "2026-02-20"
      "February 2026" Sample.laggingWorld
    = (Some t, Sample.laggingWorld)
    /\ Change.categoryChanges t
       = Archive.detectChanges Sample.januarySnapshot (scores Sample.february).
Proof.
  apply (template_diffs_against_last_file Sample.february "2026-02-20"
           "February 2026" Sample.laggingWorld
           [Sample.changeEntry "December 2025" "2025-12-20" (49 # 10)%Q None]
           "2026-01-20.json" Sample.januarySnapshot).
  - reflexivity.
  - discriminate.
  - reflexivity.
  - intros other [s Hs] Hne.
    unfold Sample.laggingWorld in Hs. simpl in Hs.
    apply lookup_insert_Some in Hs as [[<- _] | [_ Hs]]; [now elim Hne |].
    apply lookup_insert_Some in Hs as [[<- _] | [_ Hs]]; [reflexivity |].
    rewrite lookup_empty in Hs. discriminate.
Defined.

(** X19: the category diff lists, in the order of the current scores,
    exactly the entries whose score is not the snapshot's (a category the
    snapshot lacks included); each entry carries the snapshot's score as
    [from] and the current score as [to]. *)
Theorem diff_lists_the_changed_categories (lastSnapshot : Snapshot.t)
  (entries : JS.JSObject CategoryScore) :
  map Change.category_id (Archive.detectChanges lastSnapshot entries)
  = map fst (List.filter (Inv.reported lastSnapshot) entries)
  /\ map Change.from (Archive.detectChanges lastSnapshot entries)
     = map (fun entry => JS.get (Snapshot.scores lastSnapshot) (fst entry))
         (List.filter (Inv.reported lastSnapshot) entries)
  /\ map Change.to (Archive.detectChanges lastSnapshot entries)
     = map (fun entry => score (snd entry))
         (List.filter (Inv.reported lastSnapshot) entries).
Proof.
  induction entries as [| [k c] r (IHid & IHfrom & IHto)];
    [repeat split |].
  cbn [Archive.detectChanges List.filter].
  assert (Hreported :
    Inv.reported lastSnapshot (k, c)
    = match JS.get (Snapshot.scores lastSnapshot) k with
      | Some o => negb (JS.strictEq o (score c))
      | None => true
      end) by reflexivity.
  destruct (JS.get (Snapshot.scores lastSnapshot) k) as [o |] eqn:Hget;
    [destruct (negb (JS.strictEq o (score c))) |];
    rewrite Hreported;
    cbn [map Change.category_id Change.from Change.to fst snd];
    rewrite ?Hget, ?IHid, ?IHfrom, ?IHto; repeat split.
Qed.

(** ** The history page *)

Section HistoryPageUpdate.

Import Archive.

Lemma string_app_assoc (a b c : string) : ((a ++ b) ++ c = a ++ (b ++ c))%string.
Proof.
  induction a as [| x a IH]; [reflexivity |].
  change (String x ((a ++ b) ++ c) = String x (a ++ (b ++ c)))%string.
  now f_equal.
Qed.

Lemma substring_skip (a s : string) (n : nat) :
  substring (String.length a) n (a ++ s) = substring 0 n s.
Proof. induction a as [| x a IH]; simpl; [reflexivity | exact IH]. Qed.

Lemma substring_prefix (sub rest : string) :
  substring 0 (String.length sub) (sub ++ rest) = sub.
Proof.
  induction sub as [| x sub IH]; simpl.
  - destruct rest; reflexivity.
  - now rewrite IH.
Qed.

Lemma includes_middle (a sub b : string) :
  sub <> EmptyString -> includes (a ++ sub ++ b) sub = true.
Proof.
  intros Hne. unfold includes.
  destruct (String.index 0 sub (a ++ sub ++ b)) as [i |] eqn:Hindex;
    [reflexivity |].
  exfalso.
  apply (index_correct3 0 (String.length a) sub (a ++ sub ++ b) Hindex Hne);
    [lia |].
  now rewrite substring_skip, substring_prefix.
Qed.

(** Text put into the page contains what it was built around. *)
Lemma includes_insertAt (pos : nat) (before sub after content : string) :
  sub <> EmptyString ->
  includes (insertAt pos (before ++ sub ++ after) content) sub = true.
Proof.
  intros Hne. unfold insertAt.
  rewrite (string_app_assoc before), (string_app_assoc sub).
  rewrite <- (string_app_assoc _ before).
  now apply includes_middle.
Qed.

Lemma getImportName_nonempty (dateStr : string) :
  getImportName dateStr <> EmptyString.
Proof.
  unfold getImportName.
  destruct (split "-" dateStr) as [| year [| month rest]]; discriminate.
Qed.

End HistoryPageUpdate.

(** X20: for a period date without [$], as every date [getDateString]
    makes, updating the history page is idempotent on a page that has a
    history import line or the snapshots array: after one call the page
    mentions the import name of the period, and a second call for the same
    period returns false and leaves every file as it is. *)
Theorem history_page_update_idempotent (dateStr : string) (w : Archive.World)
  (content : string) :
  Inv.dollarFree dateStr = true ->
  Archive.history_page (Archive.files w) = Some content ->
  Archive.lastImportEnd content 0 0 None <> None
  \/ Archive.arrayClosing content <> None ->
  let w1 := snd (Archive.updateHistoryPage dateStr w) in
  (exists page,
      Archive.history_page (Archive.files w1) = Some page
      /\ Archive.includes page (Archive.getImportName dateStr) = true)
  /\ fst (Archive.updateHistoryPage dateStr w1) = Some false
  /\ Archive.files (snd (Archive.updateHistoryPage dateStr w1))
     = Archive.files w1.
Proof.
  intros _ Hpage Hanchor w1.
  pose proof (getImportName_nonempty dateStr) as Hname.
  assert (Hincluded : exists page,
             Archive.history_page (Archive.files w1) = Some page
             /\ Archive.includes page (Archive.getImportName dateStr) = true).
  { subst w1. destruct w as [[cj dir pg ch] out]. simpl in Hpage. subst pg.
    unfold Archive.updateHistoryPage, Archive.bind, Archive.readFile,
      Archive.getFiles, Archive.setFiles, Archive.ret, Archive.console_log.
    simpl.
    destruct (Archive.includes content (Archive.getImportName dateStr))
      eqn:Hinc; simpl.
    - now exists content.
    - eexists. split; [reflexivity |].
      destruct (Archive.lastImportEnd content 0 0 None) as [pos |] eqn:Hlast.
      + match goal with
        | |- context [Archive.arrayClosing ?c1] =>
            destruct (Archive.arrayClosing c1) as [pos2 |]
        end; now apply includes_insertAt.
      + destruct Hanchor as [Hanchor | Hanchor]; [now elim Hanchor |].
        destruct (Archive.arrayClosing content) as [pos2 |];
          [| now elim Hanchor].
        now apply includes_insertAt. }
  split; [exact Hincluded |].
  destruct Hincluded as (page & Hpage1 & Hinc1).
  destruct w1 as [[cj1 dir1 pg1 ch1] out1]. simpl in Hpage1. subst pg1.
  unfold Archive.updateHistoryPage, Archive.bind, Archive.readFile,
    Archive.getFiles, Archive.ret, Archive.console_log. simpl.
  rewrite Hinc1. simpl. split; reflexivity.
Qed.

Lemma history_page_update_idempotent_witness :
  let w1 := snd (Archive.updateHistoryPage "2026-02-20" Sample.februaryWorld) in
  (exists page,
      Archive.history_page (Archive.files w1) = Some page
      /\ Archive.includes page (Archive.getImportName "2026-02-20") = true)
  /\ fst (Archive.updateHistoryPage "2026-02-20" w1) = Some false
  /\ Archive.files (snd (Archive.updateHistoryPage "2026-02-20" w1))
     = Archive.files w1.
Proof.
  apply (history_page_update_idempotent "2026-02-20" Sample.februaryWorld
           Sample.page).
  - reflexivity.
  - reflexivity.
  - left. vm_compute. discriminate.
Defined.

(** ** The date of the period and the names derived from it *)

Section DateNames.

Import Archive.

Lemma pretty_N_char_not_dash (x : N) :
  Ascii.eqb (pretty_N_char x) "-" = false.
Proof.
  unfold pretty_N_char.
  repeat match goal with
         | |- context [match ?p with _ => _ end] => destruct p
         end; reflexivity.
Qed.

Lemma pretty_N_go_dashFree (x : N) :
  forall s, Inv.dashFree s = true -> Inv.dashFree (pretty_N_go x s) = true.
Proof.
  induction x as [x IH] using (well_founded_induction N.lt_wf_0).
  intros s Hs.
  destruct (N.eq_dec x 0%N) as [-> | Hne].
  - now rewrite pretty_N_go_0.
  - rewrite pretty_N_go_step by lia.
    apply IH.
    + apply N.div_lt; lia.
    + cbn [Inv.dashFree]. now rewrite pretty_N_char_not_dash, Hs.
Qed.

Lemma pretty_N_dashFree (x : N) : Inv.dashFree (pretty x) = true.
Proof.
  unfold pretty, pretty_N. destruct (decide (x = 0%N)); [reflexivity |].
  now apply pretty_N_go_dashFree.
Qed.

Lemma padStart2_dashFree (s : string) :
  Inv.dashFree s = true -> Inv.dashFree (padStart2 s) = true.
Proof.
  intros Hs. unfold padStart2.
  destruct (String.length s) as [| [| n]]; [reflexivity | exact Hs | exact Hs].
Qed.

Lemma pretty_N_char_not_dollar (x : N) :
  Ascii.eqb (pretty_N_char x) "$" = false.
Proof.
  unfold pretty_N_char.
  repeat match goal with
         | |- context [match ?p with _ => _ end] => destruct p
         end; reflexivity.
Qed.

Lemma pretty_N_go_dollarFree (x : N) :
  forall s, Inv.dollarFree s = true ->
            Inv.dollarFree (pretty_N_go x s) = true.
Proof.
  induction x as [x IH] using (well_founded_induction N.lt_wf_0).
  intros s Hs.
  destruct (N.eq_dec x 0%N) as [-> | Hne].
  - now rewrite pretty_N_go_0.
  - rewrite pretty_N_go_step by lia.
    apply IH.
    + apply N.div_lt; lia.
    + cbn [Inv.dollarFree]. now rewrite pretty_N_char_not_dollar, Hs.
Qed.

Lemma pretty_N_dollarFree (x : N) : Inv.dollarFree (pretty x) = true.
Proof.
  unfold pretty, pretty_N. destruct (decide (x = 0%N)); [reflexivity |].
  now apply pretty_N_go_dollarFree.
Qed.

Lemma dollarFree_app (a b : string) :
  Inv.dollarFree (a ++ b) = Inv.dollarFree a && Inv.dollarFree b.
Proof.
  induction a as [| c a IH]; [reflexivity |].
  change (String c a ++ b)%string with (String c (a ++ b)).
  cbn [Inv.dollarFree]. now rewrite IH, andb_assoc.
Qed.

(** The date of the period has no [$]: the dates [main] passes to
    [updateHistoryPage] are in the domain where its model is the code. *)
Lemma getDateString_dollarFree (now : Clock) :
  Inv.dollarFree (getDateString now) = true.
Proof.
  unfold getDateString. rewrite !dollarFree_app.
  assert (Hy : Inv.dollarFree (pretty (getFullYear now)) = true).
  { destruct (getFullYear now) as [| p | p]; [reflexivity | |].
    - apply (pretty_N_dollarFree (Npos p)).
    - change (pretty (Z.neg p)) with ("-" ++ pretty (Npos p))%string.
      rewrite dollarFree_app. now rewrite (pretty_N_dollarFree (Npos p)). }
  assert (Hm : Inv.dollarFree
                 (padStart2 (pretty (getMonth now + 1)%nat)) = true).
  { unfold padStart2.
    pose proof (pretty_N_dollarFree (N.of_nat (getMonth now + 1))) as Hp.
    change (pretty (getMonth now + 1)%nat)
      with (pretty (N.of_nat (getMonth now + 1))).
    destruct (String.length (pretty (N.of_nat (getMonth now + 1))))
      as [| [| n]]; [reflexivity | | exact Hp].
    rewrite dollarFree_app. now rewrite Hp. }
  rewrite Hy, Hm. reflexivity.
Qed.

(** Splitting on [-] cuts after a first part that has no [-]. *)
Lemma split_first (a b : string) :
  Inv.dashFree a = true ->
  split "-" (a ++ String "-" b) = a :: split "-" b.
Proof.
  induction a as [| c a IH]; intros Hfree; [reflexivity |].
  cbn [Inv.dashFree] in Hfree. apply andb_true_iff in Hfree as [Hc Ha].
  apply negb_true_iff in Hc.
  change (String c a ++ String "-" b)%string
    with (String c (a ++ String "-" b)).
  cbn [split]. rewrite Hc, (IH Ha). reflexivity.
Qed.

End DateNames.

(** X21: for a year that is not negative, the date of the period splits
    back into its year, its two-digit month and the day 20, so the import
    name of the history page is [history] followed by the year and the
    month. *)
Theorem import_name_of_period (now : Archive.Clock) :
  (0 <= Archive.getFullYear now)%Z ->
  Archive.split "-" (Archive.getDateString now)
  = [ pretty (Archive.getFullYear now);
      Archive.padStart2 (pretty (Archive.getMonth now + 1)%nat);
      "20" ]
  /\ Archive.getImportName (Archive.getDateString now)
     = "history" ++ pretty (Archive.getFullYear now)
       ++ Archive.padStart2 (pretty (Archive.getMonth now + 1)%nat).
Proof.
  intros Hyear.
  assert (Hy : Inv.dashFree (pretty (Archive.getFullYear now)) = true).
  { destruct (Archive.getFullYear now) as [| p | p]; [reflexivity | | lia].
    apply (pretty_N_dashFree (Npos p)). }
  assert (Hm : Inv.dashFree
                 (Archive.padStart2 (pretty (Archive.getMonth now + 1)%nat))
               = true).
  { apply padStart2_dashFree, pretty_N_dashFree. }
  assert (Hsplit :
    Archive.split "-" (Archive.getDateString now)
    = [ pretty (Archive.getFullYear now);
        Archive.padStart2 (pretty (Archive.getMonth now + 1)%nat);
        "20" ]).
  { unfold Archive.getDateString.
    change (Archive.split "-"
              (pretty (Archive.getFullYear now)
               ++ String "-"
                    (Archive.padStart2 (pretty (Archive.getMonth now + 1)%nat)
                     ++ String "-" "20"))
            = [ pretty (Archive.getFullYear now);
                Archive.padStart2 (pretty (Archive.getMonth now + 1)%nat);
                "20" ]).
    rewrite (split_first _ _ Hy), (split_first _ _ Hm). reflexivity. }
  split; [exact Hsplit |].
  unfold Archive.getImportName. now rewrite Hsplit.
Qed.

Lemma import_name_of_period_witness :
  Archive.split "-" (Archive.getDateString Sample.february2026)
  = [ pretty (Archive.getFullYear Sample.february2026);
      Archive.padStart2 (pretty (Archive.getMonth Sample.february2026 + 1)%nat);
      "20" ]
  /\ Archive.getImportName (Archive.getDateString Sample.february2026)
     = "history" ++ pretty (Archive.getFullYear Sample.february2026)
       ++ Archive.padStart2
            (pretty (Archive.getMonth Sample.february2026 + 1)%nat).
Proof.
  apply (import_name_of_period Sample.february2026).
  simpl. lia.
Defined.

(** ** The comparison table *)

(** X22: in the comparison table of the history page, a row's change is
    its current score minus its oldest score, a missing score counting
    as 0; when the oldest snapshot was taken from the current assessment,
    every row shows the same score twice, so no change. *)
Theorem table_of_a_fresh_snapshot_shows_no_change
  (categories : list HistoryPage.Category) (selectedDomain dateStr : string)
  (later : list Snapshot.t) (current : CurrentAssessment) :
  NoDup (JS.keys (scores current)) ->
  Forall
    (fun row =>
       HistoryPage.oldestScore row = HistoryPage.currentScore row
       /\ (HistoryPage.change row == 0)%Q
       /\ HistoryPage.currentScore row
          = HistoryPage.orZero (Spec.storedScore current (HistoryPage.row_id row)))
    (HistoryPage.tableData categories selectedDomain
       (Archive.createHistorySnapshot current dateStr :: later) current).
Proof.
  intros Hnodup. unfold HistoryPage.tableData.
  apply List.Forall_map, List.Forall_forall. intros cat _.
  cbn [HistoryPage.oldestScore HistoryPage.currentScore HistoryPage.change
       HistoryPage.row_id].
  assert (Hsame : HistoryPage.oldestScoreOf
                    (Archive.createHistorySnapshot current dateStr :: later)
                    (HistoryPage.id cat)
                  = HistoryPage.currentScoreOf current (HistoryPage.id cat)).
  { unfold HistoryPage.oldestScoreOf, HistoryPage.currentScoreOf,
      Archive.createHistorySnapshot. cbn [Snapshot.scores].
    rewrite (snapshot_scores _ Hnodup).
    destruct (JS.get (scores current) (HistoryPage.id cat)); reflexivity. }
  rewrite Hsame. split; [reflexivity |]. split; [ring | reflexivity].
Qed.

Lemma table_of_a_fresh_snapshot_shows_no_change_witness :
  Forall
    (fun row =>
       HistoryPage.oldestScore row = HistoryPage.currentScore row
       /\ (HistoryPage.change row == 0)%Q
       /\ HistoryPage.currentScore row
          = HistoryPage.orZero
              (Spec.storedScore Sample.february (HistoryPage.row_id row)))
    (HistoryPage.tableData
       [ HistoryPage.mkCategory "elections" "Elections" "rule-of-law"
           "Rule of Law & National Security" "Integrity of elections"
           (HistoryPage.mkRubric "a" "b" "c" "d" "e") ]
       "all"
       (Archive.createHistorySnapshot Sample.february "2026-02-20" :: [])
       Sample.february).
Proof.
  apply (table_of_a_fresh_snapshot_shows_no_change _ "all" "2026-02-20" []
           Sample.february).
  apply (bool_decide_unpack _). vm_compute. exact I.
Defined.

(** ** A category without sources *)

Section NoSources.

Import Weekly.

Lemma nosources_modify (categoryId : string) (f : CategoryScore -> CategoryScore) :
  (forall cat, sources (f cat) = sources cat) ->
  Inv.preserves
    (fun c => exists cat, JS.get (scores c) categoryId = Some cat
                          /\ sources cat = None)
    (modifyCategory categoryId f).
Proof.
  intros Hf s (cat & Hget & Hnone). unfold modifyCategory. rewrite Hget.
  cbn [snd current scores]. exists (f cat).
  split; [apply get_set_same | now rewrite Hf].
Qed.

Lemma ens_absurd_throw {A : Type} : Inv.ensures (fun _ => False) (@throw A).
Proof. intros s a s'. discriminate. Qed.

End NoSources.

(** X25: a category stored without the optional [sources] field cannot be
    edited to the end: whatever the operator answers, the edit throws at
    the listing of the sources or waits for input, after the score, trend
    and findings answers have been applied in memory. *)
Theorem edit_without_sources_never_completes (today categoryId : string)
  (s : Weekly.Session) (cat : CategoryScore) :
  JS.get (scores (Weekly.current s)) categoryId = Some cat ->
  sources cat = None ->
  fst (Weekly.updateCategory today categoryId s) <> Weekly.Ret tt.
Proof.
  intros Hget Hnone Hret.
  destruct (Weekly.updateCategory today categoryId s) as [r s'] eqn:Hrun.
  simpl in Hret. subst r.
  unfold Weekly.updateCategory in Hrun.
  set (P := fun c => exists cat0, JS.get (scores c) categoryId = Some cat0
                                  /\ sources cat0 = None).
  assert (H0 : P (Weekly.current s)) by (exists cat; now split).
  apply weekly_bind_inv in Hrun as (c0 & s1 & Hstep & Hrun).
  pose proof (pres_getCategory P categoryId s H0) as H1.
  rewrite Hstep in H1. simpl in H1. clear Hstep.
  apply weekly_bind_inv in Hrun as (newScore & s2 & Hstep & Hrun).
  pose proof (pres_question P s1 H1) as H2.
  rewrite Hstep in H2. simpl in H2. clear Hstep.
  apply weekly_bind_inv in Hrun as ([] & s3 & Hstep & Hrun).
  assert (H3 : P (Weekly.current s3)).
  { assert (Hkeep : Inv.preserves P (Weekly.updateScore categoryId newScore)).
    { unfold Weekly.updateScore.
      destruct (JSString.truthy newScore); [| apply pres_ret].
      destruct (JSString.parseInt newScore); [| apply pres_ret].
      apply nosources_modify. reflexivity. }
    specialize (Hkeep s2 H2). now rewrite Hstep in Hkeep. }
  clear Hstep.
  apply weekly_bind_inv in Hrun as (trendInput & s4 & Hstep & Hrun).
  pose proof (pres_question P s3 H3) as H4.
  rewrite Hstep in H4. simpl in H4. clear Hstep.
  apply weekly_bind_inv in Hrun as ([] & s5 & Hstep & Hrun).
  assert (H5 : P (Weekly.current s5)).
  { assert (Hkeep : Inv.preserves P (Weekly.updateTrend categoryId trendInput)).
    { unfold Weekly.updateTrend.
      destruct (JSString.truthy trendInput); [| apply pres_ret].
      match goal with
      | |- Inv.preserves _ (match ?found with _ => _ end) => destruct found
      end; [apply nosources_modify; reflexivity | apply pres_ret]. }
    specialize (Hkeep s4 H4). now rewrite Hstep in Hkeep. }
  clear Hstep.
  apply weekly_bind_inv in Hrun as (updateFindings & s6 & Hstep & Hrun).
  pose proof (pres_question P s5 H5) as H6.
  rewrite Hstep in H6. simpl in H6. clear Hstep.
  apply weekly_bind_inv in Hrun as ([] & s7 & Hstep & Hrun).
  assert (H7 : P (Weekly.current s7)).
  { match type of Hstep with
    | ?m s6 = _ => assert (Hkeep : Inv.preserves P m)
    end.
    { destruct (String.eqb (JSString.toLowerCase updateFindings) "y");
        [| apply pres_ret].
      apply pres_bind; [apply pres_reading | intros newFindings].
      destruct (Weekly.nonEmpty newFindings); [| apply pres_ret].
      apply nosources_modify. reflexivity. }
    specialize (Hkeep s6 H6). now rewrite Hstep in Hkeep. }
  clear Hstep.
  apply weekly_bind_inv in Hrun as (cat7 & s8 & Hstep & Hrun).
  unfold Weekly.getCategory in Hstep.
  destruct H7 as (cat0 & Hget7 & Hnone7).
  rewrite Hget7 in Hstep. injection Hstep as <- <-.
  rewrite Hnone7 in Hrun. discriminate Hrun.
Qed.

Lemma edit_without_sources_never_completes_witness :
  fst (Weekly.updateCategory "2026-02-18" "elections"
         (Weekly.mkSession ["7"; "i"; "n"; "n"]
            (mkCurrentAssessment "2026-01-18" "January 2026"
               [("elections",
                 mkCategoryScore 5 stable ["Finding"] None "2026-01-15")]
               [] (59 # 10)%Q Elevated)
            None))
  <> Weekly.Ret tt.
Proof.
  apply (edit_without_sources_never_completes "2026-02-18" "elections"
           (Weekly.mkSession ["7"; "i"; "n"; "n"]
              (mkCurrentAssessment "2026-01-18" "January 2026"
                 [("elections",
                   mkCategoryScore 5 stable ["Finding"] None "2026-01-15")]
                 [] (59 # 10)%Q Elevated)
              None)
           (mkCategoryScore 5 stable ["Finding"] None "2026-01-15"));
    reflexivity.
Defined.

Lemma main_diffs_against_new_snapshot_witness :
  exists t w',
    Archive.main Sample.ROOT Sample.february2026 Sample.februaryWorld
    = (Some t, w')
    /\ Change.categoryChanges t = [].
Proof.
  apply (main_diffs_against_new_snapshot Sample.ROOT Sample.february2026
           Sample.februaryWorld Sample.february Sample.page
           [Sample.changeEntry "January 2026" "2026-01-20" (59 # 10)%Q None]).
  - reflexivity.
  - reflexivity.
  - reflexivity.
  - discriminate.
  - apply (bool_decide_unpack _). vm_compute. exact I.
  - reflexivity.
  - intros k [s Hs].
    unfold Sample.februaryWorld in Hs. simpl in Hs.
    apply lookup_insert_Some in Hs as [[<- _] | [_ Hs]]; [reflexivity |].
    rewrite lookup_empty in Hs. discriminate.
Defined.
